(** * Daylight: the mood-entry routes and the day-bucket chart data

    A shallow embedding of the Express routes of the Daylight backend
    (the router [routes/moods.js] mounted by [server.js], and the older
    [server.js] that defines the routes inline) and of [prepareChartData]
    of the [MoodTracker] component, with the properties of the mood-entry
    service and of the aggregation proved over them. *)

From Stdlib Require Import ZArith Lia String Ascii List SpecFloat.
From stdpp Require Import base tactics option list strings pretty gmap sorting.

Local Set Warnings "-register-all".
Local Open Scope string_scope.
Local Open Scope Z_scope.

(** ** The JavaScript values and built-ins the source relies on

    A string is held as the bytes of its UTF-8 form. *)

Module Js.

(** *** Numbers

    A Number is an IEEE 754 binary64 value. *)
Definition Number : Type := spec_float.

Definition prec : Z := 53.
Definition emax : Z := 1024.

(** The Number nearest to an integer (the integer itself up to 2^53). *)
Definition Number_of_Z (z : Z) : Number := binary_normalize prec emax z 0 false.

(** [x + y], [x / y] and [x < y]. *)
Definition Number_add (x y : Number) : Number := SFadd prec emax x y.
Definition Number_div (x y : Number) : Number := SFdiv prec emax x y.
Definition Number_ltb (x y : Number) : bool := SFltb x y.

(** The integer that [x] is, when it is one. *)
Definition Number_toZ (x : Number) : option Z :=
  match x with
  | S754_zero _ => Some 0
  | S754_finite s m e =>
      let v :=
        if 0 <=? e then Some (Z.pos m * 2 ^ e)
        else if Z.pos m mod 2 ^ (- e) =? 0 then Some (Z.pos m / 2 ^ (- e))
        else None in
      (fun n => if s then - n else n) <$> v
  | _ => None
  end.

(** [ToIntegerOrInfinity] on a finite Number: the fraction is cut off,
    towards zero; [None] for [NaN] and the infinities. *)
Definition Number_trunc (x : Number) : option Z :=
  match x with
  | S754_zero _ => Some 0
  | S754_finite s m e =>
      let n := if 0 <=? e then Z.pos m * 2 ^ e else Z.pos m / 2 ^ (- e) in
      Some (if s then - n else n)
  | _ => None
  end.

(** The number of decimal digits of a positive integer. *)
Definition decimalLength (n : Z) : Z :=
  Z.of_nat (String.length (pretty (Z.to_N n))).

(** [c * 10^q] against [num / den]. *)
Definition compareDecimal (num den c q : Z) : comparison :=
  if 0 <=? q then (c * 10 ^ q * den ?= num)
  else (c * den ?= num * 10 ^ (- q)).

(** The largest [p] with [10^p <= num / den], for [num / den < 1], searched
    downwards from [p]. *)
Fixpoint log10Below (fuel : nat) (num den p : Z) : Z :=
  match fuel with
  | O => p
  | S f => if den <=? num * 10 ^ (- p) then p else log10Below f num den (p - 1)
  end.

Definition floorLog10 (num den : Z) : Z :=
  if den <=? num then decimalLength (num / den) - 1
  else log10Below 400 num den (-1).

(** The digits of the finite positive Number [num / den], which is what
    every real from [lo / den] to [hi / den] rounds to (the ends included
    when [closed]): the integer [s] of [k] digits, for the least [k] that
    has one, for which [s * 10^q] lies in that range, the nearest to the
    Number when there are two.  [p10] is the exponent of the leading
    digit. *)
Fixpoint shortest (fuel : nat) (k : Z) (num den lo hi : Z) (closed : bool)
    (p10 : Z) : Z * Z :=
  let q := p10 + 1 - k in
  let s := if 0 <=? q then num / (den * 10 ^ q) else num * 10 ^ (- q) / den in
  let inside c :=
    match compareDecimal lo den c q, compareDecimal hi den c q with
    | Gt, Lt => true
    | Eq, Lt | Gt, Eq | Eq, Eq => closed
    | _, _ => false
    end in
  let below := inside s in
  let above := inside (s + 1) in
  let nearer :=
    let d := if 0 <=? q then (2 * num ?= (2 * s + 1) * 10 ^ q * den)
             else (2 * num * 10 ^ (- q) ?= (2 * s + 1) * den) in
    match d with
    | Gt => true
    | Eq => Z.odd s
    | Lt => false
    end in
  match fuel with
  | O => (s, q)
  | S f =>
      if below && above then (if nearer then (s + 1, q) else (s, q))
      else if below then (s, q)
      else if above then (s + 1, q)
      else shortest f (k + 1) num den lo hi closed p10
  end.

(** The digits without the zeros they end in. *)
Fixpoint stripZeros (fuel : nat) (s q : Z) : Z * Z :=
  match fuel with
  | O => (s, q)
  | S f => if (s mod 10 =? 0) && negb (s =? 0) then stripZeros f (s / 10) (q + 1)
           else (s, q)
  end.

Fixpoint zeros (n : nat) : string :=
  match n with O => "" | S k => String "0" (zeros k) end.

Definition takeString (n : nat) (s : string) : string := String.substring 0 n s.
Definition dropString (n : nat) (s : string) : string :=
  String.substring n (String.length s - n) s.

(** The text of a finite positive Number with the digits [s] and the
    decimal point after the [n]-th of them: plain digits up to 10^21, a
    fraction down to 10^-6, the exponent form beyond. *)
Definition formatDecimal (s n : Z) : string :=
  let digits := pretty (Z.to_N s) in
  let k := Z.of_nat (String.length digits) in
  if (k <=? n) && (n <=? 21) then digits +:+ zeros (Z.to_nat (n - k))
  else if (0 <? n) && (n <=? 21)
  then takeString (Z.to_nat n) digits +:+ "." +:+ dropString (Z.to_nat n) digits
  else if (-6 <? n) && (n <=? 0)
  then "0." +:+ zeros (Z.to_nat (- n)) +:+ digits
  else
    let e := n - 1 in
    let exponent := (if 0 <=? e then "+" else "-") +:+ pretty (Z.to_N (Z.abs e)) in
    if k =? 1 then digits +:+ "e" +:+ exponent
    else takeString 1 digits +:+ "." +:+ dropString 1 digits +:+ "e" +:+ exponent.

(** [Number::toString] of the finite positive Number [m * 2^e]. *)
Definition Number_toString_finite (m : positive) (e : Z) : string :=
  let up := 2 ^ Z.max e 0 in
  let den := 4 * 2 ^ Z.max (- e) 0 in
  let num := 4 * Z.pos m * up in
  let boundary := (Z.pos m =? 2 ^ 52) && (-1074 <? e) in
  let lo := (if boundary then 4 * Z.pos m - 1 else 4 * Z.pos m - 2) * up in
  let hi := (4 * Z.pos m + 2) * up in
  let '(s, q) := shortest 17 1 num den lo hi (Z.even (Z.pos m))
                   (floorLog10 num den) in
  let '(s, q) := stripZeros 25 s q in
  formatDecimal s (q + decimalLength s).

(** [Number::toString].  An integer below 2^53 prints as its digits, which
    are the shortest that read back as the Number. *)
Definition Number_toString (x : Number) : string :=
  match x with
  | S754_nan => "NaN"
  | S754_zero _ => "0"
  | S754_infinity s => if s then "-Infinity" else "Infinity"
  | S754_finite s m e =>
      (if s then "-" else "") +:+
      match Number_toZ (S754_finite false m e) with
      | Some z =>
          if z <? 2 ^ 53 then pretty (Z.to_N z) else Number_toString_finite m e
      | None => Number_toString_finite m e
      end
  end.

(** *** Values *)

(** A value that arrives in a JSON body.  A property that is absent reads
    as [undefined], which is [None] at type [option JsValue]. *)
Inductive JsValue : Type :=
  | JNull
  | JBool (b : bool)
  | JNum (x : Number)
  | JStr (s : string)
  | JArr (elems : list JsValue)
  | JObj (fields : list (string * JsValue)).

(** The result of [parseInt]: an integer-valued Number, [NaN] or an
    infinity.  [Int 0] stands for both zeros. *)
Inductive JsInt : Type :=
  | Int (z : Z)
  | NaN
  | Inf (negative : bool).

Definition JsInt_of_Number (x : Number) : JsInt :=
  match x with
  | S754_nan => NaN
  | S754_infinity s => Inf s
  | _ => match Number_toZ x with Some z => Int z | None => NaN end
  end.

(** [ToBoolean]: what [!v] and [v || w] test. *)
Definition truthy (v : option JsValue) : bool :=
  match v with
  | None => false
  | Some JNull => false
  | Some (JBool b) => b
  | Some (JNum (S754_zero _)) => false
  | Some (JNum S754_nan) => false
  | Some (JNum _) => true
  | Some (JStr s) => negb (String.eqb s "")
  | Some (JArr _) => true
  | Some (JObj _) => true
  end.

(** [v || w]. *)
Definition orElse (v : option JsValue) (w : JsValue) : JsValue :=
  match v with
  | Some x => if truthy v then x else w
  | None => w
  end.

(** [ToString] on a defined value; [None] when it throws a TypeError.  An
    array joins its elements with a comma, [null] elements printing as the
    empty string.  An object of a JSON body prints as "[object Object]",
    unless it has a property [toString] of its own: that one is not a
    function, [valueOf] gives the object back, and no primitive value is
    left to print. *)
Fixpoint ToString (v : JsValue) : option string :=
  match v with
  | JNull => Some "null"
  | JBool true => Some "true"
  | JBool false => Some "false"
  | JNum x => Some (Number_toString x)
  | JStr s => Some s
  | JArr elems =>
      (fix join (l : list JsValue) : option string :=
         match l with
         | [] => Some ""
         | x :: r =>
             match (match x with JNull => Some "" | _ => ToString x end) with
             | Some h =>
                 match r with
                 | [] => Some h
                 | _ => match join r with
                        | Some t => Some (h +:+ "," +:+ t)
                        | None => None
                        end
                 end
             | None => None
             end
         end) elems
  | JObj fields =>
      if existsb (fun f => String.eqb f.1 "toString") fields then None
      else Some "[object Object]"
  end.

(** White space that [parseInt] skips (StrWhiteSpaceChar), by the bytes of
    its UTF-8 form: TAB, LF, VT, FF, CR and SP in one byte; U+00A0 in two;
    U+1680, U+2000 to U+200A, U+2028, U+2029, U+202F, U+205F, U+3000 and
    U+FEFF in three. *)
Definition isWhiteSpace (c : ascii) : bool :=
  let n := nat_of_ascii c in
  ((9 <=? n) && (n <=? 13))%nat || (n =? 32)%nat.

Definition isWhiteSpace2 (c1 c2 : ascii) : bool :=
  ((nat_of_ascii c1 =? 194) && (nat_of_ascii c2 =? 160))%nat.

Definition isWhiteSpace3 (c1 c2 c3 : ascii) : bool :=
  let n1 := nat_of_ascii c1 in
  let n2 := nat_of_ascii c2 in
  let n3 := nat_of_ascii c3 in
  (((n1 =? 225) && (n2 =? 154) && (n3 =? 128))
   || ((n1 =? 226) && (n2 =? 128)
       && (((128 <=? n3) && (n3 <=? 138)) || (n3 =? 168) || (n3 =? 169)
           || (n3 =? 175)))
   || ((n1 =? 226) && (n2 =? 129) && (n3 =? 159))
   || ((n1 =? 227) && (n2 =? 128) && (n3 =? 128))
   || ((n1 =? 239) && (n2 =? 187) && (n3 =? 191)))%nat.

Fixpoint trimStart (s : string) : string :=
  match s with
  | String c1 s1 =>
      if isWhiteSpace c1 then trimStart s1
      else
      match s1 with
      | String c2 s2 =>
          if isWhiteSpace2 c1 c2 then trimStart s2
          else
          match s2 with
          | String c3 s3 =>
              if isWhiteSpace3 c1 c2 c3 then trimStart s3 else s
          | EmptyString => s
          end
      | EmptyString => s
      end
  | EmptyString => EmptyString
  end.

(** The value of [c] as a digit, for a radix up to 36. *)
Definition digitValue (c : ascii) : option Z :=
  let n := Z.of_nat (nat_of_ascii c) in
  if (48 <=? n) && (n <=? 57) then Some (n - 48)
  else if (97 <=? n) && (n <=? 122) then Some (n - 87)
  else if (65 <=? n) && (n <=? 90) then Some (n - 55)
  else None.

(** The longest prefix of radix-[R] digits of [s], as a number; [acc] is
    [None] until a digit has been read. *)
Fixpoint parseDigits (R : Z) (s : string) (acc : option Z) : option Z :=
  match s with
  | String c s' =>
      match digitValue c with
      | Some d =>
          if d <? R then parseDigits R s' (Some (R * default 0 acc + d))
          else acc
      | None => acc
      end
  | EmptyString => acc
  end.

(** [parseInt(string)] with no radix argument: skip white space, read a
    sign, switch to radix 16 on a [0x] prefix, read the digits; [NaN] when
    there is none.  The result is the Number nearest to the integer
    read. *)
Definition parseInt_string (input : string) : JsInt :=
  let S := trimStart input in
  let '(sign, S1) :=
    match S with
    | String "-" r => (-1, r)
    | String "+" r => (1, r)
    | _ => (1, S)
    end in
  let '(R, S2) :=
    match S1 with
    | String "0" (String "x" r) => (16, r)
    | String "0" (String "X" r) => (16, r)
    | _ => (10, S1)
    end in
  match parseDigits R S2 None with
  | Some n => JsInt_of_Number (Number_of_Z (sign * n))
  | None => NaN
  end.

(** [parseInt(v)]: the argument is converted with [ToString] first, and
    [parseInt] throws when that does ([None]); [undefined] prints as
    "undefined", which has no digit. *)
Definition parseInt (v : option JsValue) : option JsInt :=
  match v with
  | Some v => parseInt_string <$> ToString v
  | None => Some NaN
  end.

(** [s.split(sep)] for a non-empty separator: the pieces of [s] between
    the occurrences of [sep], scanned from the left.  [skip] counts the
    characters of a matched separator still to pass over and [cur] is the
    piece being read. *)
Fixpoint split_go (sep : string) (skip : nat) (cur : string) (s : string)
  : list string :=
  match s with
  | EmptyString => [cur]
  | String c s' =>
      match skip with
      | S k => split_go sep k cur s'
      | O =>
          if String.prefix sep s
          then cur :: split_go sep (String.length sep - 1) "" s'
          else split_go sep 0 (cur +:+ String c "") s'
      end
  end.

Definition split (sep : string) (s : string) : list string :=
  split_go sep 0 "" s.

(** [array.sort(compareFn)] with a consistent comparator: the sorted
    arrangement that keeps the order of the elements that compare equal.
    [before x y] says that [compareFn(x, y)] is not positive.  It is
    computed by insertion: [x] goes before the first element it is not
    after. *)
Fixpoint insertBy {A} (before : A -> A -> bool) (x : A) (l : list A) : list A :=
  match l with
  | [] => [x]
  | y :: r => if before x y then x :: y :: r else y :: insertBy before x r
  end.

Fixpoint sortBy {A} (before : A -> A -> bool) (l : list A) : list A :=
  match l with
  | [] => []
  | x :: r => insertBy before x (sortBy before r)
  end.

(** *** Dates

    A [Date] holds a time value: milliseconds since the epoch, or [NaN]
    for an Invalid Date ([None]). *)
Definition JsDate : Type := option Z.

Definition msPerDay : Z := 86400000.
Definition maxTime : Z := 8640000000000000.

Definition TimeClip (t : Z) : JsDate :=
  if (- maxTime <=? t) && (t <=? maxTime) then Some t else None.

Definition Day (t : Z) : Z := t / msPerDay.
Definition TimeWithinDay (t : Z) : Z := t mod msPerDay.
Definition MakeDate (day time : Z) : Z := day * msPerDay + time.

(** Year, month (1..12) and day of the month of a day number, in the
    proleptic Gregorian calendar: days are counted from 0000-03-01 in eras
    of 400 years (146097 days). *)
Definition civilFromDays (day : Z) : Z * Z * Z :=
  let z := day + 719468 in
  let era := z / 146097 in
  let doe := z mod 146097 in
  let yoe := (doe - doe / 1460 + doe / 36524 - doe / 146096) / 365 in
  let doy := doe - (365 * yoe + yoe / 4 - yoe / 100) in
  let mp := (5 * doy + 2) / 153 in
  let d := doy - (153 * mp + 2) / 5 + 1 in
  let m := if mp <? 10 then mp + 3 else mp - 9 in
  let y := yoe + era * 400 + (if m <=? 2 then 1 else 0) in
  (y, m, d).

(** The day number of year [y], month [m] (1..12), day [d]. *)
Definition daysFromCivil (y m d : Z) : Z :=
  let y' := if m <=? 2 then y - 1 else y in
  let era := y' / 400 in
  let yoe := y' mod 400 in
  let doy := (153 * (if 2 <? m then m - 3 else m + 9) + 2) / 5 + d - 1 in
  let doe := yoe * 365 + yoe / 4 - yoe / 100 + doy in
  era * 146097 + doe - 719468.

Definition YearFromTime (t : Z) : Z := (civilFromDays (Day t)).1.1.
(** [MonthFromTime] counts months from 0, as [getMonth] does. *)
Definition MonthFromTime (t : Z) : Z := (civilFromDays (Day t)).1.2 - 1.
Definition DateFromTime (t : Z) : Z := (civilFromDays (Day t)).2.

(** [MakeDay(year, month, date)]: the day number of the first of the month,
    plus [date - 1]; [month] counts from 0 and may overflow into the year. *)
Definition MakeDay (year month date : Z) : Z :=
  daysFromCivil (year + month / 12) (month mod 12 + 1) 1 + date - 1.

Definition InLeapYear (y : Z) : bool :=
  ((y mod 4 =? 0) && negb (y mod 100 =? 0)) || (y mod 400 =? 0).

Definition DaysInMonth (y m : Z) : Z :=
  if m =? 2 then (if InLeapYear y then 29 else 28)
  else if (m =? 4) || (m =? 6) || (m =? 9) || (m =? 11) then 30
  else 31.

Section LocalTime.
(** The offset of the process's time zone: [LocalTZA t true] at the UTC
    time [t], [LocalTZA t false] at the local time [t]. *)
Variable LocalTZA : Z -> bool -> Z.

Definition LocalTime (t : Z) : Z := t + LocalTZA t true.
Definition UTC (t : Z) : Z := t - LocalTZA t false.

(** [date.getDate()] of a valid date. *)
Definition Date_getDate (t : Z) : Z := DateFromTime (LocalTime t).

(** [date.setDate(dt)] of a valid date: the new time value. *)
Definition Date_setDate (t : Z) (dt : Z) : JsDate :=
  let tl := LocalTime t in
  let newDate :=
    MakeDate (MakeDay (YearFromTime tl) (MonthFromTime tl) dt)
             (TimeWithinDay tl) in
  TimeClip (UTC newDate).
End LocalTime.

(** Decimal digits, zero-padded to a fixed width. *)
Definition digitChar (d : Z) : ascii :=
  ascii_of_nat (48 + Z.to_nat (d mod 10)).

Fixpoint padDigits (width : nat) (n : Z) (acc : string) : string :=
  match width with
  | O => acc
  | S w => padDigits w (n / 10) (String (digitChar n) acc)
  end.

Definition pad (width : nat) (n : Z) : string := padDigits width n "".

(** The year of an ISO string: four digits from 0 to 9999, else a sign and
    six digits. *)
Definition isoYear (y : Z) : string :=
  if (0 <=? y) && (y <=? 9999) then pad 4 y
  else (if y <? 0 then "-" else "+") +:+ pad 6 (Z.abs y).

(** [date.toISOString()] of a valid date (an Invalid Date throws
    a RangeError). *)
Definition toISOString (t : Z) : string :=
  let '(y, m, d) := civilFromDays (Day t) in
  let w := TimeWithinDay t in
  isoYear y +:+ "-" +:+ pad 2 m +:+ "-" +:+ pad 2 d
  +:+ "T" +:+ pad 2 (w / 3600000) +:+ ":" +:+ pad 2 (w / 60000 mod 60)
  +:+ ":" +:+ pad 2 (w / 1000 mod 60) +:+ "." +:+ pad 3 (w mod 1000) +:+ "Z".

(** Exactly [n] decimal digits at the head of [s], and the rest. *)
Fixpoint readDigits (n : nat) (acc : Z) (s : string) : option (Z * string) :=
  match n with
  | O => Some (acc, s)
  | S k =>
      match s with
      | String c s' =>
          let v := Z.of_nat (nat_of_ascii c) in
          if (48 <=? v) && (v <=? 57)
          then readDigits k (10 * acc + (v - 48)) s'
          else None
      | EmptyString => None
      end
  end.

Definition expectChar (c : ascii) (s : string) : option string :=
  match s with
  | String c' s' => if Ascii.eqb c c' then Some s' else None
  | EmptyString => None
  end.

(** The year at the head of a date string: four digits, or a sign and six
    digits ([-000000] is not a year). *)
Definition readYear (s : string) : option (Z * string) :=
  match s with
  | String "+" r => readDigits 6 0 r
  | String "-" r =>
      '(y, r') ← readDigits 6 0 r;
      if y =? 0 then None else Some (- y, r')
  | _ => readDigits 4 0 s
  end.

(** [new Date(s)] for a string in the date-only form of the Date Time
    String Format, [YYYY-MM-DD] or [+YYYYYY-MM-DD] / [-YYYYYY-MM-DD]: the
    time value of that day at 00:00 UTC.  Any other string, and a day the
    month does not have, is an Invalid Date here; [prepareChartData]
    passes dates of the calendar in this form only. *)
Definition Date_parse_dateOnly (s : string) : JsDate :=
  '(y, r1) ← readYear s;
  r2 ← expectChar "-" r1;
  '(m, r3) ← readDigits 2 0 r2;
  r4 ← expectChar "-" r3;
  '(d, r5) ← readDigits 2 0 r4;
  if String.eqb r5 "" && (1 <=? m) && (m <=? 12)
     && (1 <=? d) && (d <=? DaysInMonth y m)
  then TimeClip (MakeDate (MakeDay y (m - 1) d) 0)
  else None.

(** *** Rounding for the chart *)

(** The floor of [num * 2^e + 1/2]. *)
Definition floorHalf (num e : Z) : Z :=
  if 0 <=? e then num * 2 ^ e
  else (2 * num + 2 ^ (- e)) / 2 ^ (1 - e).

(** [Math.round(x)]: the integer nearest to [x], a tie going up; [None]
    when [x] is not finite. *)
Definition Math_round (x : Number) : option Z :=
  match x with
  | S754_zero _ => Some 0
  | S754_finite s m e => Some (floorHalf (if s then Z.neg m else Z.pos m) e)
  | _ => None
  end.

(** A Number with two decimals, counted in hundredths. *)
Inductive Decimal2 : Type :=
  | Dec2 (hundredths : Z)
  | Dec2NaN
  | Dec2Infinity (negative : bool).

(** [parseFloat(x.toFixed(2))]: [toFixed] takes the integer [n] for which
    [n / 100] is nearest to the exact value of [x], the larger one in a
    tie, after setting the sign of [x] aside; [parseFloat] reads the digits
    back. *)
Definition toFixed2 (x : Number) : Decimal2 :=
  match x with
  | S754_zero _ => Dec2 0
  | S754_finite s m e =>
      let n := floorHalf (100 * Z.pos m) e in
      Dec2 (if s then - n else n)
  | S754_infinity s => Dec2Infinity s
  | S754_nan => Dec2NaN
  end.

End Js.

Import Js.

(** ** The document store, as the routes use it

    The store is the Firestore SDK, which is not part of the repository;
    its three operations below follow the contract of the entry store: a
    collection of documents keyed by generated ids, queried by owner and
    time range and ordered by time. *)

Module Firestore.

(** A Firestore [Timestamp]; it serialises to JSON as an object with the
    fields [_seconds] and [_nanoseconds]. *)
Record Timestamp : Type := mkTimestamp {
  _seconds : Z;
  _nanoseconds : Z
}.

(** The order of the store on timestamps. *)
Definition Timestamp_leb (a b : Timestamp) : bool :=
  (_seconds a <? _seconds b)
  || ((_seconds a =? _seconds b) && (_nanoseconds a <=? _nanoseconds b)).

(** A document of the [mood_ratings] collection. *)
Record MoodDoc : Type := mkMoodDoc {
  userId : string;
  moodValue : JsInt;
  notes : JsValue;
  recordedAt : Timestamp
}.

(** The collection: documents by their id. *)
Abbreviation Collection := (gmap string MoodDoc).

(** The fields handed to [update]; [None] is a field left out. *)
Record UpdateData : Type := mkUpdateData {
  upd_moodValue : option JsInt;
  upd_notes : option JsValue;
  upd_recordedAt : option Timestamp
}.

Definition emptyUpdate : UpdateData := mkUpdateData None None None.

(** Modelled from the spec: the store's [docRef.update(data)], missing
    from the sources.  On an existing document it writes the fields of
    [data] and keeps the others. *)
Definition applyUpdate (data : UpdateData) (doc : MoodDoc) : MoodDoc :=
  {| userId := userId doc;
     moodValue := default (moodValue doc) (upd_moodValue data);
     notes := default (notes doc) (upd_notes data);
     recordedAt := default (recordedAt doc) (upd_recordedAt data) |}.

(** Modelled from the spec: the store's [collection.add(doc)], missing
    from the sources.  It creates a document under a generated id, and
    fails when the id is taken. *)
Definition collection_add (id : string) (doc : MoodDoc)
    (c : Collection) : option Collection :=
  match c !! id with
  | Some _ => None
  | None => Some (<[id := doc]> c)
  end.

(** Modelled from the spec: the store's query engine, missing from the
    sources.  The query
    [where('userId', '==', uid).where('recordedAt', '>=', cutoff)
       .orderBy('recordedAt', 'desc')]
    yields the documents of the owner recorded at or after the cutoff,
    newest first; documents with equal timestamps keep the order of the
    collection. *)
Definition query_recent (uid : string) (cutoff : Timestamp)
    (c : Collection) : list (string * MoodDoc) :=
  sortBy (fun a b => Timestamp_leb (recordedAt b.2) (recordedAt a.2))
    (filter (fun d => String.eqb (userId d.2) uid
                      && Timestamp_leb cutoff (recordedAt d.2) = true)
            (map_to_list c)).

End Firestore.

Import Firestore.

(** ** What the routes take from outside the repository *)

(** The claims of a verified ID token. *)
Record DecodedToken : Type := mkDecodedToken {
  uid : string;
  email : string
}.

Record Externals : Type := mkExternals {
  (** [admin.auth().verifyIdToken(idToken)]; [None] when it rejects. *)
  verifyIdToken : string -> option DecodedToken;
  (** The check the [Timestamp] constructor makes on seconds and
      nanoseconds; it throws when the check fails. *)
  Timestamp_accepts : Z -> Z -> bool;
  (** [Date.parse] on a string. *)
  Date_parse : string -> JsDate;
  (** The time zone of the server process. *)
  LocalTZA : Z -> bool -> Z;
  (** The check [update] makes on its argument; it throws when the check
      fails. *)
  update_accepts : UpdateData -> bool
}.

(** What a request finds when it runs: the clock of the process, the
    commit time of the store and the id [add] draws. *)
Record Env : Type := mkEnv {
  now : Z;
  serverTimestamp : Timestamp;
  autoId : string
}.

Record Request : Type := mkRequest {
  authorization : option string;
  body : gmap string JsValue;
  query_days : option string;
  params_id : string
}.

Inductive ResBody : Type :=
  | Message (message : string)
  | Error (error : string)
  | Added (message : string) (moodId : option string)
  | Moods (moods : list (string * MoodDoc))
  | NoContent.

Record Response : Type := mkResponse {
  status : Z;
  json : ResBody
}.

(** A handler answers and leaves the collection in a new state. *)
Definition Handler : Type := Env -> Collection -> Response * Collection.

Definition respond (code : Z) (b : ResBody) : Handler :=
  fun _ c => (mkResponse code b, c).

Section Backend.
Variable X : Externals.

(** [Timestamp.fromMillis] and [Timestamp.fromDate]; [None] when the
    constructor throws.  An Invalid Date has no time value to convert. *)
Definition Timestamp_fromMillis (milliseconds : Z) : option Timestamp :=
  let seconds := milliseconds / 1000 in
  let nanos := (milliseconds - seconds * 1000) * 1000000 in
  if Timestamp_accepts X seconds nanos
  then Some (mkTimestamp seconds nanos) else None.

Definition Timestamp_fromDate (date : JsDate) : option Timestamp :=
  milliseconds ← date; Timestamp_fromMillis milliseconds.

(** [new Date(value)] on a defined value: a string is parsed, a number
    is cut to whole milliseconds, [null] and the booleans count as 0 and
    1, and an array or an object is parsed as the string it prints as.  An
    object that cannot be printed makes [new Date] throw; that is taken
    with the Invalid Date here, since the routes make their dates inside
    a [try] block and a throw and an Invalid Date both end in its
    [catch]. *)
Definition new_Date (value : JsValue) : JsDate :=
  match value with
  | JNull => TimeClip 0
  | JBool b => TimeClip (if b then 1 else 0)
  | JNum x => z ← Number_trunc x; TimeClip z
  | JStr s => Date_parse X s
  | JArr _ | JObj _ => s ← ToString value; Date_parse X s
  end.

(** The middleware of both [server.js] and [routes/moods.js]: the token
    is the second piece of the header split at ["Bearer "]; its [uid] is
    put on the request for the handler that follows. *)
Definition verifyFirebaseIdToken (req : Request)
    (next : string -> Handler) : Handler :=
  let idToken := a ← authorization req; split "Bearer " a !! 1%nat in
  match idToken with
  | None => respond 401 (Message "No token provided")
  | Some idToken =>
      if String.eqb idToken ""
      then respond 401 (Message "No token provided")
      else match verifyIdToken X idToken with
           | Some decodedToken => next (uid decodedToken)
           | None => respond 401 (Message "Invalid token")
           end
  end.
End Backend.

(** ** [routes/moods.js]: the router of the mood entries *)

Module Routes.
Section Routes.
Variable X : Externals.

(** [router.post('/')]: submit a mood entry.  A rating or a date that
    throws while the document is put together is caught and answered 500.
    The promise that [add] returns is not awaited: the answer carries the
    [id] property of the promise, which is [undefined], and the write lands
    after the answer is sent; the collection given back here is the one the
    request leaves once its write has landed. *)
Definition post (firebaseUid : string) (req : Request) : Handler :=
  fun env c =>
  let moodValue := body req !! "moodValue" in
  let notes := body req !! "notes" in
  let recordedAt := body req !! "recordedAt" in
  if negb (truthy moodValue)
  then respond 400 (Message "Mood value is required.") env c
  else
  match recordedAt with
  | None => respond 400 (Message "Recorded date and time is required.") env c
  | Some recordedAtValue =>
      if negb (truthy recordedAt)
      then respond 400 (Message "Recorded date and time is required.") env c
      else
      match parseInt moodValue with
      | None =>
          respond 500 (Error "Internal Server Error while adding mood.") env c
      | Some rating =>
      match Timestamp_fromDate X (new_Date X recordedAtValue) with
      | None =>
          respond 500 (Error "Internal Server Error while adding mood.") env c
      | Some timestamp =>
          let doc :=
            {| userId := firebaseUid;
               moodValue := rating;
               notes := orElse notes (JStr "");
               recordedAt := timestamp |} in
          (mkResponse 201 (Added "Mood entry added successfully." None),
           default c (collection_add (autoId env) doc c))
      end
      end
  end.

(** The cutoff of [/recent]: [new Date()] moved back with
    [setDate(getDate() - days)]; [NaN] days give an Invalid Date. *)
Definition cutOffDate (days : JsInt) (env : Env) : JsDate :=
  match days with
  | Int n =>
      Date_setDate (LocalTZA X) (now env)
        (Date_getDate (LocalTZA X) (now env) - n)
  | NaN | Inf _ => None
  end.

(** [req.query.days || fallback]. *)
Definition daysParam (req : Request) (fallback : string) : string :=
  match query_days req with
  | Some s => if String.eqb s "" then fallback else s
  | None => fallback
  end.

(** [router.get('/recent')]: the moods of the last N days (default 30). *)
Definition get_recent (firebaseUid : string) (req : Request) : Handler :=
  fun env c =>
  let days := parseInt_string (daysParam req "30") in
  match Timestamp_fromDate X (cutOffDate days env) with
  | None =>
      respond 500 (Error "Internal Server Error while fetching moods.") env c
  | Some cutoff =>
      (mkResponse 200 (Moods (query_recent firebaseUid cutoff c)), c)
  end.

(** The [updateData] that [router.put('/:id')] builds from the body;
    [None] when converting the rating or [recordedAt] throws. *)
Definition buildUpdateData (req : Request) : option UpdateData :=
  let moodValue := body req !! "moodValue" in
  let notes := body req !! "notes" in
  let recordedAt := body req !! "recordedAt" in
  let updateData := emptyUpdate in
  updateData ←
    match moodValue with
    | Some _ =>
        rating ← parseInt moodValue;
        Some {| upd_moodValue := Some rating;
                upd_notes := upd_notes updateData;
                upd_recordedAt := upd_recordedAt updateData |}
    | None => Some updateData
    end;
  let updateData :=
    match notes with
    | Some _ =>
        {| upd_moodValue := upd_moodValue updateData;
           upd_notes := notes;
           upd_recordedAt := upd_recordedAt updateData |}
    | None => updateData
    end in
  match recordedAt with
  | Some recordedAtValue =>
      timestamp ← Timestamp_fromDate X (new_Date X recordedAtValue);
      Some {| upd_moodValue := upd_moodValue updateData;
              upd_notes := upd_notes updateData;
              upd_recordedAt := Some timestamp |}
  | None => Some updateData
  end.

(** [router.put('/:id')]: update a mood entry. *)
Definition put (firebaseUid : string) (req : Request) : Handler :=
  fun env c =>
  let moodId := params_id req in
  match c !! moodId with
  | None => respond 404 (Message "Mood entry not found.") env c
  | Some doc =>
      if negb (String.eqb (userId doc) firebaseUid)
      then respond 403 (Message "Unauthorized to update this mood entry.")
             env c
      else
      match buildUpdateData req with
      | Some updateData =>
          if update_accepts X updateData
          then (mkResponse 200 (Message "Mood entry updated successfully."),
                <[moodId := applyUpdate updateData doc]> c)
          else respond 500
                 (Error "Internal Server Error while updating mood.") env c
      | None =>
          respond 500 (Error "Internal Server Error while updating mood.")
            env c
      end
  end.

(** [router.delete('/:id')]: delete a mood entry. *)
Definition delete (firebaseUid : string) (req : Request) : Handler :=
  fun env c =>
  let moodId := params_id req in
  match c !! moodId with
  | None => respond 404 (Message "Mood entry not found.") env c
  | Some doc =>
      if negb (String.eqb (userId doc) firebaseUid)
      then respond 403 (Message "Unauthorized to delete this mood entry.")
             env c
      else (mkResponse 204 NoContent, base.delete moodId c)
  end.

(** The routes with the middleware each of them names. *)
Definition router_post (req : Request) : Handler :=
  verifyFirebaseIdToken X req (fun firebaseUid => post firebaseUid req).
Definition router_get_recent (req : Request) : Handler :=
  verifyFirebaseIdToken X req (fun firebaseUid => get_recent firebaseUid req).
Definition router_put (req : Request) : Handler :=
  verifyFirebaseIdToken X req (fun firebaseUid => put firebaseUid req).
Definition router_delete (req : Request) : Handler :=
  verifyFirebaseIdToken X req (fun firebaseUid => delete firebaseUid req).
End Routes.
End Routes.

(** ** [server.js]: the router mounted behind the middleware

    [app.use('/api/moods', verifyFirebaseIdToken, moodsRouter)] runs the
    middleware before the router, which runs it again. *)

Module Server.
Section Server.
Variable X : Externals.

Definition mount (route : Request -> Handler) (req : Request) : Handler :=
  verifyFirebaseIdToken X req (fun _ => route req).

Definition submit : Request -> Handler := mount (Routes.router_post X).
Definition listRecent : Request -> Handler :=
  mount (Routes.router_get_recent X).
Definition update : Request -> Handler := mount (Routes.router_put X).
Definition delete : Request -> Handler := mount (Routes.router_delete X).
End Server.
End Server.

(** ** The older [server.js], with the two mood routes inline *)

Module InlineServer.
Section InlineServer.
Variable X : Externals.

(** [app.post('/api/moods')]: [recordedAt] is not read from the body; the
    store stamps the entry when it commits.  [add] is awaited here, and
    the answer carries the id of the new document.  A rating that throws
    while it is converted is caught and answered 500. *)
Definition post (firebaseUid : string) (req : Request) : Handler :=
  fun env c =>
  let moodValue := body req !! "moodValue" in
  let notes := body req !! "notes" in
  if negb (truthy moodValue)
  then respond 400 (Message "Mood value is required.") env c
  else
    match parseInt moodValue with
    | None =>
        respond 500 (Error "Internal Server Error while adding mood.") env c
    | Some rating =>
    let doc :=
      {| userId := firebaseUid;
         moodValue := rating;
         notes := orElse notes (JStr "");
         recordedAt := serverTimestamp env |} in
    match collection_add (autoId env) doc c with
    | Some c' =>
        (mkResponse 201
           (Added "Mood entry added successfully." (Some (autoId env))), c')
    | None =>
        respond 500 (Error "Internal Server Error while adding mood.") env c
    end
    end.

(** [app.get('/api/moods/recent')]: the moods of the last N days
    (default 7); the store converts the cutoff [Date] to a timestamp. *)
Definition get_recent (firebaseUid : string) (req : Request) : Handler :=
  fun env c =>
  let days := parseInt_string (Routes.daysParam req "7") in
  match Timestamp_fromDate X (Routes.cutOffDate X days env) with
  | None =>
      respond 500 (Error "Internal Server Error while fetching moods.") env c
  | Some cutoff =>
      (mkResponse 200 (Moods (query_recent firebaseUid cutoff c)), c)
  end.

Definition submit (req : Request) : Handler :=
  verifyFirebaseIdToken X req (fun firebaseUid => post firebaseUid req).
Definition listRecent (req : Request) : Handler :=
  verifyFirebaseIdToken X req (fun firebaseUid => get_recent firebaseUid req).
End InlineServer.
End InlineServer.

(** ** [MoodTracker.jsx]: the data of the chart *)

Module MoodTracker.

(** [recordedAt] of a mood in the component's state: a [Date], as
    [new Date(value)] makes it, or the serialised timestamp as the backend
    sent it. *)
Inductive RecordedAt : Type :=
  | DateObject (value : Z)
  | TimestampObject (_seconds : Z).

(** A mood as [prepareChartData] reads it.  The rating is a number (a
    rating that the backend sent as [null] adds as 0, and is 0 here). *)
Record Mood : Type := mkMood {
  id : string;
  moodValue : Number;
  notes : string;
  recordedAt : RecordedAt
}.

Definition moodColors (rating : Z) : option string :=
  if rating =? 1 then Some "#FF0000"
  else if rating =? 2 then Some "#FFA500"
  else if rating =? 3 then Some "#FFFF00"
  else if rating =? 4 then Some "#008000"
  else if rating =? 5 then Some "#0000FF"
  else None.

(** A value of [dailyMoods]; [count] goes up by one for each mood and
    stays an exact integer. *)
Record DayEntry : Type := mkDayEntry {
  totalRating : Number;
  count : Z;
  originalDate : Z
}.

(** [dailyMoods]: an object keyed by date strings; its own keys are kept
    in the order they were first written. *)
Definition DailyMoods : Type := list (string * DayEntry).

Fixpoint get (key : string) (o : DailyMoods) : option DayEntry :=
  match o with
  | [] => None
  | (k, v) :: r => if String.eqb k key then Some v else get key r
  end.

Fixpoint modify (f : DayEntry -> DayEntry) (key : string) (o : DailyMoods)
  : DailyMoods :=
  match o with
  | [] => []
  | (k, v) :: r =>
      if String.eqb k key then (k, f v) :: r else (k, v) :: modify f key r
  end.

Definition moodDate (mood : Mood) : JsDate :=
  match recordedAt mood with
  | DateObject value => TimeClip value
  | TimestampObject seconds => TimeClip (seconds * 1000)
  end.

(** [date.toISOString().split('T')[0]]. *)
Definition dateStringOf (date : Z) : string :=
  nth 0 (split "T" (toISOString date)) "".

(** The body of the [forEach]; [None] when [toISOString] throws on an
    Invalid Date. *)
Definition addMood (dailyMoods : DailyMoods) (mood : Mood)
  : option DailyMoods :=
  date ← moodDate mood;
  let dateString := dateStringOf date in
  let dailyMoods :=
    match get dateString dailyMoods with
    | None =>
        (dailyMoods ++
         [(dateString,
           {| totalRating := Number_of_Z 0; count := 0;
              originalDate := date |})])%list
    | Some _ => dailyMoods
    end in
  Some (modify
          (fun e => {| totalRating :=
                         Number_add (totalRating e) (moodValue mood);
                       count := count e + 1;
                       originalDate := originalDate e |})
          dateString dailyMoods).

Fixpoint forEach (moods : list Mood) (dailyMoods : DailyMoods)
  : option DailyMoods :=
  match moods with
  | [] => Some dailyMoods
  | mood :: rest => dailyMoods ← addMood dailyMoods mood; forEach rest dailyMoods
  end.

(** The comparator [(a, b) => new Date(a) - new Date(b)]; [None] is [NaN],
    which [sort] takes for 0. *)
Definition compareDates (a b : string) : option Z :=
  ta ← Date_parse_dateOnly a; tb ← Date_parse_dateOnly b; Some (ta - tb).

Definition dateBefore (a b : string) : bool :=
  match compareDates a b with
  | Some v => v <=? 0
  | None => true
  end.

Definition sortedDates (dailyMoods : DailyMoods) : list string :=
  sortBy dateBefore (map fst dailyMoods).

Record Marker : Type := mkMarker {
  fillColor : string;
  radius : Z;
  symbol : string
}.

Record LabelStyle : Type := mkLabelStyle {
  fontSize : string;
  fontWeight : string;
  color : string;
  textOutline : string
}.

Record DataLabels : Type := mkDataLabels {
  enabled : bool;
  format : string;
  style : LabelStyle
}.

Record ChartPoint : Type := mkChartPoint {
  x : Z;
  y : Decimal2;
  marker : Marker;
  dataLabels : DataLabels
}.

(** The point of one day. *)
Definition chartPoint (entry : DayEntry) : ChartPoint :=
  let date := originalDate entry in
  let avgRating :=
    Number_div (totalRating entry) (Number_of_Z (count entry)) in
  let roundedRating := Math_round avgRating in
  {| x := date;
     y := toFixed2 avgRating;
     marker := {| fillColor := default "#CCCCCC" (roundedRating ≫= moodColors);
                  radius := 5;
                  symbol := "circle" |};
     dataLabels := {| enabled := true;
                      format := "{y:.2f}";
                      style := {| fontSize := "10px";
                                  fontWeight := "bold";
                                  color := "black";
                                  textOutline := "1px contrast" |} |} |}.

(** [prepareChartData(moods)]; [None] when it throws. *)
Definition prepareChartData (moods : list Mood) : option (list ChartPoint) :=
  dailyMoods ← forEach moods [];
  mapM (fun dateString => chartPoint <$> get dateString dailyMoods)
       (sortedDates dailyMoods).

End MoodTracker.

(** ** [server.js]: the user registry behind [/api/auth/sync] *)

Module AuthSync.

Inductive SyncBody : Type :=
  | SyncMessage (message : string)
  | SyncError (error : string)
  | Synced (message : string) (userId : string) (firebaseUid : string).

Record SyncResponse : Type := mkSyncResponse {
  sync_status : Z;
  sync_json : SyncBody
}.

(** The middleware of [server.js]: it puts the [uid] and the [email] of
    the verified token on the request. *)
Definition verifyFirebaseIdToken {S : Type} (X : Externals) (req : Request)
    (next : string -> string -> Env -> S -> SyncResponse * S)
  : Env -> S -> SyncResponse * S :=
  fun env st =>
  let idToken := a ← authorization req; split "Bearer " a !! 1%nat in
  match idToken with
  | None => (mkSyncResponse 401 (SyncMessage "No token provided"), st)
  | Some idToken =>
      if String.eqb idToken ""
      then (mkSyncResponse 401 (SyncMessage "No token provided"), st)
      else match verifyIdToken X idToken with
           | Some decodedToken =>
               next (uid decodedToken) (email decodedToken) env st
           | None => (mkSyncResponse 401 (SyncMessage "Invalid token"), st)
           end
  end.

(** A document of the [users] collection. *)
Record UserDoc : Type := mkUserDoc {
  email : string;
  firebaseUid : string;
  createdAt : Timestamp
}.

(** The [users] collection: documents by the uid of the user. *)
Abbreviation Users := (gmap string UserDoc).

(** Modelled from the spec: the store's [docRef.set(data)], missing from
    the sources.  It writes the document under the id of the reference. *)
Definition doc_set (id : string) (doc : UserDoc) (users : Users) : Users :=
  <[id := doc]> users.

(** The handler of [app.post('/api/auth/sync')]: a user that is not in
    the registry is entered, one that is there is left alone.  The reads
    and writes of the store are taken to succeed (the route answers 500
    when one throws). *)
Definition sync (firebaseUid userEmail : string)
  : Env -> Users -> SyncResponse * Users :=
  fun env users =>
  match users !! firebaseUid with
  | None =>
      let users' :=
        doc_set firebaseUid
          {| email := userEmail;
             firebaseUid := firebaseUid;
             createdAt := serverTimestamp env |} users in
      let userId := firebaseUid in
      (mkSyncResponse 200
         (Synced "User synced successfully with Firestore." userId firebaseUid),
       users')
  | Some _ =>
      let userId := firebaseUid in
      (mkSyncResponse 200
         (Synced "User synced successfully with Firestore." userId firebaseUid),
       users)
  end.

Definition post_auth_sync (X : Externals) (req : Request)
  : Env -> Users -> SyncResponse * Users :=
  verifyFirebaseIdToken X req sync.

End AuthSync.

(** ** [MoodTracker.jsx]: fetching, editing and submitting moods *)

Module MoodTrackerForm.

(** The [recordedAt] that [fetchRecentMoods] gives a mood of the answer:
    a [Date] made from the seconds of the serialised timestamp, or the
    present moment when the timestamp or its seconds are missing or 0. *)
Definition moodsWithDates_recordedAt (now : Z) (recordedAt : option Timestamp)
  : MoodTracker.RecordedAt :=
  match recordedAt with
  | Some ts =>
      if _seconds ts =? 0 then MoodTracker.DateObject now
      else MoodTracker.DateObject (_seconds ts * 1000)
  | None => MoodTracker.DateObject now
  end.

(** A number as the server finds it in the body: [JSON.stringify] writes
    [null] for [NaN] and the infinities, and 0 for both zeros. *)
Definition JSON_number (x : Number) : JsValue :=
  match x with
  | S754_nan | S754_infinity _ => JNull
  | S754_zero _ => JNum (S754_zero false)
  | S754_finite _ _ _ => JNum x
  end.

(** The state of the form: [selectedDateTime] is [null] ([None]) or a
    dayjs object, which holds a [Date]. *)
Record Form : Type := mkForm {
  moodValue : Number;
  moodNotes : string;
  editingMoodId : option string;
  selectedDateTime : option JsDate;
  moodSubmitError : option string;
  moodSubmitSuccess : bool
}.

(** [dayjs(mood.recordedAt)]: a [Date] is copied; any other object makes
    an invalid dayjs object. *)
Definition dayjs (recordedAt : MoodTracker.RecordedAt) : JsDate :=
  match recordedAt with
  | MoodTracker.DateObject value => TimeClip value
  | MoodTracker.TimestampObject _ => None
  end.

(** [handleEditMood(mood)]. *)
Definition handleEditMood (mood : MoodTracker.Mood) (f : Form) : Form :=
  {| moodValue := MoodTracker.moodValue mood;
     moodNotes := MoodTracker.notes mood;
     editingMoodId := Some (MoodTracker.id mood);
     selectedDateTime := Some (dayjs (MoodTracker.recordedAt mood));
     moodSubmitError := None;
     moodSubmitSuccess := false |}.

Inductive Method : Type := POST | PUT.

(** What [handleSubmitMood] does before it waits for the answer: it
    refuses with a message, or sends a request. *)
Inductive Submission : Type :=
  | Refused (moodSubmitError : string)
  | Fetch (method : Method) (req : Request).

(** [handleSubmitMood()], up to the [fetch].  [user] is [null] or the
    signed-in user, given by the ID token that [getIdToken] yields. *)
Definition handleSubmitMood (user : option string) (f : Form) : Submission :=
  match user with
  | None => Refused "You must be logged in to submit a mood."
  | Some idToken =>
      if Number_ltb (moodValue f) (Number_of_Z 1)
         || Number_ltb (Number_of_Z 5) (moodValue f)
      then Refused "Mood value must be between 1 and 5."
      else
      match selectedDateTime f with
      | Some (Some t) =>
          let moodData : gmap string JsValue :=
            {[ "moodValue" := JSON_number (moodValue f);
               "notes" := JStr (moodNotes f);
               "recordedAt" := JStr (toISOString t) ]} in
          let request id :=
            {| authorization := Some ("Bearer " +:+ idToken);
               body := moodData;
               query_days := None;
               params_id := id |} in
          match editingMoodId f with
          | Some id =>
              if String.eqb id "" then Fetch POST (request "")
              else Fetch PUT (request id)
          | None => Fetch POST (request "")
          end
      | _ => Refused "Please select a valid date and time for your mood."
      end
  end.

End MoodTrackerForm.

(** ** The older [components/MoodTracker.jsx] *)

Module OlderMoodTracker.

(** [handleSubmitMood()], up to the [fetch]: the body has no
    [recordedAt]. *)
Definition handleSubmitMood (user : option string) (moodValue : Number)
    (moodNotes : string) : MoodTrackerForm.Submission :=
  match user with
  | None => MoodTrackerForm.Refused "You must be logged in to submit a mood."
  | Some idToken =>
      if Number_ltb moodValue (Number_of_Z 1)
         || Number_ltb (Number_of_Z 5) moodValue
      then MoodTrackerForm.Refused "Mood value must be between 1 and 5."
      else
        MoodTrackerForm.Fetch MoodTrackerForm.POST
          {| authorization := Some ("Bearer " +:+ idToken);
             body := {[ "moodValue" := MoodTrackerForm.JSON_number moodValue;
                        "notes" := JStr moodNotes ]};
             query_days := None;
             params_id := "" |}
  end.

End OlderMoodTracker.



(** * Properties *)

(** ** The caller of a request *)

(** The subject the middleware puts on the request: the [uid] of the
    verified bearer token, when there is one. *)
Definition callerOf (X : Externals) (req : Request) : option string :=
  idToken ← (a ← authorization req; split "Bearer " a !! 1%nat);
  if String.eqb idToken "" then None else uid <$> verifyIdToken X idToken.

(** Externals for the examples: a verifier that knows two tokens, the
    range of timestamps the store documents (years 0001 to 9999), a parser
    of date-only strings, a server in UTC, and an [update] that wants at
    least one field. *)
Definition exampleX : Externals :=
  {| verifyIdToken := fun t =>
       if String.eqb t "token-alice" then Some (mkDecodedToken "alice" "alice@example.org")
       else if String.eqb t "token-bob" then Some (mkDecodedToken "bob" "bob@example.org")
       else None;
     Timestamp_accepts := fun s n =>
       (-62135596800 <=? s) && (s <=? 253402300799)
       && (0 <=? n) && (n <=? 999999999);
     Date_parse := Date_parse_dateOnly;
     LocalTZA := fun _ _ => 0;
     update_accepts := fun d =>
       match d with
       | mkUpdateData None None None => false
       | _ => true
       end |}.

Definition exampleEnv : Env :=
  {| now := 1704153600000;
     serverTimestamp := mkTimestamp 1704153600 250000000;
     autoId := "m2" |}.

Definition aliceRequest (fields : list (string * JsValue)) (id : string)
  : Request :=
  {| authorization := Some "Bearer token-alice";
     body := list_to_map fields;
     query_days := None;
     params_id := id |}.

Definition bobRequest (fields : list (string * JsValue)) (id : string)
  : Request :=
  {| authorization := Some "Bearer token-bob";
     body := list_to_map fields;
     query_days := None;
     params_id := id |}.

(** A collection with one entry of alice, recorded on 2024-01-01. *)
Definition exampleCollection : Collection :=
  {[ "m1" := mkMoodDoc "alice" (Int 3) (JStr "fine")
               (mkTimestamp 1704067200 0) ]}.

(** The JSON number of an integer. *)
Definition JInt (z : Z) : JsValue := JNum (Number_of_Z z).

(** The entry a submit request of caller [u] asks to persist, with the
    rating [rating] and recorded at [ts]. *)
Definition submittedDoc (u : string) (rating : JsInt) (req : Request)
    (ts : Timestamp) : MoodDoc :=
  {| userId := u;
     moodValue := rating;
     notes := orElse (body req !! "notes") (JStr "");
     recordedAt := ts |}.

(** The rating of an entry is one of 1, 2, 3, 4, 5. *)
Definition ratingInRange (d : MoodDoc) : Prop :=
  ∃ r, moodValue d = Int r ∧ 1 <= r <= 5.

Definition ratingsInRange (c : Collection) : Prop :=
  ∀ id d, c !! id = Some d → ratingInRange d.

(** Two requests that agree on the header and on the three body fields
    the routes read. *)
Definition sameSubmission (req1 req2 : Request) : Prop :=
  authorization req1 = authorization req2
  ∧ body req1 !! "moodValue" = body req2 !! "moodValue"
  ∧ body req1 !! "notes" = body req2 !! "notes"
  ∧ body req1 !! "recordedAt" = body req2 !! "recordedAt".

(** Requests of the examples. *)
Definition submit6 : Request :=
  aliceRequest [("moodValue", JInt 6); ("recordedAt", JStr "2024-01-02")] "".

Definition submitX : Request :=
  aliceRequest [("moodValue", JStr "x"); ("recordedAt", JStr "2024-01-02")] "".

Definition submitNoDate : Request :=
  aliceRequest [("moodValue", JInt 4); ("notes", JStr "ok")] "".

Definition submitBadDate : Request :=
  aliceRequest [("moodValue", JInt 4); ("recordedAt", JStr "yesterday")] "".

Definition submitAsBob : Request :=
  aliceRequest [("moodValue", JInt 4); ("recordedAt", JStr "2024-01-02");
                ("userId", JStr "bob"); ("ownerId", JStr "bob")] "".

Definition submitPlain : Request :=
  aliceRequest [("moodValue", JInt 4); ("recordedAt", JStr "2024-01-02")] "".

(** A rating written out in words after its digit. *)
Definition submitFourOfFive : Request :=
  aliceRequest
    [("moodValue", JStr " 4 of 5"); ("recordedAt", JStr "2024-01-02")] "".

Definition update9 : Request := aliceRequest [("moodValue", JInt 9)] "m1".

Definition updateFraction : Request :=
  aliceRequest [("moodValue", JStr "3.7")] "m1".

(** The rating 4.9 as a number, and the rating 10^21. *)
Definition updateNumber49 : Request :=
  aliceRequest
    [("moodValue", JNum (Number_div (Number_of_Z 49) (Number_of_Z 10)))] "m1".

Definition updateHuge : Request :=
  aliceRequest [("moodValue", JInt (10 ^ 21))] "m1".

Definition updateNotes : Request :=
  aliceRequest [("notes", JStr "better")] "m1".

(** New notes together with a date that is no date. *)
Definition updateNotesBadDate : Request :=
  aliceRequest [("notes", JStr "better"); ("recordedAt", JStr "yesterday")]
    "m1".

Definition updateByBob : Request :=
  bobRequest [("moodValue", JInt 1); ("notes", JStr "mine now")] "m1".

(** The calendar date of a day of the 400-year era, counted from
    0000-03-01: the year of the era, the month and the day. *)
Definition civilOfDoe (doe : Z) : Z * Z * Z :=
  let yoe := (doe - doe / 1460 + doe / 36524 - doe / 146096) / 365 in
  let doy := doe - (365 * yoe + yoe / 4 - yoe / 100) in
  let mp := (5 * doy + 2) / 153 in
  let d := doy - (153 * mp + 2) / 5 + 1 in
  let m := if mp <? 10 then mp + 3 else mp - 9 in
  (yoe + (if m <=? 2 then 1 else 0), m, d).

Definition recentRequest : Request :=
  {| authorization := Some "Bearer token-alice";
     body := ∅;
     query_days := Some "7";
     params_id := "" |}.

(** A request for the moods of the last 800000 days. *)
Definition recentRequestLong : Request :=
  {| authorization := Some "Bearer token-alice";
     body := ∅;
     query_days := Some "800000";
     params_id := "" |}.

(** Four entries: two of alice within the last seven days of
    [exampleEnv], the older one first in the order of the ids, one of alice
    from a month before, and one of bob. *)
Definition recentCollection : Collection :=
  list_to_map
    [("a1", mkMoodDoc "alice" (Int 2) (JStr "early") (mkTimestamp 1703898000 0));
     ("a2", mkMoodDoc "alice" (Int 4) (JStr "late") (mkTimestamp 1704067200 0));
     ("a3", mkMoodDoc "alice" (Int 5) (JStr "old") (mkTimestamp 1701388800 0));
     ("b1", mkMoodDoc "bob" (Int 1) (JStr "other") (mkTimestamp 1704067200 0))].

(** [moods] lists, newest first and each once, the entries of [c] that
    [u] owns and that were recorded at [cutoff] or later. *)
Definition isRecentListing (u : string) (cutoff : Timestamp) (c : Collection)
    (moods : list (string * MoodDoc)) : Prop :=
  (∀ id d, (id, d) ∈ moods
           ↔ c !! id = Some d ∧ userId d = u
             ∧ Timestamp_leb cutoff (recordedAt d) = true)
  ∧ NoDup moods.*1
  ∧ Sorted (λ a b, Timestamp_leb (recordedAt b.2) (recordedAt a.2) = true)
      moods.

(** The date part of an ISO string, for a day number. *)
Definition isoDate (day : Z) : string :=
  let '(y, m, d) := civilFromDays day in
  isoYear y +:+ "-" +:+ pad 2 m +:+ "-" +:+ pad 2 d.

(** The time part of an ISO string, after the [T]. *)
Definition isoTime (t : Z) : string :=
  let w := TimeWithinDay t in
  pad 2 (w / 3600000) +:+ ":" +:+ pad 2 (w / 60000 mod 60)
  +:+ ":" +:+ pad 2 (w / 1000 mod 60) +:+ "." +:+ pad 3 (w mod 1000) +:+ "Z".

(** [c] does not occur in [s]. *)
Fixpoint lacks (c : ascii) (s : string) : bool :=
  match s with
  | EmptyString => true
  | String c' s' => negb (Ascii.eqb c c') && lacks c s'
  end.

(** The key under which a mood is counted; [None] for an Invalid Date. *)
Definition keyOf (mood : MoodTracker.Mood) : option string :=
  MoodTracker.dateStringOf <$> MoodTracker.moodDate mood.

Definition sumZ (l : list Z) : Z := foldr Z.add 0 l.

(** The ratings of the moods counted under [key], in the order of the
    list. *)
Definition ratingsOn (key : string) (moods : list MoodTracker.Mood)
  : list Number :=
  MoodTracker.moodValue <$> filter (λ mood, keyOf mood = Some key) moods.

(** The sum of a list of Numbers as the [forEach] adds it up: from the
    left, each addition rounded. *)
Definition sumFrom (total : Number) (ratings : list Number) : Number :=
  foldl Number_add total ratings.

(** The rating of a mood as an integer, 0 when it is not one. *)
Definition ratingOf (mood : MoodTracker.Mood) : Z :=
  default 0 (Number_toZ (MoodTracker.moodValue mood)).

(** The integer ratings of the moods counted under [key]. *)
Definition integersOn (key : string) (moods : list MoodTracker.Mood)
  : list Z :=
  ratingOf <$> filter (λ mood, keyOf mood = Some key) moods.

(** Every rating of [moods] is an integer and none is negative, and their
    sum is below 2^53. *)
Definition integerRatings (moods : list MoodTracker.Mood) : Prop :=
  Forall (λ mood, 0 ≤ ratingOf mood
                  ∧ MoodTracker.moodValue mood = Number_of_Z (ratingOf mood))
    moods
  ∧ sumZ (ratingOf <$> moods) < 2 ^ 53.

Definition keysOf (dailyMoods : MoodTracker.DailyMoods) : list string :=
  dailyMoods.*1.

Definition totalOf (key : string) (dailyMoods : MoodTracker.DailyMoods)
  : Number :=
  from_option MoodTracker.totalRating (Number_of_Z 0)
    (MoodTracker.get key dailyMoods).

Definition countOf (key : string) (dailyMoods : MoodTracker.DailyMoods) : Z :=
  from_option MoodTracker.count 0 (MoodTracker.get key dailyMoods).

(** Each entry of [dailyMoods] sits under the date of its first date,
    which is a valid time value. *)
Definition wellKeyed (dailyMoods : MoodTracker.DailyMoods) : Prop :=
  ∀ key e, MoodTracker.get key dailyMoods = Some e →
    - maxTime <= MoodTracker.originalDate e <= maxTime
    ∧ key = MoodTracker.dateStringOf (MoodTracker.originalDate e).

(** The time a date string stands for, 0 when it is not a date. *)
Definition timeOfKey (key : string) : Z :=
  default 0 (Date_parse_dateOnly key).

(** What a chart point shows apart from its place on the time axis. *)
Definition pointData (p : MoodTracker.ChartPoint)
  : Decimal2 * MoodTracker.Marker * MoodTracker.DataLabels :=
  (MoodTracker.y p, MoodTracker.marker p, MoodTracker.dataLabels p).

(** Moods of the examples: two on 2024-01-01 (08:00 and 20:00 UTC, ratings
    2 and 4), one on 2024-01-02 (rating 5), and two on either side of the
    UTC midnight between them (23:30 and 00:30). *)
Definition moodMorning : MoodTracker.Mood :=
  MoodTracker.mkMood "a" (Number_of_Z 2) "" (MoodTracker.DateObject 1704096000000).

Definition moodEvening : MoodTracker.Mood :=
  MoodTracker.mkMood "b" (Number_of_Z 4) "" (MoodTracker.DateObject 1704139200000).

Definition moodNextDay : MoodTracker.Mood :=
  MoodTracker.mkMood "c" (Number_of_Z 5) "" (MoodTracker.TimestampObject 1704190000).

Definition moodBeforeMidnight : MoodTracker.Mood :=
  MoodTracker.mkMood "d" (Number_of_Z 3) "" (MoodTracker.DateObject 1704151800000).

Definition moodAfterMidnight : MoodTracker.Mood :=
  MoodTracker.mkMood "e" (Number_of_Z 3) "" (MoodTracker.DateObject 1704155400000).

(** Three moods of 2024-01-01, one rated 2^53 and two rated 1. *)
Definition moodHuge : MoodTracker.Mood :=
  MoodTracker.mkMood "h" (Number_of_Z (2 ^ 53)) ""
    (MoodTracker.DateObject 1704096000000).

Definition moodOne : MoodTracker.Mood :=
  MoodTracker.mkMood "i" (Number_of_Z 1) ""
    (MoodTracker.DateObject 1704096000000).

(** A zone five hours behind UTC. *)
Definition fiveHoursBehind : Z → bool → Z := λ _ _, -18000000.

(** The days of the chart with their averages, as a list of buckets: the
    key and the [y] of each point of [prepareChartData], in the order of
    the points. *)
Definition bucketByDay (moods : list MoodTracker.Mood)
  : option (list (string * Decimal2)) :=
  dailyMoods ← MoodTracker.forEach moods [];
  mapM (fun dateString =>
          e ← MoodTracker.get dateString dailyMoods;
          Some (dateString, MoodTracker.y (MoodTracker.chartPoint e)))
       (MoodTracker.sortedDates dailyMoods).

(** ** Headers *)

(** [sep] occurs in [s]. *)
Fixpoint occurs (sep : string) (s : string) : bool :=
  match s with
  | EmptyString => false
  | String _ s' => String.prefix sep s || occurs sep s'
  end.

(** A request that carries nothing but an [Authorization] header. *)
Definition headerRequest (header : option string) : Request :=
  {| authorization := header;
     body := ∅;
     query_days := None;
     params_id := "m1" |}.

(** [req] with another [days] parameter. *)
Definition withDays (days : option string) (req : Request) : Request :=
  {| authorization := authorization req;
     body := body req;
     query_days := days;
     params_id := params_id req |}.

(** ** Strings that [parseInt] reads *)

(** [s] is made of white space only. *)
Definition allWhiteSpace (s : string) : bool :=
  String.eqb (trimStart s) "".

(** The Number of a positive integer below 2^53: its digits moved up to
    fill the 53 bits. *)
Definition canonical (p : positive) : Number :=
  match Z.pos (digits2_pos p) - 53 with
  | Z.neg d => S754_finite false (Pos.iter xO p d) (Z.neg d)
  | _ => S754_finite false p 0
  end.

(** [s] starts with one of the digits 0 to 9. *)
Definition startsWithDigit (s : string) : bool :=
  match s with
  | String c _ =>
      match digitValue c with Some d => d <? 10 | None => false end
  | EmptyString => false
  end.

(** ** The user registry *)

(** Every document of the registry is filed under the uid it holds. *)
Definition keyedByUid (users : AuthSync.Users) : Prop :=
  ∀ k d, users !! k = Some d → AuthSync.firebaseUid d = k.

(** A registry with alice, entered under an address she has since left. *)
Definition exampleUsers : AuthSync.Users :=
  {[ "alice" := AuthSync.mkUserDoc "alice@old.example.org" "alice"
                  (mkTimestamp 1700000000 0) ]}.

(** ** Forms *)

(** A form filled in for a new mood, recorded on 2024-01-02 at noon. *)
Definition exampleForm : MoodTrackerForm.Form :=
  {| MoodTrackerForm.moodValue := Number_of_Z 4;
     MoodTrackerForm.moodNotes := "better";
     MoodTrackerForm.editingMoodId := None;
     MoodTrackerForm.selectedDateTime := Some (Some 1704196800000);
     MoodTrackerForm.moodSubmitError := None;
     MoodTrackerForm.moodSubmitSuccess := false |}.

(** The request of the form for the rating [r], the notes and the moment
    [t], sent with the token [idToken] to the entry [id]. *)
Definition formRequest (idToken : string) (r : Z) (notes : string) (t : Z)
    (id : string) : Request :=
  {| authorization := Some ("Bearer " +:+ idToken);
     body := {[ "moodValue" := JInt r;
                "notes" := JStr notes;
                "recordedAt" := JStr (toISOString t) ]};
     query_days := None;
     params_id := id |}.

(** The mood of the example collection, as [fetchRecentMoods] keeps it. *)
Definition exampleMood : MoodTracker.Mood :=
  MoodTracker.mkMood "m1" (Number_of_Z 3) "fine" (MoodTracker.DateObject 1704067200000).

(** Externals as in the examples, with a parser that also reads the ISO
    string of one moment of 2024-01-02. *)
Definition exampleIsoX : Externals :=
  {| verifyIdToken := verifyIdToken exampleX;
     Timestamp_accepts := Timestamp_accepts exampleX;
     Date_parse := fun s =>
       if String.eqb s (toISOString 1704196800123) then Some 1704196800123
       else Date_parse_dateOnly s;
     LocalTZA := LocalTZA exampleX;
     update_accepts := update_accepts exampleX |}.

(** ** Days of the chart *)

(** The moment of the first mood of [moods] that is counted under [key]. *)
Fixpoint firstOn (key : string) (moods : list MoodTracker.Mood) : option Z :=
  match moods with
  | [] => None
  | mood :: rest =>
      if decide (keyOf mood = Some key) then MoodTracker.moodDate mood
      else firstOn key rest
  end.

(** The [originalDate] that [dailyMoods] holds for [key]. *)
Definition originOf (key : string) (dailyMoods : MoodTracker.DailyMoods)
  : option Z :=
  MoodTracker.originalDate <$> MoodTracker.get key dailyMoods.

(** The moment of a mood is a time value that a [Date] can hold. *)
Definition validDate (mood : MoodTracker.Mood) : Prop :=
  match MoodTracker.recordedAt mood with
  | MoodTracker.DateObject value => - maxTime ≤ value ≤ maxTime
  | MoodTracker.TimestampObject seconds =>
      - maxTime ≤ seconds * 1000 ≤ maxTime
  end.

(** ** Appending strings *)

Lemma append_nil_l (b : string) : "" +:+ b = b.
Proof. reflexivity. Qed.

Lemma append_cons (x : ascii) (a b : string) :
  String x a +:+ b = String x (a +:+ b).
Proof. reflexivity. Qed.

Lemma append_assoc (a b c : string) : (a +:+ b) +:+ c = a +:+ (b +:+ c).
Proof.
  induction a as [|x a IH]; [done|]. rewrite !append_cons. by f_equal.
Qed.

Lemma append_nil_r (a : string) : a +:+ "" = a.
Proof. induction a as [|x a IH]; [done|]. rewrite append_cons. by f_equal. Qed.

(** ** Integers as Numbers *)

Lemma digits2_pos_bounds (p : positive) :
  2 ^ (Z.pos (digits2_pos p) - 1) ≤ Z.pos p < 2 ^ Z.pos (digits2_pos p).
Proof.
  induction p as [p IH|p IH|].
  - cbn [digits2_pos]. rewrite Pos2Z.inj_succ, Pos2Z.inj_xI.
    replace (Z.succ (Z.pos (digits2_pos p)) - 1)
      with (Z.succ (Z.pos (digits2_pos p) - 1)) by lia.
    rewrite !Z.pow_succ_r by lia. lia.
  - cbn [digits2_pos]. rewrite Pos2Z.inj_succ.
    replace (Z.succ (Z.pos (digits2_pos p)) - 1)
      with (Z.succ (Z.pos (digits2_pos p) - 1)) by lia.
    rewrite !Z.pow_succ_r by lia. rewrite (Pos2Z.inj_xO p). lia.
  - by split; vm_compute.
Qed.

Lemma Pos_iter_xO (p n : positive) :
  Z.pos (Pos.iter xO p n) = Z.pos p * 2 ^ Z.pos n.
Proof.
  induction n as [|n IH] using Pos.peano_ind.
  - cbn. lia.
  - rewrite Pos.iter_succ, (Pos2Z.inj_xO (Pos.iter xO p n)), IH, Pos2Z.inj_succ.
    rewrite Z.pow_succ_r by lia. lia.
Qed.

Lemma digits2_pos_iter (p n : positive) :
  digits2_pos (Pos.iter xO p n) = (digits2_pos p + n)%positive.
Proof.
  induction n as [|n IH] using Pos.peano_ind.
  - cbn. lia.
  - rewrite Pos.iter_succ. cbn [digits2_pos]. rewrite IH. lia.
Qed.

Lemma iter_pos_Pos_iter {A} (f : A → A) (n : positive) (x : A) :
  SpecFloat.iter_pos f n x = Pos.iter f x n.
Proof.
  revert x. induction n as [n IH|n IH|]; intros x; cbn.
  - by rewrite !IH, <- !Pos.iter_swap.
  - by rewrite !IH.
  - done.
Qed.

Lemma shr_exact (m n : positive) :
  SpecFloat.iter_pos shr_1 n (Build_shr_record (Z.pos (Pos.iter xO m n)) false false)
  = Build_shr_record (Z.pos m) false false.
Proof.
  rewrite iter_pos_Pos_iter. revert m.
  induction n as [|n IH] using Pos.peano_ind; intros m.
  - done.
  - by rewrite Pos.iter_succ, Pos.iter_succ_r, IH.
Qed.

Lemma round_canonical (s : bool) (m : positive) (e : Z) :
  Z.pos (digits2_pos m) = 53 → -1074 ≤ e ≤ 971 →
  binary_round_aux prec emax s (Z.pos m) e loc_Exact
  = S754_finite s m e.
Proof.
  intros Hd He. unfold binary_round_aux, shr_fexp.
  cbn [Zdigits2 shr_record_of_loc]. rewrite Hd.
  assert (Hf : fexp prec emax (53 + e) - e = 0)
    by (unfold fexp, emin, prec, emax; lia).
  rewrite Hf. cbn [shr shr_m loc_of_shr_record round_nearest_even Zdigits2
                   shr_record_of_loc].
  rewrite Hd, Hf. cbn [shr shr_m].
  replace (e <=? emax - prec) with true by (unfold emax, prec; lia). done.
Qed.

Lemma digits2_pos_le (p : positive) :
  Z.pos p < 2 ^ 53 → Z.pos (digits2_pos p) ≤ 53.
Proof.
  intros Hp. pose proof (digits2_pos_bounds p) as Hb.
  destruct (Z.le_gt_cases (Z.pos (digits2_pos p)) 53) as [|Hgt]; [done|].
  assert (2 ^ 53 ≤ 2 ^ (Z.pos (digits2_pos p) - 1))
    by (apply Z.pow_le_mono_r; lia). lia.
Qed.

Lemma binary_round_canonical (s : bool) (p : positive) :
  Z.pos p < 2 ^ 53 →
  binary_round prec emax s p 0
  = match canonical p with
    | S754_finite _ m e => S754_finite s m e
    | x => x
    end.
Proof.
  intros Hp. pose proof (digits2_pos_le p Hp) as Hd.
  unfold binary_round, canonical.
  assert (Hf : fexp prec emax (Z.pos (digits2_pos p) + 0)
               = Z.pos (digits2_pos p) - 53)
    by (unfold fexp, emin, prec, emax; lia).
  rewrite Hf. unfold shl_align. rewrite Z.sub_0_r.
  destruct (Z.pos (digits2_pos p) - 53) as [|q|q] eqn:E; [|lia|].
  - apply round_canonical; lia.
  - apply round_canonical; [|lia].
    rewrite digits2_pos_iter. lia.
Qed.

Lemma Number_of_Z_pos (p : positive) :
  Z.pos p < 2 ^ 53 → Number_of_Z (Z.pos p) = canonical p.
Proof.
  intros Hp. unfold Number_of_Z, binary_normalize.
  rewrite binary_round_canonical by done. unfold canonical.
  by destruct (Z.pos (digits2_pos p) - 53).
Qed.

Lemma Number_of_Z_neg (p : positive) :
  Z.pos p < 2 ^ 53 → Number_of_Z (Z.neg p) = SFopp (canonical p).
Proof.
  intros Hp. unfold Number_of_Z, binary_normalize.
  rewrite binary_round_canonical by done. unfold canonical.
  by destruct (Z.pos (digits2_pos p) - 53).
Qed.

Lemma Number_toZ_canonical (p : positive) :
  Number_toZ (canonical p) = Some (Z.pos p).
Proof.
  unfold canonical.
  destruct (Z.pos (digits2_pos p) - 53) as [|q|q] eqn:E; cbn [Number_toZ].
  - cbn. f_equal. lia.
  - cbn. f_equal. lia.
  - change (0 <=? Z.neg q) with false. cbv iota.
    rewrite Pos_iter_xO. change (- Z.neg q) with (Z.pos q).
    rewrite Z.mod_mul, Z.div_mul by lia. done.
Qed.

Lemma Number_toZ_opp (x : Number) :
  Number_toZ (SFopp x) = Z.opp <$> Number_toZ x.
Proof.
  destruct x as [s|s| |s m e]; cbn [SFopp Number_toZ]; try done.
  destruct (if 0 <=? e then _ else _) as [v|]; cbn; [|done].
  f_equal. destruct s; cbn; lia.
Qed.

Lemma Number_toZ_of_Z (z : Z) :
  - 2 ^ 53 < z < 2 ^ 53 → Number_toZ (Number_of_Z z) = Some z.
Proof.
  intros Hz. destruct z as [|p|p]; [done| |].
  - rewrite Number_of_Z_pos by lia. apply Number_toZ_canonical.
  - rewrite Number_of_Z_neg by lia.
    by rewrite Number_toZ_opp, Number_toZ_canonical.
Qed.

Lemma canonical_spec (p : positive) :
  Z.pos p < 2 ^ 53 →
  ∃ m e, canonical p = S754_finite false m e
         ∧ e = Z.pos (digits2_pos p) - 53
         ∧ e ≤ 0
         ∧ Z.pos m = Z.pos p * 2 ^ (- e)
         ∧ Z.pos (digits2_pos m) = 53.
Proof.
  intros Hp. pose proof (digits2_pos_le p Hp) as Hd. unfold canonical.
  destruct (Z.pos (digits2_pos p) - 53) as [|q|q] eqn:E; [|lia|].
  - exists p, 0. split_and!; [done|done|done|cbn; lia|lia].
  - exists (Pos.iter xO p q), (Z.neg q).
    split_and!; [done|done|lia|by rewrite Pos_iter_xO|].
    rewrite digits2_pos_iter. lia.
Qed.

Lemma shl_align_fst (mx : positive) (ex ez : Z) :
  ez ≤ ex → Z.pos (shl_align mx ex ez).1 = Z.pos mx * 2 ^ (ex - ez).
Proof.
  intros H. unfold shl_align.
  destruct (ez - ex) as [|d|d] eqn:E; [|lia|].
  - replace (ex - ez) with 0 by lia. cbn. lia.
  - cbn [fst]. rewrite Pos_iter_xO. do 2 f_equal. lia.
Qed.

(** Rounding a multiple of a power of two of an integer below 2^53 gives
    the Number of the integer. *)
Lemma binary_round_shifted (ps pm : positive) (k : Z) :
  Z.pos ps < 2 ^ 53 →
  0 ≤ k →
  k ≤ 53 - Z.pos (digits2_pos ps) + 1074 →
  53 - Z.pos (digits2_pos ps) ≤ k →
  Z.pos pm = Z.pos ps * 2 ^ k →
  binary_round prec emax false pm (- k) = canonical ps.
Proof.
  intros Hps Hk Hk' Ht Hpm.
  destruct (canonical_spec ps Hps) as (m & t & -> & Het & Ht0 & Hm & Hdm).
  assert (Hdig : Z.pos (digits2_pos pm) = Z.pos (digits2_pos ps) + k).
  { destruct k as [|kk|kk]; [|clear Hk' Ht|lia].
    - assert (pm = ps) as -> by lia. lia.
    - assert (pm = Pos.iter xO ps kk) as ->
        by (apply Pos2Z.inj; by rewrite Pos_iter_xO).
      rewrite digits2_pos_iter. lia. }
  unfold binary_round.
  assert (Hf : fexp prec emax (Z.pos (digits2_pos pm) + - k) = t)
    by (unfold fexp, emin, prec, emax; lia).
  rewrite Hf. unfold shl_align.
  destruct (t - - k) as [|n|n] eqn:En; [| |lia].
  - (* the mantissa fills the 53 bits *)
    assert (pm = m) as ->
      by (apply Pos2Z.inj; rewrite Hpm, Hm; replace k with (- t) by lia; done).
    replace (- k) with t by lia. apply round_canonical; [done|lia].
  - (* the low bits are zero *)
    assert (pm = Pos.iter xO m n) as ->.
    { apply Pos2Z.inj. rewrite Pos_iter_xO, Hpm, Hm, <- Z.mul_assoc.
      rewrite <- Z.pow_add_r by lia. do 2 f_equal. lia. }
    unfold binary_round_aux, shr_fexp.
    cbn [Zdigits2 shr_record_of_loc]. rewrite Hf, En.
    cbn [shr]. rewrite shr_exact.
    cbn [shr_m loc_of_shr_record round_nearest_even Zdigits2
         shr_record_of_loc].
    rewrite Hdm.
    assert (Hz : - k + Z.pos n = t) by lia. rewrite Hz.
    assert (Hf0 : fexp prec emax (53 + t) - t = 0)
      by (unfold fexp, emin, prec, emax; lia).
    rewrite Hf0. cbn [shr shr_m].
    replace (t <=? emax - prec) with true by (unfold emax, prec; lia). done.
Qed.

(** Adding two integers is exact as long as the sum stays below 2^53. *)
Lemma Number_add_of_Z (a b : Z) :
  0 ≤ a → 0 ≤ b → a + b < 2 ^ 53 →
  Number_add (Number_of_Z a) (Number_of_Z b) = Number_of_Z (a + b).
Proof.
  intros Ha Hb Hab.
  destruct a as [|pa|pa]; [|clear Ha|lia].
  { destruct b as [|pb|pb]; [done| |lia].
    rewrite Z.add_0_l, (Number_of_Z_pos pb) by lia.
    destruct (canonical_spec pb) as (m & e & -> & _); [lia|done]. }
  destruct b as [|pb|pb]; [|clear Hb|lia].
  { rewrite Z.add_0_r, (Number_of_Z_pos pa) by lia.
    destruct (canonical_spec pa) as (m & e & -> & _); [lia|done]. }
  assert (Hpa : Z.pos pa < 2 ^ 53) by lia.
  assert (Hpb : Z.pos pb < 2 ^ 53) by lia.
  change (Z.pos pa + Z.pos pb) with (Z.pos (pa + pb)) in *.
  rewrite !Number_of_Z_pos by done.
  destruct (canonical_spec pa Hpa) as (ma & ea & -> & Hea & Hea0 & Hma & _).
  destruct (canonical_spec pb Hpb) as (mb & eb & -> & Heb & Heb0 & Hmb & _).
  unfold Number_add, SFadd. cbn [cond_Zopp].
  set (ez := Z.min ea eb).
  assert (Hsum : Z.pos (shl_align ma ea ez).1 + Z.pos (shl_align mb eb ez).1
                 = Z.pos (pa + pb) * 2 ^ (- ez)).
  { rewrite !shl_align_fst, Hma, Hmb by lia.
    rewrite <- !Z.mul_assoc, <- !Z.pow_add_r by lia.
    replace (- ea + (ea - ez)) with (- ez) by lia.
    replace (- eb + (eb - ez)) with (- ez) by lia.
    rewrite Pos2Z.inj_add. lia. }
  change (Z.pos (shl_align ma ea ez).1 + Z.pos (shl_align mb eb ez).1)
    with (Z.pos ((shl_align ma ea ez).1 + (shl_align mb eb ez).1)) in *.
  unfold binary_normalize.
  replace ez with (- - ez) at 3 by lia.
  pose proof (digits2_pos_bounds pa) as Hba.
  pose proof (digits2_pos_bounds pb) as Hbb.
  pose proof (digits2_pos_bounds (pa + pb)) as Hbs.
  assert (Hmono : ∀ x y : positive,
            (x ≤ y)%positive → Z.pos (digits2_pos x) ≤ Z.pos (digits2_pos y)).
  { intros x y Hxy.
    pose proof (digits2_pos_bounds x) as Hx.
    pose proof (digits2_pos_bounds y) as Hy.
    destruct (Z.le_gt_cases (Z.pos (digits2_pos x)) (Z.pos (digits2_pos y)))
      as [|Hgt]; [done|].
    assert (2 ^ Z.pos (digits2_pos y) ≤ 2 ^ (Z.pos (digits2_pos x) - 1))
      by (apply Z.pow_le_mono_r; lia). lia. }
  pose proof (Hmono pa (pa + pb)%positive ltac:(lia)).
  pose proof (Hmono pb (pa + pb)%positive ltac:(lia)).
  pose proof (digits2_pos_le (pa + pb) Hab).
  apply binary_round_shifted; [done|lia|lia|lia|exact Hsum].
Qed.

(** Integers below 2^53 compare as Numbers the way they compare as
    integers. *)
Lemma SFltb_canonical (pa pb : positive) :
  Z.pos pa < 2 ^ 53 → Z.pos pb < 2 ^ 53 →
  SFltb (canonical pa) (canonical pb) = (Z.pos pa <? Z.pos pb).
Proof.
  intros Ha Hb.
  destruct (canonical_spec pa Ha) as (ma & ea & -> & Hea & Hea0 & Hma & _).
  destruct (canonical_spec pb Hb) as (mb & eb & -> & Heb & Heb0 & Hmb & _).
  pose proof (digits2_pos_bounds pa) as Hba.
  pose proof (digits2_pos_bounds pb) as Hbb.
  unfold SFltb, SFcompare.
  destruct (Z.compare_spec ea eb) as [E|E|E].
  - change (Pos.compare_cont Eq ma mb) with (Z.pos ma ?= Z.pos mb).
    rewrite Hma, Hmb, E.
    assert (0 < 2 ^ (- eb)) by (apply Z.pow_pos_nonneg; lia).
    destruct (Z.compare_spec (Z.pos pa * 2 ^ (- eb)) (Z.pos pb * 2 ^ (- eb)))
      as [C|C|C]; symmetry;
      [apply Z.ltb_ge|apply Z.ltb_lt|apply Z.ltb_ge]; nia.
  - symmetry. apply Z.ltb_lt.
    assert (2 ^ Z.pos (digits2_pos pa) ≤ 2 ^ (Z.pos (digits2_pos pb) - 1))
      by (apply Z.pow_le_mono_r; lia).
    lia.
  - symmetry. apply Z.ltb_ge.
    assert (2 ^ Z.pos (digits2_pos pb) ≤ 2 ^ (Z.pos (digits2_pos pa) - 1))
      by (apply Z.pow_le_mono_r; lia).
    lia.
Qed.

Lemma Number_ltb_of_Z (a : Z) (pb : positive) :
  - 2 ^ 53 < a < 2 ^ 53 → Z.pos pb < 2 ^ 53 →
  Number_ltb (Number_of_Z a) (Number_of_Z (Z.pos pb)) = (a <? Z.pos pb)
  ∧ Number_ltb (Number_of_Z (Z.pos pb)) (Number_of_Z a) = (Z.pos pb <? a).
Proof.
  intros Ha Hb. unfold Number_ltb. rewrite (Number_of_Z_pos pb) by done.
  destruct a as [|pa|pa].
  - destruct (canonical_spec pb Hb) as (mb & eb & -> & _). done.
  - rewrite (Number_of_Z_pos pa) by lia.
    split; apply SFltb_canonical; lia.
  - rewrite (Number_of_Z_neg pa) by lia.
    destruct (canonical_spec pb Hb) as (mb & eb & -> & _).
    destruct (canonical_spec pa) as (ma & ea & -> & _); [lia|]. done.
Qed.

(** The check of the form on a rating that is an integer below 2^53. *)
Lemma form_check_of_Z (r : Z) :
  - 2 ^ 53 < r < 2 ^ 53 →
  Number_ltb (Number_of_Z r) (Number_of_Z 1)
  || Number_ltb (Number_of_Z 5) (Number_of_Z r)
  = negb ((1 <=? r) && (r <=? 5)).
Proof.
  intros Hr.
  destruct (Number_ltb_of_Z r 1 Hr ltac:(lia)) as [-> _].
  destruct (Number_ltb_of_Z r 5 Hr ltac:(lia)) as [_ ->]. lia.
Qed.

(** ** [parseInt] reads back the integers it is given *)

Lemma digitValue_pretty_N_char (d : N) :
  (d < 10)%N → digitValue (pretty_N_char d) = Some (Z.of_N d).
Proof.
  intros Hd.
  assert (d = 0 ∨ d = 1 ∨ d = 2 ∨ d = 3 ∨ d = 4 ∨ d = 5 ∨ d = 6 ∨ d = 7
          ∨ d = 8 ∨ d = 9)%N as Hc by lia.
  repeat (destruct Hc as [->|Hc]; [reflexivity|]). by subst.
Qed.

Lemma parseDigits_pretty_N_go (x : N) (s : string) (a : option Z) :
  (0 < x)%N → default 0 a = 0 →
  parseDigits 10 (pretty_N_go x s) a = parseDigits 10 s (Some (Z.of_N x)).
Proof.
  revert s a. induction (N.lt_wf_0 x) as [x _ IH]; intros s a Hx Ha.
  rewrite pretty_N_go_step by done.
  assert (Hd : (x `mod` 10 < 10)%N) by (apply N.mod_lt; lia).
  assert (Hx10 : Z.of_N x = 10 * Z.of_N (x `div` 10) + Z.of_N (x `mod` 10)).
  { rewrite (N.div_mod x 10) at 1 by lia. lia. }
  destruct (decide (x `div` 10 = 0)%N) as [E|E].
  - rewrite E, pretty_N_go_0. cbn [parseDigits].
    rewrite digitValue_pretty_N_char by done.
    rewrite (proj2 (Z.ltb_lt _ _)) by lia.
    rewrite Ha, Hx10, E. done.
  - rewrite IH; [|apply N.div_lt; lia|by apply N.neq_0_lt_0|done].
    cbn [parseDigits]. rewrite digitValue_pretty_N_char by done.
    rewrite (proj2 (Z.ltb_lt _ _)) by lia.
    simpl default. by rewrite Hx10.
Qed.

(** The first character of a positive number is a digit from 1 to 9. *)
Lemma pretty_N_go_head (x : N) (s : string) :
  (0 < x)%N →
  ∃ d rest, pretty_N_go x s = String (pretty_N_char d) rest ∧ (0 < d < 10)%N.
Proof.
  revert s. induction (N.lt_wf_0 x) as [x _ IH]; intros s Hx.
  rewrite pretty_N_go_step by done.
  destruct (decide (x `div` 10 = 0)%N) as [E|E].
  - rewrite E, pretty_N_go_0. exists (x `mod` 10)%N, s. split; [done|].
    assert (H10 : (10 ≠ 0)%N) by lia.
    pose proof (N.div_mod x 10 H10) as Hdm. rewrite E in Hdm.
    pose proof (N.mod_lt x 10 H10). clear IH. lia.
  - assert (0 < x `div` 10)%N by (by apply N.neq_0_lt_0).
    apply IH; [apply N.div_lt; lia|done].
Qed.

Lemma trimStart_ascii (c : ascii) (s : string) :
  (nat_of_ascii c < 128)%nat → isWhiteSpace c = false →
  trimStart (String c s) = String c s.
Proof.
  intros Hc Hw. cbn [trimStart]. rewrite Hw.
  destruct s as [|c2 s2]; [done|].
  replace (isWhiteSpace2 c c2) with false; last first.
  { unfold isWhiteSpace2.
    replace (nat_of_ascii c =? 194)%nat with false
    by (symmetry; apply Nat.eqb_neq; lia). done. }
  destruct s2 as [|c3 s3]; [done|].
  replace (isWhiteSpace3 c c2 c3) with false; [done|].
  unfold isWhiteSpace3. cbv zeta.
  replace (nat_of_ascii c =? 225)%nat with false
    by (symmetry; apply Nat.eqb_neq; lia).
  replace (nat_of_ascii c =? 226)%nat with false
    by (symmetry; apply Nat.eqb_neq; lia).
  replace (nat_of_ascii c =? 227)%nat with false
    by (symmetry; apply Nat.eqb_neq; lia).
  replace (nat_of_ascii c =? 239)%nat with false
    by (symmetry; apply Nat.eqb_neq; lia).
  done.
Qed.

Lemma parseInt_string_digit (d : N) (rest : string) :
  (0 < d < 10)%N →
  let s := String (pretty_N_char d) rest in
  parseInt_string s
  = match parseDigits 10 s None with
    | Some n => JsInt_of_Number (Number_of_Z n)
    | None => NaN
    end
  ∧ parseInt_string (String "-" s)
    = match parseDigits 10 s None with
      | Some n => JsInt_of_Number (Number_of_Z (- n))
      | None => NaN
      end.
Proof.
  intros Hr s.
  assert (Hminus : trimStart (String "-" s) = String "-" s)
    by (by apply trimStart_ascii; [vm_compute; lia|]).
  assert (Hs : trimStart s = s).
  { subst s.
    assert (d = 1 ∨ d = 2 ∨ d = 3 ∨ d = 4 ∨ d = 5 ∨ d = 6 ∨ d = 7
            ∨ d = 8 ∨ d = 9)%N as Hc by lia.
    repeat (destruct Hc as [->|Hc];
            [by apply trimStart_ascii; [vm_compute; lia|]|]).
    subst d. by apply trimStart_ascii; [vm_compute; lia|]. }
  unfold parseInt_string. rewrite Hminus, Hs. subst s.
  assert (d = 1 ∨ d = 2 ∨ d = 3 ∨ d = 4 ∨ d = 5 ∨ d = 6 ∨ d = 7
          ∨ d = 8 ∨ d = 9)%N as Hc by lia.
  clear Hr Hminus Hs.
  assert (Hone : ∀ n, 1 * n = n) by (intros; lia).
  assert (Hopp : ∀ n, -1 * n = - n) by (intros; lia).
  repeat (destruct Hc as [->|Hc];
          [cbv beta iota zeta delta [pretty_N_char];
           destruct (parseDigits _ _ _); by rewrite ?Hone, ?Hopp|]).
  subst d. cbv beta iota zeta delta [pretty_N_char].
  destruct (parseDigits _ _ _); by rewrite ?Hone, ?Hopp.
Qed.

Lemma pretty_Z_pos (p : positive) :
  pretty (Z.pos p) = pretty_N_go (N.pos p) ""
  ∧ pretty (Z.neg p) = String "-" (pretty_N_go (N.pos p) "")
  ∧ pretty (N.pos p) = pretty_N_go (N.pos p) "".
Proof.
  split_and!.
  - unfold pretty, pretty_Z, pretty_positive, pretty, pretty_N.
    by destruct (decide (N.pos p = 0%N)).
  - unfold pretty, pretty_Z, pretty_positive, pretty, pretty_N.
    by destruct (decide (N.pos p = 0%N)).
  - unfold pretty, pretty_N. by destruct (decide (N.pos p = 0%N)).
Qed.

(** An integer below 2^53 is a Number that [parseInt] gives back as it
    is. *)
Lemma JsInt_of_Z (z : Z) :
  - 2 ^ 53 < z < 2 ^ 53 → JsInt_of_Number (Number_of_Z z) = Int z.
Proof.
  intros Hz. pose proof (Number_toZ_of_Z z Hz) as Ht.
  unfold JsInt_of_Number. rewrite Ht.
  destruct (Number_of_Z z); try done.
Qed.

Lemma parseInt_string_pretty_pos (p : positive) :
  Z.pos p < 2 ^ 53 →
  parseInt_string (pretty (Z.pos p)) = Int (Z.pos p)
  ∧ parseInt_string (pretty (Z.neg p)) = Int (Z.neg p).
Proof.
  intros Hsafe.
  assert (Hp : (0 < N.pos p)%N) by lia.
  pose proof (parseDigits_pretty_N_go (N.pos p) "" None Hp eq_refl) as Hd.
  destruct (pretty_N_go_head (N.pos p) "" Hp) as (d & rest & Hs & Hr).
  destruct (pretty_Z_pos p) as (-> & -> & _).
  rewrite Hs in Hd |- *.
  destruct (parseInt_string_digit d rest Hr) as [-> ->].
  rewrite Hd. cbn [parseDigits].
  change (- Z.of_N (N.pos p)) with (Z.neg p).
  change (Z.of_N (N.pos p)) with (Z.pos p).
  split; apply JsInt_of_Z; lia.
Qed.

(** An integer below 2^53 prints as its digits. *)
Lemma Number_toString_of_Z (z : Z) :
  - 2 ^ 53 < z < 2 ^ 53 → Number_toString (Number_of_Z z) = pretty z.
Proof.
  intros Hz. destruct z as [|p|p]; [done| |].
  - rewrite Number_of_Z_pos by lia.
    pose proof (Number_toZ_canonical p) as Ht.
    destruct (canonical_spec p) as (m & e & Hc & _); [lia|].
    rewrite Hc in *. unfold Number_toString. rewrite Ht.
    replace (Z.pos p <? 2 ^ 53) with true by lia.
    rewrite append_nil_l. change (Z.to_N (Z.pos p)) with (N.pos p).
    destruct (pretty_Z_pos p) as (-> & _ & ->). done.
  - rewrite Number_of_Z_neg by lia.
    pose proof (Number_toZ_canonical p) as Ht.
    destruct (canonical_spec p) as (m & e & Hc & _); [lia|].
    rewrite Hc in *. cbn [SFopp negb]. unfold Number_toString. rewrite Ht.
    replace (Z.pos p <? 2 ^ 53) with true by lia.
    change (Z.to_N (Z.pos p)) with (N.pos p).
    destruct (pretty_Z_pos p) as (_ & -> & ->). done.
Qed.

(** *** The integer a string starts with *)

Lemma pretty_N_go_append (x : N) (s r : string) :
  pretty_N_go x s +:+ r = pretty_N_go x (s +:+ r).
Proof.
  revert s. induction (N.lt_wf_0 x) as [x _ IH]; intros s.
  destruct (decide (x = 0)%N) as [->|Hx]; [by rewrite !pretty_N_go_0|].
  assert (0 < x)%N by (by apply N.neq_0_lt_0).
  rewrite (pretty_N_go_step x s), (pretty_N_go_step x (s +:+ r)) by done.
  rewrite IH; [by rewrite append_cons|]. by apply N.div_lt.
Qed.

Lemma trimStart_allWhiteSpace (ws s : string) :
  allWhiteSpace ws = true → trimStart (ws +:+ s) = trimStart s.
Proof.
  unfold allWhiteSpace. intros Hws%String.eqb_eq. revert Hws.
  assert (Hlen : ∃ n, (String.length ws ≤ n)%nat) by (by eexists).
  destruct Hlen as [n Hn]. revert ws Hn.
  induction n as [|n IH]; intros ws Hn.
  { destruct ws; [by rewrite append_nil_l|cbn in Hn; lia]. }
  destruct ws as [|c1 s1]; [by rewrite append_nil_l|].
  cbn [String.length] in Hn. rewrite append_cons. cbn [trimStart].
  destruct (isWhiteSpace c1); [intros H; apply IH; [lia|done]|].
  destruct s1 as [|c2 s2]; [done|].
  cbn [String.length] in Hn. rewrite append_cons.
  destruct (isWhiteSpace2 c1 c2); [intros H; apply IH; [lia|done]|].
  destruct s2 as [|c3 s3]; [done|].
  cbn [String.length] in Hn. rewrite append_cons.
  destruct (isWhiteSpace3 c1 c2 c3); [intros H; apply IH; [lia|done]|done].
Qed.

Lemma parseInt_string_trim (a b : string) :
  trimStart a = trimStart b → parseInt_string a = parseInt_string b.
Proof. intros H. unfold parseInt_string. by rewrite H. Qed.

Lemma parseDigits_stop (rest : string) (a : option Z) :
  startsWithDigit rest = false → parseDigits 10 rest a = a.
Proof.
  destruct rest as [|c rest]; [done|]. cbn [startsWithDigit parseDigits].
  destruct (digitValue c) as [d|]; [|done]. by intros ->.
Qed.

(** White space before the integer is skipped and what follows its last
    digit is not read. *)
Lemma parseInt_string_leading (ws rest : string) (z : Z) :
  allWhiteSpace ws = true →
  z ≠ 0 →
  - 2 ^ 53 < z < 2 ^ 53 →
  startsWithDigit rest = false →
  parseInt_string (ws +:+ pretty z +:+ rest) = Int z.
Proof.
  intros Hws Hz Hsafe Hrest.
  rewrite (parseInt_string_trim _ (pretty z +:+ rest))
    by (by apply trimStart_allWhiteSpace).
  assert (Hcase : ∃ p, z = Z.pos p ∨ z = Z.neg p)
    by (destruct z as [|p|p]; [done|by exists p; left|by exists p; right]).
  destruct Hcase as [p Hp].
  assert (H0 : (0 < N.pos p)%N) by lia.
  pose proof (parseDigits_pretty_N_go (N.pos p) rest None H0 eq_refl) as Hd.
  destruct (pretty_N_go_head (N.pos p) rest H0) as (d & tl & Hs & Hr).
  destruct (pretty_Z_pos p) as (Hpos & Hneg & _).
  rewrite (parseDigits_stop rest _ Hrest) in Hd.
  destruct (parseInt_string_digit d tl Hr) as [Hplus Hminus].
  cbv zeta in Hplus, Hminus. rewrite <- Hs in Hplus, Hminus.
  rewrite Hd in Hplus, Hminus.
  change (Z.of_N (N.pos p)) with (Z.pos p) in Hplus, Hminus.
  change (- Z.pos p) with (Z.neg p) in Hminus.
  destruct Hp as [-> | ->].
  - rewrite Hpos, pretty_N_go_append, append_nil_l, Hplus.
    apply JsInt_of_Z. lia.
  - rewrite Hneg, append_cons, pretty_N_go_append, append_nil_l, Hminus.
    apply JsInt_of_Z. lia.
Qed.

Lemma parseInt_JStr_leading (ws rest : string) (z : Z) :
  allWhiteSpace ws = true →
  z ≠ 0 →
  - 2 ^ 53 < z < 2 ^ 53 →
  startsWithDigit rest = false →
  parseInt (Some (JStr (ws +:+ pretty z +:+ rest))) = Some (Int z).
Proof.
  intros. unfold parseInt. cbn [ToString fmap option_fmap option_map].
  f_equal. by apply parseInt_string_leading.
Qed.

Lemma parseInt_JInt (z : Z) :
  - 2 ^ 53 < z < 2 ^ 53 → parseInt (Some (JInt z)) = Some (Int z).
Proof.
  intros Hz. unfold parseInt, JInt. cbn [ToString fmap option_fmap option_map].
  rewrite Number_toString_of_Z by done. f_equal.
  destruct z as [|p|p]; [reflexivity|..];
    apply (parseInt_string_pretty_pos p); lia.
Qed.

Lemma truthy_JInt (z : Z) :
  - 2 ^ 53 < z < 2 ^ 53 → truthy (Some (JInt z)) = negb (z =? 0).
Proof.
  intros Hz. unfold JInt. destruct z as [|p|p]; [done| |].
  - rewrite Number_of_Z_pos by lia.
    destruct (canonical_spec p) as (m & e & -> & _); [lia|done].
  - rewrite Number_of_Z_neg by lia.
    destruct (canonical_spec p) as (m & e & -> & _); [lia|done].
Qed.

(** ** The middleware and the caller *)

Section BackendFacts.
Variable X : Externals.

Lemma verify_caller req u next :
  callerOf X req = Some u → verifyFirebaseIdToken X req next = next u.
Proof.
  unfold callerOf, verifyFirebaseIdToken.
  destruct (authorization req ≫= _) as [idToken|]; simpl; [|done].
  destruct (String.eqb idToken ""); [done|].
  destruct (verifyIdToken X idToken); simpl; congruence.
Qed.

Lemma verify_no_caller req next env c :
  callerOf X req = None →
  status (verifyFirebaseIdToken X req next env c).1 = 401
  ∧ (verifyFirebaseIdToken X req next env c).2 = c.
Proof.
  unfold callerOf, verifyFirebaseIdToken.
  destruct (authorization req ≫= _) as [idToken|]; simpl; [|done].
  destruct (String.eqb idToken ""); [done|].
  destruct (verifyIdToken X idToken); simpl; [congruence|done].
Qed.

Lemma Server_submit_caller req u :
  callerOf X req = Some u → Server.submit X req = Routes.post X u req.
Proof.
  intros H. unfold Server.submit, Server.mount, Routes.router_post.
  by rewrite !(verify_caller _ _ _ H).
Qed.

Lemma Server_update_caller req u :
  callerOf X req = Some u → Server.update X req = Routes.put X u req.
Proof.
  intros H. unfold Server.update, Server.mount, Routes.router_put.
  by rewrite !(verify_caller _ _ _ H).
Qed.

Lemma Server_delete_caller req u :
  callerOf X req = Some u → Server.delete X req = Routes.delete u req.
Proof.
  intros H. unfold Server.delete, Server.mount, Routes.router_delete.
  by rewrite !(verify_caller _ _ _ H).
Qed.

Lemma Server_listRecent_caller req u :
  callerOf X req = Some u →
  Server.listRecent X req = Routes.get_recent X u req.
Proof.
  intros H. unfold Server.listRecent, Server.mount, Routes.router_get_recent.
  by rewrite !(verify_caller _ _ _ H).
Qed.

Lemma InlineServer_submit_caller req u :
  callerOf X req = Some u →
  InlineServer.submit X req = InlineServer.post u req.
Proof. intros H. unfold InlineServer.submit. by rewrite (verify_caller _ _ _ H). Qed.

Lemma InlineServer_listRecent_caller req u :
  callerOf X req = Some u →
  InlineServer.listRecent X req = InlineServer.get_recent X u req.
Proof.
  intros H. unfold InlineServer.listRecent. by rewrite (verify_caller _ _ _ H).
Qed.

End BackendFacts.

(** ** Submit *)

Section SubmitFacts.
Variable X : Externals.

Lemma Routes_post_400 u req env c :
  status (Routes.post X u req env c).1 = 400
  ↔ truthy (body req !! "moodValue") = false
    ∨ truthy (body req !! "recordedAt") = false.
Proof.
  unfold Routes.post.
  destruct (truthy (body req !! "moodValue")); cbn [negb]; [|by intuition].
  destruct (body req !! "recordedAt") as [v|] eqn:Hv; [|by intuition].
  destruct (truthy (Some v)); cbn [negb]; [|by intuition].
  destruct (parseInt (body req !! "moodValue"));
    [destruct (Timestamp_fromDate X (new_Date X v))|]; cbn;
    (split; [discriminate|intros [?|?]; discriminate]).
Qed.

Lemma Routes_post_unchanged u req env c :
  status (Routes.post X u req env c).1 ≠ 201 → (Routes.post X u req env c).2 = c.
Proof.
  unfold Routes.post.
  destruct (truthy (body req !! "moodValue")); cbn [negb]; [|done].
  destruct (body req !! "recordedAt") as [v|]; [|done].
  destruct (truthy (Some v)); cbn [negb]; [|done].
  destruct (parseInt (body req !! "moodValue")); [|done].
  destruct (Timestamp_fromDate X (new_Date X v)); cbn; done.
Qed.

Lemma Routes_post_201 u req env c v rating ts :
  truthy (body req !! "moodValue") = true →
  body req !! "recordedAt" = Some v →
  truthy (Some v) = true →
  parseInt (body req !! "moodValue") = Some rating →
  Timestamp_fromDate X (new_Date X v) = Some ts →
  c !! autoId env = None →
  Routes.post X u req env c
  = (mkResponse 201 (Added "Mood entry added successfully." None),
     <[autoId env := submittedDoc u rating req ts]> c).
Proof.
  intros Hm Hv Ht Hr Hts Hid. unfold Routes.post, collection_add.
  rewrite Hm, Hv, Ht, Hr, Hts, Hid. done.
Qed.

(** A rating or a date that does not convert: the router answers 500. *)
Lemma Routes_post_500 u req env c v :
  truthy (body req !! "moodValue") = true →
  body req !! "recordedAt" = Some v →
  truthy (Some v) = true →
  parseInt (body req !! "moodValue") = None
  ∨ Timestamp_fromDate X (new_Date X v) = None →
  Routes.post X u req env c
  = (mkResponse 500 (Error "Internal Server Error while adding mood."), c).
Proof.
  intros Hm Hv Ht H. unfold Routes.post. rewrite Hm, Hv, Ht. cbn [negb].
  destruct H as [-> | H]; [done|].
  destruct (parseInt (body req !! "moodValue")); [|done]. by rewrite H.
Qed.

Lemma InlineServer_post_400 u req env c :
  status (InlineServer.post u req env c).1 = 400
  ↔ truthy (body req !! "moodValue") = false.
Proof.
  unfold InlineServer.post.
  destruct (truthy (body req !! "moodValue")); cbn [negb]; [|done].
  destruct (parseInt (body req !! "moodValue"));
    [destruct (collection_add _ _ _)|]; cbn; split; discriminate.
Qed.

Lemma InlineServer_post_unchanged u req env c :
  status (InlineServer.post u req env c).1 ≠ 201 →
  (InlineServer.post u req env c).2 = c.
Proof.
  unfold InlineServer.post.
  destruct (truthy (body req !! "moodValue")); cbn [negb]; [|done].
  destruct (parseInt (body req !! "moodValue")); [|done].
  destruct (collection_add _ _ _); cbn; done.
Qed.

Lemma InlineServer_post_201 u req env c rating :
  truthy (body req !! "moodValue") = true →
  parseInt (body req !! "moodValue") = Some rating →
  c !! autoId env = None →
  InlineServer.post u req env c
  = (mkResponse 201
       (Added "Mood entry added successfully." (Some (autoId env))),
     <[autoId env := submittedDoc u rating req (serverTimestamp env)]> c).
Proof.
  intros Hm Hr Hid. unfold InlineServer.post, collection_add.
  rewrite Hm, Hr, Hid. done.
Qed.

Lemma InlineServer_post_500 u req env c :
  truthy (body req !! "moodValue") = true →
  parseInt (body req !! "moodValue") = None →
  InlineServer.post u req env c
  = (mkResponse 500 (Error "Internal Server Error while adding mood."), c).
Proof.
  intros Hm Hr. unfold InlineServer.post. by rewrite Hm, Hr.
Qed.

End SubmitFacts.

(** C1, as the routes have it.  For a verified caller, submit answers 400
    exactly when [moodValue] is falsy (absent, [null], [false], 0, [NaN],
    the empty string) or, in the router, [recordedAt] is falsy, and then
    nothing is persisted; there is no check of the range.  A request that
    passes, whose rating and [recordedAt] convert and whose document id is
    free, is answered 201 and persists one entry with [parseInt(moodValue)]
    as its rating: an integer below 2^53 in magnitude is stored as it is,
    the ratings 1 to 5 and 6 alike, and ["x"] is stored as [NaN].  A
    rating that cannot be printed (an object with a [toString] property of
    its own) makes [parseInt] throw: the answer is 500 and nothing is
    persisted. *)
Theorem submit_rejects_only_falsy X req env c u :
  callerOf X req = Some u →
  (status (Server.submit X req env c).1 = 400
   ↔ truthy (body req !! "moodValue") = false
     ∨ truthy (body req !! "recordedAt") = false)
  ∧ (status (Server.submit X req env c).1 = 400 →
     (Server.submit X req env c).2 = c)
  ∧ (∀ v rating ts,
       truthy (body req !! "moodValue") = true →
       body req !! "recordedAt" = Some v →
       truthy (Some v) = true →
       parseInt (body req !! "moodValue") = Some rating →
       Timestamp_fromDate X (new_Date X v) = Some ts →
       c !! autoId env = None →
       status (Server.submit X req env c).1 = 201
       ∧ (Server.submit X req env c).2
         = <[autoId env := submittedDoc u rating req ts]> c)
  ∧ (truthy (body req !! "moodValue") = true →
     truthy (body req !! "recordedAt") = true →
     parseInt (body req !! "moodValue") = None →
     status (Server.submit X req env c).1 = 500
     ∧ (Server.submit X req env c).2 = c)
  ∧ (status (InlineServer.submit X req env c).1 = 400
     ↔ truthy (body req !! "moodValue") = false)
  ∧ (status (InlineServer.submit X req env c).1 = 400 →
     (InlineServer.submit X req env c).2 = c)
  ∧ (∀ rating,
       truthy (body req !! "moodValue") = true →
       parseInt (body req !! "moodValue") = Some rating →
       c !! autoId env = None →
       InlineServer.submit X req env c
       = (mkResponse 201
            (Added "Mood entry added successfully." (Some (autoId env))),
          <[autoId env := submittedDoc u rating req (serverTimestamp env)]> c))
  ∧ (truthy (body req !! "moodValue") = true →
     parseInt (body req !! "moodValue") = None →
     status (InlineServer.submit X req env c).1 = 500
     ∧ (InlineServer.submit X req env c).2 = c)
  ∧ (∀ r, - 2 ^ 53 < r < 2 ^ 53 →
          truthy (Some (JInt r)) = negb (r =? 0)
          ∧ parseInt (Some (JInt r)) = Some (Int r))
  ∧ truthy (Some (JStr "x")) = true
  ∧ parseInt (Some (JStr "x")) = Some NaN
  ∧ (∀ fields, parseInt (Some (JObj (("toString", JNull) :: fields))) = None).
Proof.
  intros Hu.
  rewrite (Server_submit_caller X req u Hu).
  rewrite (InlineServer_submit_caller X req u Hu).
  split_and!.
  - apply Routes_post_400.
  - intros H. apply Routes_post_unchanged. rewrite H. done.
  - intros v rating ts Hm Hv Ht Hr Hts Hid.
    rewrite (Routes_post_201 X u req env c v rating ts Hm Hv Ht Hr Hts Hid).
    done.
  - intros Hm Ht Hr.
    destruct (body req !! "recordedAt") as [v|] eqn:Hv; [|done].
    rewrite (Routes_post_500 X u req env c v Hm Hv Ht); [done|by left].
  - apply InlineServer_post_400.
  - intros H. apply InlineServer_post_unchanged. rewrite H. done.
  - intros rating. apply InlineServer_post_201.
  - intros Hm Hr. by rewrite (InlineServer_post_500 u req env c Hm Hr).
  - intros r Hr. split; [by apply truthy_JInt|by apply parseInt_JInt].
  - done.
  - done.
  - done.
Qed.

Lemma submit_rejects_only_falsy_witness :
  (status (Server.submit exampleX submit6 exampleEnv exampleCollection).1
   = 400
   ↔ truthy (body submit6 !! "moodValue") = false
     ∨ truthy (body submit6 !! "recordedAt") = false)
  ∧ status (Server.submit exampleX submit6 exampleEnv exampleCollection).1
    = 201
  ∧ (Server.submit exampleX submit6 exampleEnv exampleCollection).2
    = <["m2" := mkMoodDoc "alice" (Int 6) (JStr "")
                  (mkTimestamp 1704153600 0)]> exampleCollection.
Proof.
  destruct (submit_rejects_only_falsy exampleX submit6 exampleEnv
              exampleCollection "alice" eq_refl) as (H400 & _ & H201 & _).
  split; [exact H400|].
  apply (H201 (JStr "2024-01-02") (Int 6) (mkTimestamp 1704153600 0));
    reflexivity.
Defined.

(** C1 fails as stated: a rating of 6 and the rating ["x"] are accepted
    with 201 and persisted, as 6 and as [NaN]. *)
Lemma submit_accepts_6_and_x :
  status (Server.submit exampleX submit6 exampleEnv exampleCollection).1 = 201
  ∧ moodValue <$> (Server.submit exampleX submit6 exampleEnv
                     exampleCollection).2 !! "m2" = Some (Int 6)
  ∧ status (Server.submit exampleX submitX exampleEnv exampleCollection).1 = 201
  ∧ moodValue <$> (Server.submit exampleX submitX exampleEnv
                     exampleCollection).2 !! "m2" = Some NaN
  ∧ status (InlineServer.submit exampleX submit6 exampleEnv
              exampleCollection).1 = 201
  ∧ moodValue <$> (InlineServer.submit exampleX submit6 exampleEnv
                     exampleCollection).2 !! "m2" = Some (Int 6).
Proof. vm_compute. done. Qed.

(** ** Update and delete *)

Section UpdateFacts.
Variable X : Externals.

Lemma Routes_put_forbidden u req env c e :
  c !! params_id req = Some e → userId e ≠ u →
  Routes.put X u req env c
  = (mkResponse 403 (Message "Unauthorized to update this mood entry."), c).
Proof.
  intros He Hne. unfold Routes.put. rewrite He.
  apply String.eqb_neq in Hne. rewrite Hne. done.
Qed.

Lemma Routes_delete_forbidden u req env c e :
  c !! params_id req = Some e → userId e ≠ u →
  Routes.delete u req env c
  = (mkResponse 403 (Message "Unauthorized to delete this mood entry."), c).
Proof.
  intros He Hne. unfold Routes.delete. rewrite He.
  apply String.eqb_neq in Hne. rewrite Hne. done.
Qed.

(** What [updateData] holds, field by field. *)
Lemma buildUpdateData_fields req :
  Routes.buildUpdateData X req
  = (mv ← match body req !! "moodValue" with
          | Some _ => Some <$> parseInt (body req !! "moodValue")
          | None => Some None
          end;
     match body req !! "recordedAt" with
     | Some v =>
         ts ← Timestamp_fromDate X (new_Date X v);
         Some (mkUpdateData mv (body req !! "notes") (Some ts))
     | None => Some (mkUpdateData mv (body req !! "notes") None)
     end).
Proof.
  unfold Routes.buildUpdateData, emptyUpdate.
  destruct (body req !! "moodValue") as [m|]; [|cbn].
  - destruct (parseInt (Some m)); [cbn|done].
    destruct (body req !! "notes"), (body req !! "recordedAt"); done.
  - destruct (body req !! "notes"), (body req !! "recordedAt"); done.
Qed.

Lemma Routes_put_owner u req env c e :
  c !! params_id req = Some e → userId e = u →
  Routes.put X u req env c
  = match Routes.buildUpdateData X req with
    | Some updateData =>
        if update_accepts X updateData
        then (mkResponse 200 (Message "Mood entry updated successfully."),
              <[params_id req := applyUpdate updateData e]> c)
        else (mkResponse 500
                (Error "Internal Server Error while updating mood."), c)
    | None =>
        (mkResponse 500 (Error "Internal Server Error while updating mood."), c)
    end.
Proof.
  intros He Hu. unfold Routes.put. rewrite He.
  apply String.eqb_eq in Hu. rewrite Hu. done.
Qed.

Lemma Routes_put_status u req env c :
  status (Routes.put X u req env c).1 ≠ 400.
Proof.
  unfold Routes.put.
  destruct (c !! params_id req) as [e|]; [|done].
  destruct (String.eqb (userId e) u); cbn [negb]; [|done].
  destruct (Routes.buildUpdateData X req) as [ud|]; [|done].
  destruct (update_accepts X ud); done.
Qed.

Lemma applyUpdate_empty e : applyUpdate emptyUpdate e = e.
Proof. by destruct e. Qed.

End UpdateFacts.

(** C2.  A verified caller who does not own the entry gets 403 from update
    and from delete, whatever the body holds and whatever the externals
    do with it, and the collection is left as it was. *)
Theorem update_delete_not_owner_403 X req env c e u :
  callerOf X req = Some u →
  c !! params_id req = Some e →
  userId e ≠ u →
  Server.update X req env c
  = (mkResponse 403 (Message "Unauthorized to update this mood entry."), c)
  ∧ Server.delete X req env c
    = (mkResponse 403 (Message "Unauthorized to delete this mood entry."), c).
Proof.
  intros Hu He Hne.
  rewrite (Server_update_caller X req u Hu), (Server_delete_caller X req u Hu).
  split.
  - by apply (Routes_put_forbidden X u req env c e).
  - by apply (Routes_delete_forbidden u req env c e).
Qed.

Lemma update_delete_not_owner_403_witness :
  Server.update exampleX updateByBob exampleEnv exampleCollection
  = (mkResponse 403 (Message "Unauthorized to update this mood entry."),
     exampleCollection)
  ∧ Server.delete exampleX updateByBob exampleEnv exampleCollection
    = (mkResponse 403 (Message "Unauthorized to delete this mood entry."),
       exampleCollection).
Proof.
  apply (update_delete_not_owner_403 exampleX updateByBob exampleEnv
           exampleCollection
           (mkMoodDoc "alice" (Int 3) (JStr "fine") (mkTimestamp 1704067200 0))
           "bob").
  - reflexivity.
  - reflexivity.
  - simpl. discriminate.
Defined.

(** ** The owner of a new entry *)

Section OwnerFacts.
Variable X : Externals.

Lemma Routes_post_new_entry u req env c id d :
  c !! id = None → (Routes.post X u req env c).2 !! id = Some d → userId d = u.
Proof.
  unfold Routes.post, collection_add. intros Hc.
  destruct (truthy (body req !! "moodValue")); cbn [negb]; [|by cbn; rewrite Hc].
  destruct (body req !! "recordedAt") as [v|]; [|by cbn; rewrite Hc].
  destruct (truthy (Some v)); cbn [negb]; [|by cbn; rewrite Hc].
  destruct (parseInt (body req !! "moodValue")) as [rating|];
    [|by cbn; rewrite Hc].
  destruct (Timestamp_fromDate X (new_Date X v)) as [ts|]; cbn;
    [|by rewrite Hc].
  destruct (c !! autoId env); cbn; [by rewrite Hc|].
  destruct (decide (id = autoId env)) as [->|Hne].
  - rewrite lookup_insert_eq. by intros [= <-].
  - rewrite lookup_insert_ne by done. by rewrite Hc.
Qed.

Lemma InlineServer_post_new_entry u req env c id d :
  c !! id = None → (InlineServer.post u req env c).2 !! id = Some d →
  userId d = u.
Proof.
  unfold InlineServer.post, collection_add. intros Hc.
  destruct (truthy (body req !! "moodValue")); cbn [negb]; [|by cbn; rewrite Hc].
  destruct (parseInt (body req !! "moodValue")) as [rating|];
    [|by cbn; rewrite Hc].
  destruct (c !! autoId env); cbn; [by rewrite Hc|].
  destruct (decide (id = autoId env)) as [->|Hne].
  - rewrite lookup_insert_eq. by intros [= <-].
  - rewrite lookup_insert_ne by done. by rewrite Hc.
Qed.

Lemma verify_same_header req req' next :
  authorization req = authorization req' →
  verifyFirebaseIdToken X req next = verifyFirebaseIdToken X req' next.
Proof. unfold verifyFirebaseIdToken. by intros ->. Qed.

Lemma Routes_post_same_fields u req req' :
  sameSubmission req req' → Routes.post X u req = Routes.post X u req'.
Proof. intros (_ & Hm & Hn & Hr). unfold Routes.post. by rewrite Hm, Hn, Hr. Qed.

Lemma InlineServer_post_same_fields u req req' :
  sameSubmission req req' → InlineServer.post u req = InlineServer.post u req'.
Proof. intros (_ & Hm & Hn & _). unfold InlineServer.post. by rewrite Hm, Hn. Qed.

End OwnerFacts.

(** C3.  An entry that submit adds carries the [uid] of the verified token
    as its [userId]; a request that passes, with a rating and a date that
    convert, persists such an entry; and two requests with the same header
    that agree on [moodValue], [notes] and [recordedAt] get the same answer
    and leave the same collection, whatever else their bodies hold. *)
Theorem submit_owner_is_token_subject X req env c :
  (∀ id d, c !! id = None →
     (Server.submit X req env c).2 !! id = Some d →
     callerOf X req = Some (userId d))
  ∧ (∀ id d, c !! id = None →
       (InlineServer.submit X req env c).2 !! id = Some d →
       callerOf X req = Some (userId d))
  ∧ (∀ u v ts, callerOf X req = Some u →
       truthy (body req !! "moodValue") = true →
       body req !! "recordedAt" = Some v →
       truthy (Some v) = true →
       is_Some (parseInt (body req !! "moodValue")) →
       Timestamp_fromDate X (new_Date X v) = Some ts →
       c !! autoId env = None →
       userId <$> (Server.submit X req env c).2 !! autoId env = Some u)
  ∧ (∀ u, callerOf X req = Some u →
       truthy (body req !! "moodValue") = true →
       is_Some (parseInt (body req !! "moodValue")) →
       c !! autoId env = None →
       userId <$> (InlineServer.submit X req env c).2 !! autoId env = Some u)
  ∧ (∀ req', sameSubmission req req' →
       Server.submit X req env c = Server.submit X req' env c
       ∧ InlineServer.submit X req env c = InlineServer.submit X req' env c).
Proof.
  split_and!.
  - intros id d Hc Hd. destruct (callerOf X req) as [u|] eqn:Hu.
    + rewrite (Server_submit_caller X req u Hu) in Hd.
      by rewrite (Routes_post_new_entry X u req env c id d Hc Hd).
    + unfold Server.submit, Server.mount in Hd.
      destruct (verify_no_caller X req
                  (λ _, Routes.router_post X req) env c Hu) as [_ E].
      rewrite E in Hd. congruence.
  - intros id d Hc Hd. destruct (callerOf X req) as [u|] eqn:Hu.
    + rewrite (InlineServer_submit_caller X req u Hu) in Hd.
      by rewrite (InlineServer_post_new_entry u req env c id d Hc Hd).
    + unfold InlineServer.submit in Hd.
      destruct (verify_no_caller X req
                  (λ firebaseUid, InlineServer.post firebaseUid req)
                  env c Hu) as [_ E].
      rewrite E in Hd. congruence.
  - intros u v ts Hu Hm Hv Ht [rating Hr] Hts Hid.
    rewrite (Server_submit_caller X req u Hu).
    rewrite (Routes_post_201 X u req env c v rating ts Hm Hv Ht Hr Hts Hid).
    cbn. by rewrite lookup_insert_eq.
  - intros u Hu Hm [rating Hr] Hid.
    rewrite (InlineServer_submit_caller X req u Hu).
    rewrite (InlineServer_post_201 u req env c rating Hm Hr Hid).
    cbn. by rewrite lookup_insert_eq.
  - intros req' Hs. pose proof Hs as (Ha & _).
    unfold Server.submit, Server.mount, Routes.router_post,
      InlineServer.submit.
    rewrite !(verify_same_header X req req' _ Ha). split.
    + destruct (callerOf X req') as [u|] eqn:Hu.
      * rewrite !(verify_caller X req' u _ Hu).
        by rewrite (Routes_post_same_fields X u req req' Hs).
      * unfold verifyFirebaseIdToken. unfold callerOf in Hu.
        destruct (authorization req' ≫= _) as [t|]; [|done].
        cbn in Hu. destruct (String.eqb t ""); [done|].
        destruct (verifyIdToken X t); [done|done].
    + destruct (callerOf X req') as [u|] eqn:Hu.
      * rewrite !(verify_caller X req' u _ Hu).
        by rewrite (InlineServer_post_same_fields u req req' Hs).
      * unfold verifyFirebaseIdToken. unfold callerOf in Hu.
        destruct (authorization req' ≫= _) as [t|]; [|done].
        cbn in Hu. destruct (String.eqb t ""); [done|].
        destruct (verifyIdToken X t); [done|done].
Qed.

Lemma submit_owner_is_token_subject_witness :
  Server.submit exampleX submitPlain exampleEnv exampleCollection
  = Server.submit exampleX submitAsBob exampleEnv exampleCollection
  ∧ userId <$> (Server.submit exampleX submitAsBob exampleEnv
                  exampleCollection).2 !! "m2" = Some "alice".
Proof.
  destruct (submit_owner_is_token_subject exampleX submitPlain exampleEnv
              exampleCollection) as (_ & _ & _ & _ & H).
  split.
  - apply H. repeat split.
  - reflexivity.
Defined.

(** ** The range of the ratings *)

Section RangeFacts.
Variable X : Externals.

Lemma ratingInRange_parseInt r :
  1 <= r <= 5 →
  ∀ d, parseInt (Some (JInt r)) = Some (moodValue d) → ratingInRange d.
Proof.
  intros Hr d Hd. exists r. rewrite parseInt_JInt in Hd by lia.
  by injection Hd as <-.
Qed.

Lemma ratingsInRange_insert c id d :
  ratingsInRange c → ratingInRange d → ratingsInRange (<[id := d]> c).
Proof.
  intros Hc Hd id' d'. destruct (decide (id' = id)) as [->|Hne].
  - rewrite lookup_insert_eq. by intros [= <-].
  - rewrite lookup_insert_ne by done. apply Hc.
Qed.

Lemma ratingsInRange_delete c id :
  ratingsInRange c → ratingsInRange (base.delete id c).
Proof.
  intros Hc id' d'. destruct (decide (id' = id)) as [->|Hne].
  - by rewrite lookup_delete_eq.
  - rewrite lookup_delete_ne by done. apply Hc.
Qed.

Lemma Routes_post_keeps_range u req env c :
  ratingsInRange c →
  (body req !! "moodValue" = None
   ∨ ∃ r, body req !! "moodValue" = Some (JInt r) ∧ 1 <= r <= 5) →
  ratingsInRange (Routes.post X u req env c).2.
Proof.
  intros Hc Hm. unfold Routes.post, collection_add.
  destruct (truthy (body req !! "moodValue")) eqn:Ht; cbn [negb]; [|done].
  destruct (body req !! "recordedAt") as [v|]; [|done].
  destruct (truthy (Some v)); cbn [negb]; [|done].
  destruct (parseInt (body req !! "moodValue")) as [rating|] eqn:Hp; [|done].
  destruct (Timestamp_fromDate X (new_Date X v)) as [ts|]; cbn; [|done].
  destruct (c !! autoId env); cbn; [done|].
  apply ratingsInRange_insert; [done|].
  destruct Hm as [Hm|(r & Hm & Hr)]; rewrite Hm in Ht, Hp; [done|].
  by apply (ratingInRange_parseInt r).
Qed.

Lemma InlineServer_post_keeps_range u req env c :
  ratingsInRange c →
  (body req !! "moodValue" = None
   ∨ ∃ r, body req !! "moodValue" = Some (JInt r) ∧ 1 <= r <= 5) →
  ratingsInRange (InlineServer.post u req env c).2.
Proof.
  intros Hc Hm. unfold InlineServer.post, collection_add.
  destruct (truthy (body req !! "moodValue")) eqn:Ht; cbn [negb]; [|done].
  destruct (parseInt (body req !! "moodValue")) as [rating|] eqn:Hp; [|done].
  destruct (c !! autoId env); cbn; [done|].
  apply ratingsInRange_insert; [done|].
  destruct Hm as [Hm|(r & Hm & Hr)]; rewrite Hm in Ht, Hp; [done|].
  by apply (ratingInRange_parseInt r).
Qed.

Lemma Routes_put_keeps_range u req env c :
  ratingsInRange c →
  (body req !! "moodValue" = None
   ∨ ∃ r, body req !! "moodValue" = Some (JInt r) ∧ 1 <= r <= 5) →
  ratingsInRange (Routes.put X u req env c).2.
Proof.
  intros Hc Hm. unfold Routes.put.
  destruct (c !! params_id req) as [e|] eqn:He; [|done].
  destruct (String.eqb (userId e) u); cbn [negb]; [|done].
  rewrite buildUpdateData_fields.
  assert (Hin : ∀ mv n t,
    match body req !! "moodValue" with
    | Some _ => Some <$> parseInt (body req !! "moodValue")
    | None => Some None
    end = Some mv →
    ratingInRange (applyUpdate (mkUpdateData mv n t) e)).
  { intros mv n t. destruct Hm as [Hm|(r & Hm & Hr)]; rewrite Hm.
    - intros [= <-]. cbn. destruct (Hc _ _ He) as (r & Hr & Hle). by exists r.
    - rewrite parseInt_JInt by lia. intros [= <-]. by exists r. }
  destruct (match body req !! "moodValue" with
            | Some _ => _
            | None => _
            end) as [mv|] eqn:Hmv; [|done].
  cbn [mbind option_bind].
  destruct (body req !! "recordedAt") as [v|].
  - destruct (Timestamp_fromDate X (new_Date X v)) as [ts|]; cbn; [|done].
    destruct (update_accepts X _); cbn; [|done].
    apply ratingsInRange_insert; [done|]. by apply Hin.
  - destruct (update_accepts X _); cbn; [|done].
    apply ratingsInRange_insert; [done|]. by apply Hin.
Qed.

Lemma Routes_delete_keeps_range u req env c :
  ratingsInRange c → ratingsInRange (Routes.delete u req env c).2.
Proof.
  intros Hc. unfold Routes.delete.
  destruct (c !! params_id req) as [e|]; [|done].
  destruct (String.eqb (userId e) u); cbn [negb]; [|done].
  by apply ratingsInRange_delete.
Qed.

(** The middleware leaves the collection to the handler. *)
Lemma verify_preserves (P : Collection → Prop) req next env c :
  P c → (∀ u, P (next u env c).2) →
  P (verifyFirebaseIdToken X req next env c).2.
Proof.
  intros Hc Hn. unfold verifyFirebaseIdToken.
  destruct (authorization req ≫= _) as [t|]; [|done].
  destruct (String.eqb t ""); [done|].
  destruct (verifyIdToken X t); [apply Hn|done].
Qed.

Lemma verify_status_not_400 req next env c :
  (∀ u, status (next u env c).1 ≠ 400) →
  status (verifyFirebaseIdToken X req next env c).1 ≠ 400.
Proof.
  intros Hn. unfold verifyFirebaseIdToken.
  destruct (authorization req ≫= _) as [t|]; [|done].
  destruct (String.eqb t ""); [done|].
  destruct (verifyIdToken X t); [apply Hn|done].
Qed.

End RangeFacts.

(** C4, as the routes have it.  The server has no check of the range:
    update never answers 400, and an accepted update whose body has a
    [moodValue] writes [parseInt(moodValue)].  For an integer (below 2^53)
    that is the integer itself, in the range or not; for a string that
    starts with an integer it is that integer, whatever follows; the number
    4.9 is read as 4 and the number 10^21, which prints as 1e+21, as 1.
    The ratings stay within 1..5 when the [moodValue] of each write is
    absent or is itself an integer from 1 to 5. *)
Theorem ratings_in_range_only_for_valid_writes X req env c :
  status (Server.update X req env c).1 ≠ 400
  ∧ (∀ u e ud v,
       callerOf X req = Some u →
       c !! params_id req = Some e →
       userId e = u →
       body req !! "moodValue" = Some v →
       Routes.buildUpdateData X req = Some ud →
       update_accepts X ud = true →
       status (Server.update X req env c).1 = 200
       ∧ moodValue <$> (Server.update X req env c).2 !! params_id req
         = parseInt (Some v))
  ∧ (∀ z, - 2 ^ 53 < z < 2 ^ 53 → parseInt (Some (JInt z)) = Some (Int z))
  ∧ (∀ z rest, z ≠ 0 → - 2 ^ 53 < z < 2 ^ 53 →
       startsWithDigit rest = false →
       parseInt (Some (JStr (pretty z +:+ rest))) = Some (Int z))
  ∧ parseInt (Some (JNum (Number_div (Number_of_Z 49) (Number_of_Z 10))))
    = Some (Int 4)
  ∧ parseInt (Some (JInt (10 ^ 21))) = Some (Int 1)
  ∧ (ratingsInRange c →
     (body req !! "moodValue" = None
      ∨ ∃ r, body req !! "moodValue" = Some (JInt r) ∧ 1 <= r <= 5) →
     ratingsInRange (Server.submit X req env c).2
     ∧ ratingsInRange (InlineServer.submit X req env c).2
     ∧ ratingsInRange (Server.update X req env c).2)
  ∧ (ratingsInRange c → ratingsInRange (Server.delete X req env c).2).
Proof.
  split_and!.
  - unfold Server.update, Server.mount, Routes.router_put.
    apply verify_status_not_400. intros _.
    apply verify_status_not_400. intros u. apply Routes_put_status.
  - intros u e ud v Hu He Ho Hv Hud Hacc.
    rewrite (Server_update_caller X req u Hu).
    rewrite (Routes_put_owner X u req env c e He Ho), Hud, Hacc.
    cbn [fst snd status]. rewrite lookup_insert_eq.
    rewrite buildUpdateData_fields, Hv in Hud.
    destruct (parseInt (Some v)) as [rating|]; [|done].
    cbn in Hud |- *.
    destruct (body req !! "recordedAt") as [w|].
    + destruct (Timestamp_fromDate X (new_Date X w)); [|done].
      by injection Hud as <-.
    + by injection Hud as <-.
  - apply parseInt_JInt.
  - intros z rest Hz Hsafe Hrest.
    rewrite <- (append_nil_l (pretty z +:+ rest)).
    by apply parseInt_JStr_leading.
  - by vm_compute.
  - by vm_compute.
  - intros Hc Hm. split_and!.
    + unfold Server.submit, Server.mount, Routes.router_post.
      apply verify_preserves; [done|intros _].
      apply verify_preserves; [done|intros u].
      by apply Routes_post_keeps_range.
    + unfold InlineServer.submit.
      apply verify_preserves; [done|intros u].
      by apply InlineServer_post_keeps_range.
    + unfold Server.update, Server.mount, Routes.router_put.
      apply verify_preserves; [done|intros _].
      apply verify_preserves; [done|intros u].
      by apply Routes_put_keeps_range.
  - intros Hc. unfold Server.delete, Server.mount, Routes.router_delete.
    apply verify_preserves; [done|intros _].
    apply verify_preserves; [done|intros u].
    by apply Routes_delete_keeps_range.
Qed.

Lemma ratings_in_range_only_for_valid_writes_witness :
  status (Server.update exampleX update9 exampleEnv exampleCollection).1 = 200
  ∧ moodValue <$> (Server.update exampleX update9 exampleEnv
                     exampleCollection).2 !! params_id update9
    = parseInt (Some (JInt 9)).
Proof.
  destruct (ratings_in_range_only_for_valid_writes exampleX update9
              exampleEnv exampleCollection) as (_ & H & _).
  apply (H "alice"
           (mkMoodDoc "alice" (Int 3) (JStr "fine") (mkTimestamp 1704067200 0))
           (mkUpdateData (Some (Int 9)) None None) (JInt 9));
    reflexivity.
Defined.

(** C4 fails as stated: the owner's update with rating 9 is answered 200
    and the entry then has rating 9; with the rating ["3.7"] it is
    answered 200 and the entry has rating 3; with the number 4.9 the entry
    has rating 4, and with the number 10^21 it has rating 1. *)
Lemma update_stores_9_and_truncates :
  status (Server.update exampleX update9 exampleEnv exampleCollection).1 = 200
  ∧ moodValue <$> (Server.update exampleX update9 exampleEnv
                     exampleCollection).2 !! "m1" = Some (Int 9)
  ∧ status (Server.update exampleX updateFraction exampleEnv
              exampleCollection).1 = 200
  ∧ moodValue <$> (Server.update exampleX updateFraction exampleEnv
                     exampleCollection).2 !! "m1" = Some (Int 3)
  ∧ status (Server.update exampleX updateNumber49 exampleEnv
              exampleCollection).1 = 200
  ∧ moodValue <$> (Server.update exampleX updateNumber49 exampleEnv
                     exampleCollection).2 !! "m1" = Some (Int 4)
  ∧ status (Server.update exampleX updateHuge exampleEnv
              exampleCollection).1 = 200
  ∧ moodValue <$> (Server.update exampleX updateHuge exampleEnv
                     exampleCollection).2 !! "m1" = Some (Int 1)
  ∧ ¬ ratingsInRange
        (Server.update exampleX update9 exampleEnv exampleCollection).2.
Proof.
  split_and!; [by vm_compute..|].
  intros H. destruct (H "m1" (mkMoodDoc "alice" (Int 9) (JStr "fine")
                                (mkTimestamp 1704067200 0)))
    as (r & Hr & Hle); [by vm_compute|].
  cbn in Hr. injection Hr as <-. lia.
Qed.

(** ** [recordedAt] of a submitted entry *)

(** C6, as the routes have it.  In the router [recordedAt] is required: a
    request without it (or with a falsy one) is answered 400 and nothing is
    persisted; a [recordedAt] that does not convert to a timestamp makes
    the answer 500, not 400, and nothing is persisted; one that converts
    becomes the [recordedAt] of the entry, when the rating can be read.
    The older inline route does not read [recordedAt]: the entry gets the
    timestamp of the store, whatever the body holds.  In both, a rating
    whose conversion to a string throws makes the answer 500. *)
Theorem submit_recordedAt_required X req env c u :
  callerOf X req = Some u →
  (truthy (body req !! "recordedAt") = false →
   status (Server.submit X req env c).1 = 400
   ∧ (Server.submit X req env c).2 = c)
  ∧ (∀ v, truthy (body req !! "moodValue") = true →
       body req !! "recordedAt" = Some v →
       truthy (Some v) = true →
       Timestamp_fromDate X (new_Date X v) = None →
       status (Server.submit X req env c).1 = 500
       ∧ (Server.submit X req env c).2 = c)
  ∧ (∀ v ts, truthy (body req !! "moodValue") = true →
       body req !! "recordedAt" = Some v →
       truthy (Some v) = true →
       is_Some (parseInt (body req !! "moodValue")) →
       Timestamp_fromDate X (new_Date X v) = Some ts →
       c !! autoId env = None →
       status (Server.submit X req env c).1 = 201
       ∧ recordedAt <$> (Server.submit X req env c).2 !! autoId env = Some ts)
  ∧ (truthy (body req !! "moodValue") = true →
     is_Some (parseInt (body req !! "moodValue")) →
     c !! autoId env = None →
     status (InlineServer.submit X req env c).1 = 201
     ∧ recordedAt <$> (InlineServer.submit X req env c).2 !! autoId env
       = Some (serverTimestamp env))
  ∧ (truthy (body req !! "moodValue") = true →
     truthy (body req !! "recordedAt") = true →
     parseInt (body req !! "moodValue") = None →
     status (Server.submit X req env c).1 = 500
     ∧ (Server.submit X req env c).2 = c)
  ∧ (truthy (body req !! "moodValue") = true →
     parseInt (body req !! "moodValue") = None →
     status (InlineServer.submit X req env c).1 = 500
     ∧ (InlineServer.submit X req env c).2 = c).
Proof.
  intros Hu.
  rewrite (Server_submit_caller X req u Hu).
  rewrite (InlineServer_submit_caller X req u Hu).
  split_and!.
  - intros Hr.
    assert (H400 : status (Routes.post X u req env c).1 = 400)
      by (apply Routes_post_400; by right).
    split; [done|]. apply Routes_post_unchanged. by rewrite H400.
  - intros v Hm Hv Ht Hts. unfold Routes.post.
    rewrite Hm, Hv, Ht, Hts.
    by destruct (parseInt _).
  - intros v ts Hm Hv Ht [rating Hr] Hts Hid.
    rewrite (Routes_post_201 X u req env c v rating ts Hm Hv Ht Hr Hts Hid).
    cbn. by rewrite lookup_insert_eq.
  - intros Hm [rating Hr] Hid.
    rewrite (InlineServer_post_201 u req env c rating Hm Hr Hid).
    cbn. by rewrite lookup_insert_eq.
  - intros Hm Hr Hp.
    destruct (body req !! "recordedAt") as [v|] eqn:Hv; [|done].
    rewrite (Routes_post_500 X u req env c v Hm Hv Hr); [done|by left].
  - intros Hm Hp. by rewrite (InlineServer_post_500 u req env c Hm Hp).
Qed.

Lemma submit_recordedAt_required_witness :
  status (Server.submit exampleX submitNoDate exampleEnv exampleCollection).1
  = 400
  ∧ (Server.submit exampleX submitNoDate exampleEnv exampleCollection).2
    = exampleCollection.
Proof.
  apply (submit_recordedAt_required exampleX submitNoDate exampleEnv
           exampleCollection "alice").
  - reflexivity.
  - reflexivity.
Defined.

(** C6 fails as stated: a submit with rating 4, notes and no [recordedAt]
    is answered 400 by the router, and no entry is added. *)
Lemma submit_without_recordedAt_is_400 :
  (Server.submit exampleX submitNoDate exampleEnv exampleCollection).1
  = mkResponse 400 (Message "Recorded date and time is required.")
  ∧ (Server.submit exampleX submitNoDate exampleEnv exampleCollection).2
      !! "m2" = None.
Proof. by vm_compute. Qed.

(** With the example externals, a [recordedAt] that is not a date is
    answered 500 and nothing is added. *)
Example submit_malformed_recordedAt_is_500 :
  status (Server.submit exampleX submitBadDate exampleEnv exampleCollection).1
  = 500
  ∧ (Server.submit exampleX submitBadDate exampleEnv exampleCollection).2
      !! "m2" = None.
Proof. by vm_compute. Qed.

(** The router answers without the id of the new entry, the inline route
    with it. *)
Example submit_answers :
  json (Server.submit exampleX submitPlain exampleEnv exampleCollection).1
  = Added "Mood entry added successfully." None
  ∧ json (InlineServer.submit exampleX submitPlain exampleEnv
            exampleCollection).1
    = Added "Mood entry added successfully." (Some "m2").
Proof. by vm_compute. Qed.

(** ** The fields an update writes *)

(** C9, as the route has it.  For an entry the caller owns, an update is
    carried out when every field the body has converts ([parseInt] of the
    rating does not throw, [recordedAt] makes a timestamp) and the store
    takes the fields.  It is then answered 200 and leaves the entry with
    the value of each field the body has, [parseInt(moodValue)] for the
    rating, and the stored value of each field it has not.  An update that
    is not carried out is answered 500 and applies none of the fields, the
    ones that convert included.  Other entries are never touched.  With
    [notes] alone the rating and [recordedAt] stay; with no field at all
    the collection stays as it was. *)
Theorem update_writes_present_fields X req env c u e :
  callerOf X req = Some u →
  c !! params_id req = Some e →
  userId e = u →
  (∀ id, id ≠ params_id req → (Server.update X req env c).2 !! id = c !! id)
  ∧ (∃ e', (Server.update X req env c).2 !! params_id req = Some e'
        ∧ userId e' = userId e
        ∧ (body req !! "moodValue" = None → moodValue e' = moodValue e)
        ∧ (body req !! "notes" = None → notes e' = notes e)
        ∧ (body req !! "recordedAt" = None → recordedAt e' = recordedAt e))
  ∧ (∀ ud, Routes.buildUpdateData X req = Some ud →
       update_accepts X ud = true →
       status (Server.update X req env c).1 = 200
       ∧ (Server.update X req env c).2 !! params_id req
         = Some {| userId := userId e;
                   moodValue := default (moodValue e) (upd_moodValue ud);
                   notes := default (notes e) (body req !! "notes");
                   recordedAt := default (recordedAt e) (upd_recordedAt ud) |})
  ∧ (∀ ud, Routes.buildUpdateData X req = Some ud →
       upd_moodValue ud
       = body req !! "moodValue" ≫= (λ v, parseInt (Some v))
       ∧ upd_notes ud = body req !! "notes"
       ∧ match body req !! "recordedAt" with
         | Some v => upd_recordedAt ud = Timestamp_fromDate X (new_Date X v)
         | None => upd_recordedAt ud = None
         end)
  ∧ ((∀ v, body req !! "moodValue" = Some v → is_Some (parseInt (Some v))) →
     (∀ v, body req !! "recordedAt" = Some v →
        is_Some (Timestamp_fromDate X (new_Date X v))) →
     is_Some (Routes.buildUpdateData X req))
  ∧ (∀ v, body req !! "moodValue" = Some v → parseInt (Some v) = None →
       status (Server.update X req env c).1 = 500
       ∧ (Server.update X req env c).2 = c)
  ∧ (∀ v, body req !! "recordedAt" = Some v →
       Timestamp_fromDate X (new_Date X v) = None →
       status (Server.update X req env c).1 = 500
       ∧ (Server.update X req env c).2 = c)
  ∧ (∀ ud, Routes.buildUpdateData X req = Some ud →
       update_accepts X ud = false →
       status (Server.update X req env c).1 = 500
       ∧ (Server.update X req env c).2 = c)
  ∧ (status (Server.update X req env c).1 ≠ 200 →
     (Server.update X req env c).2 = c)
  ∧ (body req !! "moodValue" = None → body req !! "notes" = None →
     body req !! "recordedAt" = None →
     (Server.update X req env c).2 = c).
Proof.
  intros Hu He Ho.
  rewrite (Server_update_caller X req u Hu).
  rewrite (Routes_put_owner X u req env c e He Ho).
  split_and!.
  - intros id Hne.
    destruct (Routes.buildUpdateData X req) as [ud|]; [|done].
    destruct (update_accepts X ud); [|done].
    cbn. by rewrite lookup_insert_ne.
  - destruct (Routes.buildUpdateData X req) as [ud|] eqn:Hud; [|by exists e].
    destruct (update_accepts X ud); [|by exists e].
    cbn. rewrite lookup_insert_eq. eexists. split; [done|].
    rewrite buildUpdateData_fields in Hud.
    destruct (body req !! "moodValue") as [m|];
      [destruct (parseInt (Some m)); [|done]|]; cbn in Hud;
      (destruct (body req !! "recordedAt") as [v|];
         [destruct (Timestamp_fromDate X (new_Date X v)); [|done]|]);
      cbn in Hud; injection Hud as <-; cbn; split_and!; try done;
      by intros ->.
  - intros ud Hud Hacc. rewrite Hud, Hacc. cbn. rewrite lookup_insert_eq.
    split; [done|]. f_equal. unfold applyUpdate. f_equal.
    rewrite buildUpdateData_fields in Hud.
    destruct (body req !! "moodValue") as [m|];
      [destruct (parseInt (Some m)); [|done]|]; cbn in Hud;
      (destruct (body req !! "recordedAt") as [v|];
         [destruct (Timestamp_fromDate X (new_Date X v)); [|done]|]);
      cbn in Hud; by injection Hud as <-.
  - intros ud Hud. rewrite buildUpdateData_fields in Hud.
    destruct (body req !! "moodValue") as [m|]; cbn [mbind option_bind];
      [destruct (parseInt (Some m)); [|done]|]; cbn in Hud |- *;
      (destruct (body req !! "recordedAt") as [v|];
         [destruct (Timestamp_fromDate X (new_Date X v)); [|done]|]);
      cbn in Hud; by injection Hud as <-.
  - intros Hm Hconv. rewrite buildUpdateData_fields.
    destruct (body req !! "moodValue") as [m|];
      [destruct (Hm m eq_refl) as [r ->]|]; cbn;
      (destruct (body req !! "recordedAt") as [v|]; [|done]);
      by destruct (Hconv v eq_refl) as [ts ->].
  - intros v Hv Hp. rewrite buildUpdateData_fields, Hv, Hp. done.
  - intros v Hv Hts. rewrite buildUpdateData_fields, Hv, Hts.
    by destruct (match body req !! "moodValue" with
                 | Some _ => _
                 | None => _
                 end).
  - intros ud -> ->. done.
  - destruct (Routes.buildUpdateData X req) as [ud|]; [|done].
    by destruct (update_accepts X ud).
  - intros Hm Hn Hr. rewrite buildUpdateData_fields, Hm, Hn, Hr. cbn.
    destruct (update_accepts X _); cbn; [|done].
    change (mkUpdateData None None None) with emptyUpdate.
    rewrite applyUpdate_empty. by apply insert_id.
Qed.

Lemma update_writes_present_fields_witness :
  status (Server.update exampleX updateNotes exampleEnv exampleCollection).1
  = 200
  ∧ (Server.update exampleX updateNotes exampleEnv exampleCollection).2
      !! "m1"
    = Some (mkMoodDoc "alice" (Int 3) (JStr "better")
              (mkTimestamp 1704067200 0)).
Proof.
  destruct (update_writes_present_fields exampleX updateNotes exampleEnv
              exampleCollection "alice"
              (mkMoodDoc "alice" (Int 3) (JStr "fine")
                 (mkTimestamp 1704067200 0)) eq_refl eq_refl eq_refl)
    as (_ & _ & H & _).
  apply (H (mkUpdateData None (Some (JStr "better")) None)); reflexivity.
Defined.

(** C9 fails as stated: the owner's update with new notes and the
    [recordedAt] ["yesterday"] is answered 500, and the notes of the entry
    stay as they were, though the body has them. *)
Lemma update_with_bad_date_applies_nothing :
  callerOf exampleX updateNotesBadDate = Some "alice"
  ∧ userId <$> exampleCollection !! "m1" = Some "alice"
  ∧ body updateNotesBadDate !! "notes" = Some (JStr "better")
  ∧ status (Server.update exampleX updateNotesBadDate exampleEnv
              exampleCollection).1 = 500
  ∧ notes <$> (Server.update exampleX updateNotesBadDate exampleEnv
                 exampleCollection).2 !! "m1" = Some (JStr "fine").
Proof. by vm_compute. Qed.

(** ** The calendar *)

Lemma era_year_of_day (doe : Z) :
  0 <= doe < 146097 →
  let yoe := (doe - doe / 1460 + doe / 36524 - doe / 146096) / 365 in
  0 <= yoe <= 399 ∧ 0 <= doe - (365 * yoe + yoe / 4 - yoe / 100) <= 365.
Proof. intros H yoe. subst yoe. Z.div_mod_to_equations; lia. Qed.

Lemma era_leap_day (doe : Z) :
  0 <= doe < 146097 →
  let yoe := (doe - doe / 1460 + doe / 36524 - doe / 146096) / 365 in
  doe - (365 * yoe + yoe / 4 - yoe / 100) = 365 →
  (yoe + 1) mod 4 = 0 ∧ ((yoe + 1) mod 100 ≠ 0 ∨ (yoe + 1) mod 400 = 0).
Proof. intros H yoe. subst yoe. intros E. Z.div_mod_to_equations; lia. Qed.

Lemma month_of_day_of_year (doy : Z) :
  0 <= doy <= 365 →
  let mp := (5 * doy + 2) / 153 in
  let d := doy - (153 * mp + 2) / 5 + 1 in
  0 <= mp <= 11 ∧ 1 <= d <= 31
  ∧ (mp = 1 ∨ mp = 3 ∨ mp = 6 ∨ mp = 8 → d <= 30)
  ∧ (mp = 11 → d <= 29 ∧ (d = 29 → doy = 365)).
Proof. intros H mp d. subst mp d. Z.div_mod_to_equations; lia. Qed.

Lemma civilOfDoe_spec (doe : Z) :
  0 <= doe < 146097 →
  ∃ y m d, civilOfDoe doe = (y, m, d)
    ∧ daysFromCivil y m d = doe - 719468
    ∧ 1 <= m <= 12 ∧ 1 <= d <= DaysInMonth y m ∧ 0 <= y <= 400.
Proof.
  intros Hdoe. unfold civilOfDoe. cbv zeta.
  pose proof (era_year_of_day doe Hdoe) as HA.
  pose proof (era_leap_day doe Hdoe) as HL. cbv zeta in HA, HL.
  set (yoe := (doe - doe / 1460 + doe / 36524 - doe / 146096) / 365) in *.
  set (doy := doe - (365 * yoe + yoe / 4 - yoe / 100)) in *.
  destruct HA as [Hyoe Hdoy].
  pose proof (month_of_day_of_year doy Hdoy) as HB. cbv zeta in HB.
  set (mp := (5 * doy + 2) / 153) in *.
  set (d := doy - (153 * mp + 2) / 5 + 1) in *.
  destruct HB as (Hmp & Hd & H30 & H29).
  eexists _, _, d. split; [reflexivity|].
  assert (Hsmall : yoe / 400 = 0 ∧ yoe mod 400 = yoe)
    by (split; [apply Z.div_small|apply Z.mod_small]; lia).
  destruct Hsmall as [Hdiv Hmod].
  split_and!.
  - unfold daysFromCivil. cbv zeta.
    destruct (Z.ltb_spec mp 10).
    + replace (mp + 3 <=? 2) with false by lia.
      replace (2 <? mp + 3) with true by lia.
      rewrite Z.add_0_r, Hdiv, Hmod.
      replace (mp + 3 - 3) with mp by lia. subst d doy. lia.
    + replace (mp - 9 <=? 2) with true by lia.
      replace (2 <? mp - 9) with false by lia.
      replace (yoe + 1 - 1) with yoe by lia. rewrite Hdiv, Hmod.
      replace (mp - 9 + 9) with mp by lia. subst d doy. lia.
  - destruct (Z.ltb_spec mp 10); lia.
  - destruct (Z.ltb_spec mp 10); lia.
  - lia.
  - unfold DaysInMonth, InLeapYear.
    destruct (Z.ltb_spec mp 10).
    + replace (mp + 3 <=? 2) with false by lia. rewrite Z.add_0_r.
      replace (mp + 3 =? 2) with false by lia.
      assert (mp = 0 ∨ mp = 1 ∨ mp = 2 ∨ mp = 3 ∨ mp = 4 ∨ mp = 5 ∨ mp = 6
              ∨ mp = 7 ∨ mp = 8 ∨ mp = 9) as Hc by lia.
      clearbody mp d.
      repeat (destruct Hc as [->|Hc]; [cbv -[Z.le]; lia|]).
      subst mp. cbv -[Z.le]. lia.
    + replace (mp - 9 <=? 2) with true by lia.
      assert (mp = 10 ∨ mp = 11) as [Hm|Hm] by lia.
      * clearbody mp d. subst mp. cbv -[Z.le]. lia.
      * replace (mp - 9 =? 2) with true by lia.
        destruct (H29 Hm) as [Hle Hleap].
        destruct (decide (d = 29)) as [E|E]; [|case_match; lia].
        destruct (HL (Hleap E)) as [H4 H100].
        rewrite H4. cbn.
        destruct (Z.eqb_spec ((yoe + 1) mod 100) 0) as [E1|E1]; cbn; [|lia].
        destruct H100 as [?|E4]; [done|]. rewrite E4. cbn. lia.
  - case_match; lia.
  - case_match; lia.
Qed.

Lemma civilFromDays_era (day : Z) :
  civilFromDays day
  = let z := day + 719468 in
    let '(y, m, d) := civilOfDoe (z mod 146097) in
    (y + z / 146097 * 400, m, d).
Proof.
  unfold civilFromDays, civilOfDoe. cbv zeta.
  f_equal. f_equal. ring.
Qed.

Lemma daysFromCivil_era (y m d k : Z) :
  daysFromCivil (y + k * 400) m d = daysFromCivil y m d + k * 146097.
Proof.
  unfold daysFromCivil. cbv zeta.
  destruct (m <=? 2).
  - replace (y + k * 400 - 1) with (y - 1 + k * 400) by lia.
    rewrite Z.div_add, Z.mod_add by lia. lia.
  - rewrite Z.div_add, Z.mod_add by lia. lia.
Qed.

Lemma InLeapYear_era (y k : Z) : InLeapYear (y + k * 400) = InLeapYear y.
Proof.
  unfold InLeapYear.
  replace ((y + k * 400) mod 4) with (y mod 4)
    by (replace (k * 400) with (k * 100 * 4) by lia; by rewrite Z.mod_add).
  replace ((y + k * 400) mod 100) with (y mod 100)
    by (replace (k * 400) with (k * 4 * 100) by lia; by rewrite Z.mod_add).
  by rewrite Z.mod_add.
Qed.

Lemma DaysInMonth_era (y m k : Z) : DaysInMonth (y + k * 400) m = DaysInMonth y m.
Proof. unfold DaysInMonth. by rewrite InLeapYear_era. Qed.

(** [civilFromDays] yields a date of the calendar, and [daysFromCivil]
    maps it back to the day. *)
Lemma civil_roundtrip (day : Z) :
  ∃ y m d, civilFromDays day = (y, m, d)
    ∧ daysFromCivil y m d = day
    ∧ 1 <= m <= 12 ∧ 1 <= d <= DaysInMonth y m
    ∧ 400 * ((day + 719468) / 146097) <= y
      <= 400 * ((day + 719468) / 146097) + 400.
Proof.
  rewrite civilFromDays_era. cbv zeta.
  set (z := day + 719468).
  assert (Hdoe : 0 <= z mod 146097 < 146097) by (apply Z.mod_pos_bound; lia).
  destruct (civilOfDoe_spec _ Hdoe) as (y & m & d & -> & Hday & Hm & Hd & Hy).
  exists (y + z / 146097 * 400), m, d. split; [done|].
  rewrite daysFromCivil_era, DaysInMonth_era.
  pose proof (Z.div_mod z 146097 ltac:(lia)). subst z. lia.
Qed.

(** ** Moving a date back by days *)

Section CutoffFacts.
Variable LocalTZA : Z → bool → Z.

(** [setDate(getDate() - n)] moves the local time back by [n] days of
    24 hours and keeps the time of day. *)
Lemma Date_setDate_back (t n : Z) :
  Date_setDate LocalTZA t (Date_getDate LocalTZA t - n)
  = TimeClip (UTC LocalTZA (LocalTime LocalTZA t - n * msPerDay)).
Proof.
  unfold Date_setDate, Date_getDate, YearFromTime, MonthFromTime,
    DateFromTime, MakeDay, MakeDate.
  set (tl := LocalTime LocalTZA t).
  destruct (civil_roundtrip (Day tl)) as (y & m & d & -> & Hday & Hm & Hd & _).
  cbn [fst snd].
  replace ((m - 1) / 12) with 0 by (symmetry; apply Z.div_small; lia).
  replace ((m - 1) mod 12) with (m - 1) by (symmetry; apply Z.mod_small; lia).
  replace (y + 0) with y by lia. replace (m - 1 + 1) with m by lia.
  assert (Hlin : daysFromCivil y m 1 + (d - n) - 1 = Day tl - n).
  { rewrite <- Hday. unfold daysFromCivil. cbv zeta. lia. }
  rewrite Hlin. f_equal. f_equal.
  unfold Day, TimeWithinDay, msPerDay.
  pose proof (Z.div_mod tl 86400000 ltac:(lia)). lia.
Qed.

(** In a zone with a fixed offset the cutoff is [n] days of 24 hours
    before [t]. *)
Lemma Date_setDate_back_fixed (k t n : Z) :
  (∀ t b, LocalTZA t b = k) →
  Date_setDate LocalTZA t (Date_getDate LocalTZA t - n)
  = TimeClip (t - n * msPerDay).
Proof.
  intros Hk. rewrite Date_setDate_back. unfold UTC, LocalTime.
  rewrite !Hk. f_equal. lia.
Qed.

End CutoffFacts.

(** ** Sorting *)

Section SortFacts.
Context {A : Type} (before : A → A → bool).

Lemma insertBy_Permutation (x : A) (l : list A) : insertBy before x l ≡ₚ x :: l.
Proof.
  induction l as [|y r IH]; cbn; [done|].
  destruct (before x y); [done|].
  rewrite IH. apply Permutation_swap.
Qed.

Lemma sortBy_Permutation (l : list A) : sortBy before l ≡ₚ l.
Proof.
  induction l as [|x r IH]; cbn; [done|].
  by rewrite insertBy_Permutation, IH.
Qed.

Hypothesis before_total : ∀ x y, before x y = true ∨ before y x = true.

Lemma insertBy_Sorted (x : A) (l : list A) :
  Sorted (λ a b, before a b = true) l →
  Sorted (λ a b, before a b = true) (insertBy before x l).
Proof.
  induction l as [|y r IH]; cbn; intros Hs.
  - by repeat constructor.
  - destruct (before x y) eqn:E.
    + constructor; [done|]. by constructor.
    + apply Sorted_inv in Hs as [Hr Hy].
      constructor; [by apply IH|].
      destruct r as [|z r']; cbn.
      * constructor. destruct (before_total x y); congruence.
      * destruct (before x z).
        -- constructor. destruct (before_total x y); congruence.
        -- constructor. by apply HdRel_inv in Hy.
Qed.

Lemma sortBy_Sorted (l : list A) :
  Sorted (λ a b, before a b = true) (sortBy before l).
Proof.
  induction l as [|x r IH]; cbn; [constructor|].
  by apply insertBy_Sorted.
Qed.

End SortFacts.

(** ** The query of the recent moods *)

Lemma Timestamp_leb_total (a b : Timestamp) :
  Timestamp_leb a b = true ∨ Timestamp_leb b a = true.
Proof. unfold Timestamp_leb. lia. Qed.

Lemma query_recent_elem (u : string) (cutoff : Timestamp) (c : Collection)
    (id : string) (d : MoodDoc) :
  (id, d) ∈ query_recent u cutoff c
  ↔ c !! id = Some d ∧ userId d = u
    ∧ Timestamp_leb cutoff (recordedAt d) = true.
Proof.
  unfold query_recent. rewrite sortBy_Permutation.
  rewrite list_elem_of_filter, elem_of_map_to_list. cbn.
  rewrite andb_true_iff, String.eqb_eq. tauto.
Qed.

Lemma query_recent_NoDup (u : string) (cutoff : Timestamp) (c : Collection) :
  NoDup (query_recent u cutoff c).*1.
Proof.
  unfold query_recent. rewrite sortBy_Permutation.
  eapply NoDup_fmap_fst.
  - intros id d1 d2 [_ H1]%list_elem_of_filter [_ H2]%list_elem_of_filter.
    apply elem_of_map_to_list in H1, H2. congruence.
  - apply NoDup_filter, NoDup_map_to_list.
Qed.

Lemma query_recent_Sorted (u : string) (cutoff : Timestamp) (c : Collection) :
  Sorted (λ a b, Timestamp_leb (recordedAt b.2) (recordedAt a.2) = true)
    (query_recent u cutoff c).
Proof.
  unfold query_recent.
  apply (sortBy_Sorted
           (λ a b : string * MoodDoc,
              Timestamp_leb (recordedAt b.2) (recordedAt a.2))).
  intros x y. apply Timestamp_leb_total.
Qed.

(** ** The recent moods *)

Lemma query_recent_listing (u : string) (cutoff : Timestamp) (c : Collection) :
  isRecentListing u cutoff c (query_recent u cutoff c).
Proof.
  split_and!.
  - intros id d. apply query_recent_elem.
  - apply query_recent_NoDup.
  - apply query_recent_Sorted.
Qed.

Lemma daysParam_given (req : Request) (fallback s : string) (n : Z) :
  query_days req = Some s → parseInt_string s = Int n →
  Routes.daysParam req fallback = s.
Proof.
  intros Hq Hn. unfold Routes.daysParam. rewrite Hq.
  destruct (String.eqb_spec s ""); [by subst|done].
Qed.

Lemma Timestamp_fromDate_fields X (ms : Z) (ts : Timestamp) :
  Timestamp_fromDate X (TimeClip ms) = Some ts →
  _seconds ts = ms / 1000 ∧ _nanoseconds ts = ms mod 1000 * 1000000.
Proof.
  unfold Timestamp_fromDate, Timestamp_fromMillis, TimeClip.
  destruct (_ && _); cbn; [|done].
  destruct (Timestamp_accepts X _ _); [|done].
  intros [= <-]. cbn. split; [done|].
  rewrite Z.mod_eq by lia. lia.
Qed.

(** What the store takes as a timestamp in Firestore: the seconds from
    year 1 to year 9999, the nanoseconds below 10^9. *)
Lemma Timestamp_fromDate_in_range X (ms : Z) :
  (∀ sec ns, -62135596800 <= sec <= 253402300799 → 0 <= ns <= 999999999 →
     Timestamp_accepts X sec ns = true) →
  -62135596800000 <= ms <= 253402300799999 →
  is_Some (Timestamp_fromDate X (TimeClip ms)).
Proof.
  intros Hacc Hms. unfold Timestamp_fromDate, TimeClip.
  assert (Hclip : (- maxTime <=? ms) && (ms <=? maxTime) = true)
    by (unfold maxTime; lia).
  rewrite Hclip. cbn [mbind option_bind]. unfold Timestamp_fromMillis. cbv zeta.
  pose proof (Z.div_mod ms 1000 ltac:(lia)) as Hdm.
  pose proof (Z.mod_pos_bound ms 1000 ltac:(lia)) as Hmod.
  rewrite Hacc; [done|lia|lia].
Qed.

(** C7, as the routes have it.  For a verified caller [u] and a [days]
    parameter that reads as the positive integer [n], the cutoff is the
    present moment moved back, in the local time of the server, by [n]
    days of 24 hours (in a zone with a fixed offset: [now - n] days).  When
    the store takes that cutoff as a timestamp, the answer is 200 with
    exactly the entries that [u] owns and that were recorded at the cutoff
    or later, each once, newest first; the list is empty, and the answer
    still 200, when there is no such entry.  When the store refuses the
    cutoff the answer is 500.  A store with the range of Firestore takes
    the cutoff as long as [now - n] days is not before year 1. *)
Theorem listRecent_owner_window_newest_first X req env c u s n :
  callerOf X req = Some u →
  query_days req = Some s →
  parseInt_string s = Int n →
  0 < n →
  let ms := UTC (LocalTZA X)
              (LocalTime (LocalTZA X) (now env) - n * msPerDay) in
  (∀ cutoff, Timestamp_fromDate X (TimeClip ms) = Some cutoff →
     (∃ moods,
        Server.listRecent X req env c = (mkResponse 200 (Moods moods), c)
        ∧ InlineServer.listRecent X req env c
          = (mkResponse 200 (Moods moods), c)
        ∧ isRecentListing u cutoff c moods
        ∧ ((∀ id d, c !! id = Some d → userId d = u →
              Timestamp_leb cutoff (recordedAt d) = false) → moods = []))
     ∧ _seconds cutoff = ms / 1000
     ∧ _nanoseconds cutoff = ms mod 1000 * 1000000)
  ∧ (Timestamp_fromDate X (TimeClip ms) = None →
     status (Server.listRecent X req env c).1 = 500
     ∧ status (InlineServer.listRecent X req env c).1 = 500)
  ∧ (∀ k, (∀ t b, LocalTZA X t b = k) → ms = now env - n * msPerDay)
  ∧ (∀ k, (∀ t b, LocalTZA X t b = k) →
       (∀ sec ns, -62135596800 <= sec <= 253402300799 →
          0 <= ns <= 999999999 → Timestamp_accepts X sec ns = true) →
       -62135596800000 <= now env - n * msPerDay →
       now env <= 253402300799999 →
       is_Some (Timestamp_fromDate X (TimeClip ms))).
Proof.
  intros Hu Hq Hn Hpos ms.
  assert (Hfixed : ∀ k, (∀ t b, LocalTZA X t b = k) →
            ms = now env - n * msPerDay).
  { intros k Hk. subst ms. unfold UTC, LocalTime. rewrite !Hk. lia. }
  rewrite (Server_listRecent_caller X req u Hu).
  rewrite (InlineServer_listRecent_caller X req u Hu).
  unfold Routes.get_recent, InlineServer.get_recent.
  rewrite !(daysParam_given req _ s n Hq Hn), Hn.
  unfold Routes.cutOffDate. rewrite Date_setDate_back. fold ms.
  split_and!.
  - intros cutoff Hts. split_and!.
    + exists (query_recent u cutoff c).
      rewrite Hts. split_and!; [done|done|apply query_recent_listing|].
      intros Hnone. destruct (query_recent u cutoff c) as [|[id d] r] eqn:E;
        [done|exfalso].
      assert (Hin : (id, d) ∈ query_recent u cutoff c)
        by (rewrite E; left).
      apply query_recent_elem in Hin as (Hc & Ho & Hle).
      rewrite (Hnone id d Hc Ho) in Hle. done.
    + by apply (Timestamp_fromDate_fields X ms cutoff).
    + by apply (Timestamp_fromDate_fields X ms cutoff).
  - by intros ->.
  - done.
  - intros k Hk Hacc Hlow Hhigh. apply Timestamp_fromDate_in_range; [done|].
    rewrite (Hfixed k Hk). unfold msPerDay in *. lia.
Qed.

Lemma listRecent_owner_window_newest_first_witness :
  Server.listRecent exampleX recentRequest exampleEnv recentCollection
  = (mkResponse 200
       (Moods [("a2", mkMoodDoc "alice" (Int 4) (JStr "late")
                        (mkTimestamp 1704067200 0));
               ("a1", mkMoodDoc "alice" (Int 2) (JStr "early")
                        (mkTimestamp 1703898000 0))]),
     recentCollection)
  ∧ isRecentListing "alice" (mkTimestamp 1703548800 0) recentCollection
      [("a2", mkMoodDoc "alice" (Int 4) (JStr "late")
                (mkTimestamp 1704067200 0));
       ("a1", mkMoodDoc "alice" (Int 2) (JStr "early")
                (mkTimestamp 1703898000 0))].
Proof.
  destruct (listRecent_owner_window_newest_first exampleX recentRequest
              exampleEnv recentCollection "alice" "7" 7
              eq_refl eq_refl eq_refl ltac:(lia)) as [H _].
  destruct (H (mkTimestamp 1703548800 0) eq_refl)
    as ((moods & Hs & _ & Hl & _) & _).
  assert (Hrun :
    Server.listRecent exampleX recentRequest exampleEnv recentCollection
    = (mkResponse 200
         (Moods [("a2", mkMoodDoc "alice" (Int 4) (JStr "late")
                          (mkTimestamp 1704067200 0));
                 ("a1", mkMoodDoc "alice" (Int 2) (JStr "early")
                          (mkTimestamp 1703898000 0))]),
       recentCollection)) by (by vm_compute).
  rewrite Hrun in Hs. injection Hs as <-. by split.
Defined.

(** C7 fails as stated: the days parameter 800000 is a positive integer,
    the present moment of [exampleEnv] moved back by as many days falls
    before year 1, the store refuses it as a timestamp, and both handlers
    answer 500 instead of a list. *)
Lemma listRecent_800000_days_is_500 :
  callerOf exampleX recentRequestLong = Some "alice"
  ∧ parseInt_string "800000" = Int 800000
  ∧ status (Server.listRecent exampleX recentRequestLong exampleEnv
              recentCollection).1 = 500
  ∧ status (InlineServer.listRecent exampleX recentRequestLong exampleEnv
              recentCollection).1 = 500.
Proof. by vm_compute. Qed.

(** ** Strings *)

Lemma lacks_append (c : ascii) (a b : string) :
  lacks c (a +:+ b) = lacks c a && lacks c b.
Proof.
  induction a as [|x a IH]; [done|]. rewrite append_cons. cbn [lacks].
  rewrite IH. by rewrite andb_assoc.
Qed.

(** The first piece of a split at a character that the head lacks. *)
Lemma split_go_head (c : ascii) (p q cur : string) :
  lacks c p = true →
  split_go (String c "") 0 cur (p +:+ String c q)
  = (cur +:+ p) :: split_go (String c "") 0 "" q.
Proof.
  revert cur. induction p as [|x p IH]; intros cur Hp.
  - rewrite append_nil_l, append_nil_r. cbn [split_go String.prefix].
    destruct (ascii_dec c c); [|done].
    by replace (String.prefix "" q) with true by (by destruct q).
  - cbn [lacks] in Hp. apply andb_prop in Hp as [Hx Hp].
    apply negb_true_iff in Hx. rewrite append_cons.
    cbn [split_go String.prefix].
    destruct (ascii_dec c x) as [->|_];
      [by rewrite Ascii.eqb_refl in Hx|].
    rewrite IH by done. by rewrite append_assoc, append_cons, append_nil_l.
Qed.

Lemma split_head (c : ascii) (p q : string) :
  lacks c p = true →
  nth 0 (split (String c "") (p +:+ String c q)) "" = p.
Proof.
  intros Hp. unfold split. rewrite split_go_head by done.
  by rewrite append_nil_l.
Qed.

(** *** Digits *)

Lemma digitChar_code (n : Z) :
  Z.of_nat (nat_of_ascii (digitChar n)) = 48 + n mod 10.
Proof.
  unfold digitChar.
  pose proof (Z.mod_pos_bound n 10 ltac:(lia)).
  rewrite nat_ascii_embedding by lia. lia.
Qed.

Lemma padDigits_app (w : nat) (n : Z) (acc : string) :
  padDigits w n acc = padDigits w n "" +:+ acc.
Proof.
  revert n acc. induction w as [|w IH]; intros n acc; cbn; [done|].
  rewrite (IH _ (String _ acc)), (IH _ (String _ "")).
  by rewrite append_assoc.
Qed.

Lemma readDigits_padDigits (w k : nat) (n a : Z) (acc : string) :
  readDigits (w + k) a (padDigits w n acc)
  = readDigits k (a * 10 ^ Z.of_nat w + n mod 10 ^ Z.of_nat w) acc.
Proof.
  revert k n a acc. induction w as [|w IH]; intros k n a acc.
  - cbn [padDigits Nat.add]. f_equal. rewrite Z.mod_1_r. cbn. lia.
  - cbn [padDigits]. replace (S w + k)%nat with (w + S k)%nat by lia.
    rewrite IH. cbn [readDigits]. rewrite digitChar_code.
    pose proof (Z.mod_pos_bound n 10 ltac:(lia)).
    replace ((48 <=? 48 + n mod 10) && (48 + n mod 10 <=? 57)) with true
      by lia.
    f_equal. rewrite Nat2Z.inj_succ, Z.pow_succ_r by lia.
    rewrite (Z.rem_mul_r n 10 (10 ^ Z.of_nat w)) by lia. lia.
Qed.

Lemma readDigits_pad (w : nat) (n : Z) (rest : string) :
  0 <= n < 10 ^ Z.of_nat w →
  readDigits w 0 (pad w n +:+ rest) = Some (n, rest).
Proof.
  intros Hn. unfold pad. rewrite <- padDigits_app.
  replace w with (w + 0)%nat at 1 by lia.
  rewrite readDigits_padDigits. cbn [readDigits].
  rewrite Z.mod_small by done. by rewrite Z.mul_0_l, Z.add_0_l.
Qed.

Lemma digitChar_cases (n : Z) :
  digitChar n ∈ ["0"; "1"; "2"; "3"; "4"; "5"; "6"; "7"; "8"; "9"]%char.
Proof.
  unfold digitChar. pose proof (Z.mod_pos_bound n 10 ltac:(lia)).
  assert (n mod 10 = 0 ∨ n mod 10 = 1 ∨ n mod 10 = 2 ∨ n mod 10 = 3
          ∨ n mod 10 = 4 ∨ n mod 10 = 5 ∨ n mod 10 = 6 ∨ n mod 10 = 7
          ∨ n mod 10 = 8 ∨ n mod 10 = 9) as Hc by lia.
  repeat (destruct Hc as [->|Hc]; [cbn; repeat constructor|]).
  rewrite Hc. cbn. repeat constructor.
Qed.

Lemma lacks_padDigits (c : ascii) (w : nat) (n : Z) (acc : string) :
  c ∉ ["0"; "1"; "2"; "3"; "4"; "5"; "6"; "7"; "8"; "9"]%char →
  lacks c acc = true → lacks c (padDigits w n acc) = true.
Proof.
  intros Hc. revert n acc. induction w as [|w IH]; intros n acc Ha; cbn;
    [done|].
  apply IH. cbn. rewrite Ha, andb_true_r. apply negb_true_iff.
  apply Ascii.eqb_neq. intros ->. apply Hc, digitChar_cases.
Qed.

(** ** The date of an ISO string *)

Lemma lacks_pad (c : ascii) (w : nat) (n : Z) :
  c ∉ ["0"; "1"; "2"; "3"; "4"; "5"; "6"; "7"; "8"; "9"]%char →
  lacks c (pad w n) = true.
Proof. intros Hc. by apply lacks_padDigits. Qed.

Lemma T_not_digit :
  "T"%char ∉ ["0"; "1"; "2"; "3"; "4"; "5"; "6"; "7"; "8"; "9"]%char.
Proof.
  intros H. repeat (apply elem_of_cons in H as [H|H]; [discriminate|]).
  by apply elem_of_nil in H.
Qed.

Lemma lacks_T_isoYear (y : Z) : lacks "T" (isoYear y) = true.
Proof.
  unfold isoYear. destruct ((0 <=? y) && (y <=? 9999)).
  - apply lacks_pad, T_not_digit.
  - rewrite lacks_append, (lacks_pad _ _ _ T_not_digit).
    by destruct (y <? 0).
Qed.

Lemma lacks_T_isoDate (day : Z) : lacks "T" (isoDate day) = true.
Proof.
  unfold isoDate. destruct (civilFromDays day) as [[y m] d].
  by rewrite !lacks_append, !(lacks_pad _ _ _ T_not_digit), lacks_T_isoYear.
Qed.

Lemma toISOString_parts (t : Z) :
  toISOString t = isoDate (Day t) +:+ String "T" (isoTime t).
Proof.
  unfold toISOString, isoDate, isoTime.
  destruct (civilFromDays (Day t)) as [[y m] d]. cbv zeta.
  by rewrite !append_assoc.
Qed.

(** The key of a day is the date of its ISO string; it depends on the
    day alone. *)
Lemma dateStringOf_isoDate (t : Z) :
  MoodTracker.dateStringOf t = isoDate (Day t).
Proof.
  unfold MoodTracker.dateStringOf. rewrite toISOString_parts.
  apply split_head, lacks_T_isoDate.
Qed.

Lemma padDigits_head (w : nat) (n : Z) (acc : string) :
  ∃ c r, padDigits (S w) n acc = String c r
    ∧ c ∈ ["0"; "1"; "2"; "3"; "4"; "5"; "6"; "7"; "8"; "9"]%char.
Proof.
  revert n acc. induction w as [|w IH]; intros n acc.
  - eexists _, _. split; [reflexivity|apply digitChar_cases].
  - change (padDigits (S (S w)) n acc)
      with (padDigits (S w) (n / 10) (String (digitChar n) acc)).
    apply IH.
Qed.

Lemma readYear_digit (c : ascii) (r : string) :
  c ∈ ["0"; "1"; "2"; "3"; "4"; "5"; "6"; "7"; "8"; "9"]%char →
  readYear (String c r) = readDigits 4 0 (String c r).
Proof.
  intros H. repeat (apply elem_of_cons in H as [->|H]; [reflexivity|]).
  by apply elem_of_nil in H.
Qed.

Lemma readYear_isoYear (y : Z) (rest : string) :
  -999999 <= y <= 999999 →
  readYear (isoYear y +:+ rest) = Some (y, rest).
Proof.
  intros Hy. unfold isoYear.
  destruct (Z.leb_spec 0 y); cbn [andb].
  - destruct (Z.leb_spec y 9999).
    + destruct (padDigits_head 3 y "") as (c & r & Hp & Hc).
      pose proof (readDigits_pad 4 y rest) as Hr.
      unfold pad in *. rewrite Hp in *. rewrite append_cons in *.
      rewrite readYear_digit by done. apply Hr. lia.
    + replace (y <? 0) with false by lia.
      rewrite append_assoc, append_cons, append_nil_l, Z.abs_eq by lia.
      cbn [readYear]. apply readDigits_pad. lia.
  - replace (y <? 0) with true by lia.
    rewrite append_assoc, append_cons, append_nil_l.
    cbn [readYear]. rewrite readDigits_pad by lia. cbn.
    replace (Z.abs y =? 0) with false by lia. f_equal. f_equal. lia.
Qed.

(** A date string parses to the start of its day. *)
Lemma Date_parse_isoDate (day : Z) :
  -100000000 <= day <= 100000000 →
  Date_parse_dateOnly (isoDate day) = Some (day * msPerDay).
Proof.
  intros Hday. unfold isoDate, Date_parse_dateOnly.
  destruct (civil_roundtrip day) as (y & m & d & -> & Hd & Hm & Hdm & Hy).
  assert (Hyr : -999999 <= y <= 999999).
  { assert (-680 <= (day + 719468) / 146097 < 690); [|lia].
    split; [apply Z.div_le_lower_bound|apply Z.div_lt_upper_bound]; lia. }
  assert (Hd31 : DaysInMonth y m <= 31).
  { unfold DaysInMonth. repeat case_match; lia. }
  rewrite readYear_isoYear by done. cbn [mbind option_bind].
  rewrite append_cons, append_nil_l. cbn [expectChar].
  rewrite Ascii.eqb_refl. cbn [mbind option_bind].
  rewrite readDigits_pad by (cbn; lia). cbn [mbind option_bind].
  rewrite append_cons, append_nil_l. cbn [expectChar].
  rewrite Ascii.eqb_refl. cbn [mbind option_bind].
  rewrite <- (append_nil_r (pad 2 d)).
  rewrite readDigits_pad by (cbn; lia). cbn [mbind option_bind].
  replace (String.eqb "" "" && (1 <=? m) && (m <=? 12) && (1 <=? d)
           && (d <=? DaysInMonth y m)) with true by (cbn; lia).
  unfold MakeDay, MakeDate.
  replace ((m - 1) / 12) with 0 by (symmetry; apply Z.div_small; lia).
  replace ((m - 1) mod 12) with (m - 1) by (symmetry; apply Z.mod_small; lia).
  replace (y + 0) with y by lia. replace (m - 1 + 1) with m by lia.
  replace (daysFromCivil y m 1 + d - 1) with day
    by (rewrite <- Hd; unfold daysFromCivil; cbv zeta; lia).
  unfold TimeClip, maxTime, msPerDay.
  destruct (_ && _) eqn:E; [f_equal; lia|lia].
Qed.

(** ** The object [dailyMoods] *)

Lemma get_None (key : string) (o : MoodTracker.DailyMoods) :
  MoodTracker.get key o = None ↔ key ∉ keysOf o.
Proof.
  unfold keysOf. induction o as [|[k v] r IH]; cbn.
  - split; [intros _; apply not_elem_of_nil|done].
  - rewrite not_elem_of_cons. destruct (String.eqb_spec k key) as [->|Hne].
    + split; [done|]. by intros [? _].
    + rewrite IH. split; [|by intros [_ ?]]. intros H. split; [congruence|done].
Qed.

Lemma get_Some_elem (key : string) (o : MoodTracker.DailyMoods) e :
  MoodTracker.get key o = Some e → key ∈ keysOf o.
Proof.
  intros H. destruct (decide (key ∈ keysOf o)) as [|Hn]; [done|].
  apply get_None in Hn. congruence.
Qed.

Lemma get_app (key : string) (o1 o2 : MoodTracker.DailyMoods) :
  MoodTracker.get key (o1 ++ o2)%list
  = match MoodTracker.get key o1 with
    | Some e => Some e
    | None => MoodTracker.get key o2
    end.
Proof.
  induction o1 as [|[k v] r IH]; cbn; [done|].
  by destruct (String.eqb k key).
Qed.

Lemma get_modify (f : MoodTracker.DayEntry → MoodTracker.DayEntry)
    (key key' : string) (o : MoodTracker.DailyMoods) :
  MoodTracker.get key' (MoodTracker.modify f key o)
  = if decide (key' = key) then f <$> MoodTracker.get key o
    else MoodTracker.get key' o.
Proof.
  induction o as [|[k v] r IH]; cbn; [by case_decide|].
  destruct (String.eqb_spec k key) as [->|Hne]; cbn.
  - case_decide as E; [subst; by rewrite String.eqb_refl|].
    destruct (String.eqb_spec key key'); [congruence|done].
  - rewrite IH. destruct (String.eqb_spec k key') as [->|Hne'].
    + by rewrite decide_False by done.
    + done.
Qed.

Lemma keysOf_modify (f : MoodTracker.DayEntry → MoodTracker.DayEntry)
    (key : string) (o : MoodTracker.DailyMoods) :
  keysOf (MoodTracker.modify f key o) = keysOf o.
Proof.
  unfold keysOf. induction o as [|[k v] r IH]; cbn; [done|].
  destruct (String.eqb k key); cbn; [done|by f_equal].
Qed.

Lemma TimeClip_Some (v t : Z) :
  TimeClip v = Some t → t = v ∧ - maxTime <= t <= maxTime.
Proof. unfold TimeClip. case_match; [|done]. intros [= <-]. lia. Qed.

Lemma moodDate_valid (mood : MoodTracker.Mood) (t : Z) :
  MoodTracker.moodDate mood = Some t → - maxTime <= t <= maxTime.
Proof.
  unfold MoodTracker.moodDate.
  destruct (MoodTracker.recordedAt mood); intros H;
    by apply TimeClip_Some in H as [_ ?].
Qed.

Lemma maxTime_value : maxTime = 8640000000000000.
Proof. reflexivity. Qed.

Lemma msPerDay_value : msPerDay = 86400000.
Proof. reflexivity. Qed.

Lemma TimeClip_in_range (v : Z) :
  - maxTime ≤ v ≤ maxTime → TimeClip v = Some v.
Proof.
  intros H. unfold TimeClip.
  destruct (_ && _) eqn:E; [done|].
  apply andb_false_iff in E. rewrite maxTime_value in *. lia.
Qed.

Lemma is_Some_moodDate (mood : MoodTracker.Mood) :
  is_Some (MoodTracker.moodDate mood) ↔ validDate mood.
Proof.
  unfold MoodTracker.moodDate, validDate.
  destruct (MoodTracker.recordedAt mood) as [v|s].
  - split; [intros [t Ht]; by apply TimeClip_Some in Ht as [-> ?]|].
    intros H. rewrite (TimeClip_in_range v H). by eexists.
  - split; [intros [t Ht]; by apply TimeClip_Some in Ht as [-> ?]|].
    intros H. rewrite (TimeClip_in_range _ H). by eexists.
Qed.

Lemma totalOf_count_get (key : string) (o : MoodTracker.DailyMoods) e :
  MoodTracker.get key o = Some e →
  totalOf key o = MoodTracker.totalRating e ∧ countOf key o = MoodTracker.count e.
Proof. unfold totalOf, countOf. by intros ->. Qed.

(** One step of the [forEach]. *)
Lemma addMood_inv (dm dm' : MoodTracker.DailyMoods) (mood : MoodTracker.Mood) :
  NoDup (keysOf dm) → wellKeyed dm →
  MoodTracker.addMood dm mood = Some dm' →
  ∃ key, keyOf mood = Some key
    ∧ NoDup (keysOf dm') ∧ wellKeyed dm'
    ∧ (∀ k, k ∈ keysOf dm' ↔ k ∈ keysOf dm ∨ k = key)
    ∧ (∀ k, totalOf k dm'
            = if decide (k = key)
              then Number_add (totalOf k dm) (MoodTracker.moodValue mood)
              else totalOf k dm)
    ∧ (∀ k, countOf k dm'
            = countOf k dm + (if decide (k = key) then 1 else 0)).
Proof.
  intros Hnd Hwk. unfold MoodTracker.addMood, keyOf.
  destruct (MoodTracker.moodDate mood) as [t|] eqn:Ht; [|done].
  cbn [mbind option_bind fmap option_fmap option_map].
  pose proof (moodDate_valid mood t Ht) as Hvalid.
  set (key := MoodTracker.dateStringOf t).
  set (bump := λ e, MoodTracker.mkDayEntry _ _ _).
  intros [= <-]. exists key. split; [done|].
  assert (Hkey : key = MoodTracker.dateStringOf t) by done. clearbody key.
  destruct (MoodTracker.get key dm) as [e|] eqn:Hg.
  - (* the day has an entry *)
    split_and!.
    + by rewrite keysOf_modify.
    + intros k e'. rewrite get_modify. case_decide as E.
      * subst k. rewrite Hg. intros [= <-]. apply (Hwk key e Hg).
      * apply Hwk.
    + intros k. rewrite keysOf_modify. split; [by left|].
      intros [?| ->]; [done|by apply (get_Some_elem key dm e)].
    + intros k. unfold totalOf. rewrite get_modify. case_decide as E.
      * subst k. by rewrite Hg.
      * done.
    + intros k. unfold countOf. rewrite get_modify. case_decide as E.
      * subst k. rewrite Hg. cbn. lia.
      * lia.
  - (* the day is new *)
    assert (Hnew : key ∉ keysOf dm) by (by apply get_None).
    assert (Hget : ∀ k, MoodTracker.get k
                          (dm ++ [(key, MoodTracker.mkDayEntry
                                          (Number_of_Z 0) 0 t)])%list
                        = if decide (k = key)
                          then Some (MoodTracker.mkDayEntry
                                       (Number_of_Z 0) 0 t)
                          else MoodTracker.get k dm).
    { intros k. rewrite get_app. cbn. case_decide as E.
      - subst k. by rewrite Hg, String.eqb_refl.
      - destruct (MoodTracker.get k dm); [done|].
        destruct (String.eqb_spec key k); [congruence|done]. }
    split_and!.
    + rewrite keysOf_modify. unfold keysOf in *. rewrite fmap_app. cbn.
      apply NoDup_app. split_and!; [done| |apply NoDup_singleton].
      intros k Hk ->%list_elem_of_singleton. done.
    + intros k e'. rewrite get_modify, !Hget. case_decide as E.
      * subst k. rewrite ?decide_True by done. intros [= <-]. cbn. done.
      * rewrite ?decide_False by done. exact (Hwk k e').
    + intros k. rewrite keysOf_modify. unfold keysOf. rewrite fmap_app. cbn.
      rewrite elem_of_app, list_elem_of_singleton. done.
    + intros k. unfold totalOf. rewrite get_modify, !Hget. case_decide as E.
      * subst k. rewrite ?decide_True, Hg by done. done.
      * by rewrite ?decide_False by done.
    + intros k. unfold countOf. rewrite get_modify, !Hget. case_decide as E.
      * subst k. rewrite ?decide_True, Hg by done. cbn. lia.
      * rewrite ?decide_False by done. lia.
Qed.

Lemma ratingsOn_cons (key : string) (mood : MoodTracker.Mood)
    (l : list MoodTracker.Mood) :
  ratingsOn key (mood :: l)
  = if decide (keyOf mood = Some key)
    then MoodTracker.moodValue mood :: ratingsOn key l
    else ratingsOn key l.
Proof. unfold ratingsOn. rewrite filter_cons. by case_decide. Qed.

(** The whole [forEach]. *)
Lemma forEach_inv (l : list MoodTracker.Mood) (dm dm' : MoodTracker.DailyMoods) :
  NoDup (keysOf dm) → wellKeyed dm →
  MoodTracker.forEach l dm = Some dm' →
  NoDup (keysOf dm') ∧ wellKeyed dm'
  ∧ (∀ k, k ∈ keysOf dm'
          ↔ k ∈ keysOf dm ∨ ∃ mood, mood ∈ l ∧ keyOf mood = Some k)
  ∧ (∀ k, totalOf k dm' = sumFrom (totalOf k dm) (ratingsOn k l))
  ∧ (∀ k, countOf k dm' = countOf k dm + Z.of_nat (length (ratingsOn k l))).
Proof.
  revert dm. induction l as [|mood l IH]; intros dm Hnd Hwk;
    cbn [MoodTracker.forEach].
  - intros [= <-]. split_and!; [done|done| |done|intros; cbn; lia].
    intros k. split; [by left|]. intros [?|(m & Hm & _)]; [done|].
    by apply elem_of_nil in Hm.
  - destruct (MoodTracker.addMood dm mood) as [dm1|] eqn:Hstep; [|done].
    cbn [mbind option_bind]. intros Hrest.
    destruct (addMood_inv dm dm1 mood Hnd Hwk Hstep)
      as (key & Hkey & Hnd1 & Hwk1 & Hk1 & Ht1 & Hc1).
    destruct (IH dm1 Hnd1 Hwk1 Hrest) as (Hnd' & Hwk' & Hk' & Ht' & Hc').
    split_and!; [done|done|..].
    + intros k. rewrite Hk', Hk1. split.
      * intros [[?| ->]|(m & Hm & Hmk)]; [by left| |].
        -- right. exists mood. split; [left|done].
        -- right. exists m. split; [by right|done].
      * intros [?|(m & Hm & Hmk)]; [by left; left|].
        apply elem_of_cons in Hm as [->|Hm].
        -- left; right. congruence.
        -- right. by exists m.
    + intros k. rewrite Ht', Ht1, ratingsOn_cons, Hkey.
      destruct (decide (k = key)) as [->|Hne].
      * by rewrite !decide_True by done.
      * by rewrite !decide_False by congruence.
    + intros k. rewrite Hc', Hc1, ratingsOn_cons, Hkey.
      destruct (decide (k = key)) as [->|Hne].
      * rewrite !decide_True by done. cbn [length]. lia.
      * rewrite !decide_False by congruence. lia.
Qed.

Lemma forEach_is_Some (l : list MoodTracker.Mood) (dm : MoodTracker.DailyMoods) :
  is_Some (MoodTracker.forEach l dm)
  ↔ Forall (λ mood, is_Some (MoodTracker.moodDate mood)) l.
Proof.
  revert dm. induction l as [|mood l IH]; intros dm; cbn.
  - split; [by constructor|by eexists].
  - rewrite Forall_cons. unfold MoodTracker.addMood.
    destruct (MoodTracker.moodDate mood) as [t|]; cbn.
    + rewrite IH. split; [by split; [eexists|]|by intros [_ ?]].
    + split; [by intros [? ?]|by intros [[? ?] _]].
Qed.

(** ** The order of the input does not matter to the sums *)

Lemma sumZ_Permutation (l l' : list Z) : l ≡ₚ l' → sumZ l = sumZ l'.
Proof.
  unfold sumZ.
  induction 1 as [|x l l' _ IH|x y l|l l' l'' _ IH1 _ IH2]; cbn [foldr];
    [done|by rewrite IH|lia|congruence].
Qed.

Lemma ratingsOn_Permutation (key : string) (l l' : list MoodTracker.Mood) :
  l ≡ₚ l' → ratingsOn key l ≡ₚ ratingsOn key l'.
Proof. intros H. unfold ratingsOn. by rewrite H. Qed.

Lemma integersOn_Permutation (key : string) (l l' : list MoodTracker.Mood) :
  l ≡ₚ l' → integersOn key l ≡ₚ integersOn key l'.
Proof. intros H. unfold integersOn. by rewrite H. Qed.

Lemma integersOn_length (key : string) (l : list MoodTracker.Mood) :
  length (integersOn key l) = length (ratingsOn key l).
Proof. unfold integersOn, ratingsOn. by rewrite !length_fmap. Qed.

Lemma sumZ_cons (x : Z) (l : list Z) : sumZ (x :: l) = x + sumZ l.
Proof. done. Qed.

Lemma sumZ_nonneg {A} (f : A → Z) (l : list A) :
  Forall (λ x, 0 ≤ f x) l → 0 ≤ sumZ (f <$> l).
Proof.
  induction 1 as [|x l Hx _ IH]; [done|].
  rewrite fmap_cons, sumZ_cons. lia.
Qed.

Lemma sumZ_filter {A} (f : A → Z) (P : A → Prop) `{!∀ x, Decision (P x)}
    (l : list A) :
  Forall (λ x, 0 ≤ f x) l → sumZ (f <$> filter P l) ≤ sumZ (f <$> l).
Proof.
  induction 1 as [|x l Hx _ IH]; [done|].
  rewrite filter_cons, fmap_cons, sumZ_cons.
  case_decide; [rewrite fmap_cons, sumZ_cons|]; lia.
Qed.

(** Adding up integers that are not negative is exact as long as the
    total stays below 2^53. *)
Lemma sumFrom_integers (a : Z) (ms : list MoodTracker.Mood) :
  0 ≤ a →
  Forall (λ mood, 0 ≤ ratingOf mood
                  ∧ MoodTracker.moodValue mood = Number_of_Z (ratingOf mood))
    ms →
  a + sumZ (ratingOf <$> ms) < 2 ^ 53 →
  sumFrom (Number_of_Z a) (MoodTracker.moodValue <$> ms)
  = Number_of_Z (a + sumZ (ratingOf <$> ms)).
Proof.
  revert a. induction ms as [|m ms IH]; intros a Ha HF Hs.
  - cbn. by rewrite Z.add_0_r.
  - apply Forall_cons in HF as [[Hr Hv] HF].
    assert (Hrest : 0 ≤ sumZ (ratingOf <$> ms)).
    { apply sumZ_nonneg. eapply Forall_impl; [exact HF|]. by intros ? [? _]. }
    rewrite !fmap_cons, sumZ_cons in *. unfold sumFrom in *. cbn [foldl].
    rewrite Hv, Number_add_of_Z by lia.
    rewrite IH; [f_equal; lia|lia|done|lia].
Qed.

Lemma integerRatings_total (key : string) (l : list MoodTracker.Mood) :
  integerRatings l →
  sumFrom (Number_of_Z 0) (ratingsOn key l)
  = Number_of_Z (sumZ (integersOn key l)).
Proof.
  intros [HF Hs]. unfold ratingsOn, integersOn.
  assert (Hle : sumZ (ratingOf <$> filter (λ mood, keyOf mood = Some key) l)
                ≤ sumZ (ratingOf <$> l)).
  { apply sumZ_filter. eapply Forall_impl; [exact HF|]. by intros ? [? _]. }
  rewrite sumFrom_integers; [done|lia| |lia].
  apply Forall_forall. intros mood [_ Hm]%list_elem_of_filter.
  rewrite Forall_forall in HF. by apply HF.
Qed.

Lemma integerRatings_Permutation (l l' : list MoodTracker.Mood) :
  l ≡ₚ l' → integerRatings l → integerRatings l'.
Proof.
  intros Hp [HF Hs]. split; [by rewrite <- Hp|].
  rewrite (sumZ_Permutation _ (ratingOf <$> l)); [done|by rewrite Hp].
Qed.

Lemma forEach_Permutation_None (l l' : list MoodTracker.Mood) :
  l ≡ₚ l' →
  MoodTracker.forEach l [] = None → MoodTracker.forEach l' [] = None.
Proof.
  intros Hp Hn. apply eq_None_not_Some. rewrite forEach_is_Some, <- Hp.
  rewrite <- forEach_is_Some, Hn. by intros [? ?].
Qed.

Lemma wellKeyed_nil : wellKeyed [].
Proof. by intros k e. Qed.

(** ** The keys and their order *)

Lemma Day_bounds (t : Z) :
  - maxTime <= t <= maxTime → -100000000 <= Day t <= 100000000.
Proof.
  unfold maxTime, Day, msPerDay. intros H.
  split; [apply Z.div_le_lower_bound|apply Z.div_le_upper_bound]; lia.
Qed.

Lemma key_is_date (dm : MoodTracker.DailyMoods) (k : string) :
  wellKeyed dm → k ∈ keysOf dm →
  ∃ day, -100000000 <= day <= 100000000 ∧ k = isoDate day.
Proof.
  intros Hwk Hk. destruct (MoodTracker.get k dm) as [e|] eqn:Hg.
  - destruct (Hwk k e Hg) as [Hv ->].
    exists (Day (MoodTracker.originalDate e)).
    split; [by apply Day_bounds|apply dateStringOf_isoDate].
  - by apply get_None in Hg.
Qed.

Lemma dateBefore_isoDate (d1 d2 : Z) :
  -100000000 <= d1 <= 100000000 → -100000000 <= d2 <= 100000000 →
  MoodTracker.dateBefore (isoDate d1) (isoDate d2) = (d1 <=? d2).
Proof.
  intros H1 H2. unfold MoodTracker.dateBefore, MoodTracker.compareDates.
  rewrite !Date_parse_isoDate by done. cbn. unfold msPerDay. lia.
Qed.


Lemma Sorted_StronglySorted_on {A} (R : relation A) (P : A → Prop)
    (l : list A) :
  (∀ x y z, P x → P y → P z → R x y → R y z → R x z) →
  Forall P l → Sorted R l → StronglySorted R l.
Proof.
  intros Htrans HP Hs. induction Hs as [|x l Hs IH Hhd]; [constructor|].
  apply Forall_cons in HP as [Hx HP]. specialize (IH HP).
  constructor; [done|].
  destruct Hhd as [|y l Hxy]; [constructor|].
  apply Forall_cons in HP as [Hy HP].
  apply StronglySorted_inv in IH as [_ Hyl].
  constructor; [done|].
  rewrite Forall_forall in Hyl, HP |- *.
  intros z Hz. apply (Htrans x y z); auto.
Qed.

Lemma dateBefore_total (a b : string) :
  MoodTracker.dateBefore a b = true ∨ MoodTracker.dateBefore b a = true.
Proof.
  unfold MoodTracker.dateBefore, MoodTracker.compareDates.
  destruct (Date_parse_dateOnly a), (Date_parse_dateOnly b); cbn; auto. lia.
Qed.

(** The sorted dates are fixed by the set of keys. *)
Lemma sortedDates_unique (dm dm' : MoodTracker.DailyMoods) :
  wellKeyed dm → wellKeyed dm' → keysOf dm ≡ₚ keysOf dm' →
  MoodTracker.sortedDates dm = MoodTracker.sortedDates dm'.
Proof.
  intros Hwk Hwk' Hp. unfold MoodTracker.sortedDates. fold (keysOf dm) (keysOf dm').
  set (R := λ a b, MoodTracker.dateBefore a b = true).
  set (P := λ k, ∃ day, -100000000 <= day <= 100000000 ∧ k = isoDate day).
  assert (Htrans : ∀ x y z, P x → P y → P z → R x y → R y z → R x z).
  { intros x y z (dx & Hx & ->) (dy & Hy & ->) (dz & Hz & ->). unfold R.
    rewrite !dateBefore_isoDate by done. lia. }
  assert (HP : ∀ o, wellKeyed o →
            Forall P (sortBy MoodTracker.dateBefore (keysOf o))).
  { intros o Ho. rewrite sortBy_Permutation. apply Forall_forall.
    intros k Hk. by apply (key_is_date o). }
  apply (StronglySorted_unique_strong R).
  - intros x1 x2 Hx1 Hx2.
    pose proof (HP dm Hwk) as F1. pose proof (HP dm' Hwk') as F2.
    rewrite Forall_forall in F1, F2.
    destruct (F1 x1 Hx1) as (d1 & Hd1 & ->).
    destruct (F2 x2 Hx2) as (d2 & Hd2 & ->). unfold R.
    rewrite !dateBefore_isoDate by done. intros ? ?. f_equal. lia.
  - apply (Sorted_StronglySorted_on R P); [done|by apply HP|].
    apply sortBy_Sorted, dateBefore_total.
  - apply (Sorted_StronglySorted_on R P); [done|by apply HP|].
    apply sortBy_Sorted, dateBefore_total.
  - by rewrite !sortBy_Permutation.
Qed.

(** ** The chart data of a permuted input *)

Lemma forEach_from_nil (l : list MoodTracker.Mood) (dm : MoodTracker.DailyMoods) :
  MoodTracker.forEach l [] = Some dm →
  NoDup (keysOf dm) ∧ wellKeyed dm
  ∧ (∀ k, k ∈ keysOf dm ↔ ∃ mood, mood ∈ l ∧ keyOf mood = Some k)
  ∧ (∀ k, totalOf k dm = sumFrom (Number_of_Z 0) (ratingsOn k l))
  ∧ (∀ k, countOf k dm = Z.of_nat (length (ratingsOn k l))).
Proof.
  intros H.
  destruct (forEach_inv l [] dm (NoDup_nil_2) wellKeyed_nil H)
    as (Hnd & Hwk & Hk & Ht & Hc).
  split_and!; [done|done|..].
  - intros k. rewrite Hk. split; [|by right].
    intros [Hn|?]; [|done]. by apply elem_of_nil in Hn.
  - intros k. by rewrite Ht.
  - intros k. rewrite Hc. unfold countOf. cbn. lia.
Qed.

Lemma forEach_Permutation (l l' : list MoodTracker.Mood)
    (dm dm' : MoodTracker.DailyMoods) :
  l ≡ₚ l' →
  MoodTracker.forEach l [] = Some dm → MoodTracker.forEach l' [] = Some dm' →
  keysOf dm ≡ₚ keysOf dm'
  ∧ (∀ k, countOf k dm = countOf k dm')
  ∧ (integerRatings l → ∀ k, totalOf k dm = totalOf k dm').
Proof.
  intros Hp H H'.
  destruct (forEach_from_nil l dm H) as (Hnd & _ & Hk & Ht & Hc).
  destruct (forEach_from_nil l' dm' H') as (Hnd' & _ & Hk' & Ht' & Hc').
  split_and!.
  - apply NoDup_Permutation; [done..|].
    intros k. rewrite Hk, Hk'. by setoid_rewrite Hp.
  - intros k. rewrite Hc, Hc'.
    by rewrite (Permutation_length (ratingsOn_Permutation k l l' Hp)).
  - intros Hi k. rewrite Ht, Ht'.
    rewrite (integerRatings_total k l Hi).
    rewrite (integerRatings_total k l'
               (integerRatings_Permutation l l' Hp Hi)).
    by rewrite (sumZ_Permutation _ _ (integersOn_Permutation k l l' Hp)).
Qed.

Lemma pointData_chartPoint (e e' : MoodTracker.DayEntry) :
  MoodTracker.totalRating e = MoodTracker.totalRating e' →
  MoodTracker.count e = MoodTracker.count e' →
  pointData (MoodTracker.chartPoint e) = pointData (MoodTracker.chartPoint e').
Proof.
  intros Ht Hc. unfold pointData, MoodTracker.chartPoint. cbn.
  by rewrite Ht, Hc.
Qed.

Lemma mapM_ext_in {A B} (f g : A → option B) (l : list A) :
  (∀ x, x ∈ l → f x = g x) → mapM f l = mapM g l.
Proof.
  induction l as [|x l IH]; intros H; [done|]. cbn.
  rewrite (H x) by left. rewrite IH; [done|].
  intros y Hy. apply H. by right.
Qed.

Lemma fmap_mapM {A B C} (f : A → option B) (g : B → C) (l : list A) :
  map g <$> mapM f l = mapM (λ x, g <$> f x) l.
Proof.
  induction l as [|x l IH]; [done|]. cbn. rewrite <- IH.
  destruct (f x); cbn; [|done]. by destruct (mapM f l).
Qed.

Lemma get_of_key (dm : MoodTracker.DailyMoods) (k : string) :
  k ∈ keysOf dm → ∃ e, MoodTracker.get k dm = Some e.
Proof.
  intros Hk. destruct (MoodTracker.get k dm) as [e|] eqn:E; [by exists e|].
  by apply get_None in E.
Qed.

Lemma sortedDates_keys (dm : MoodTracker.DailyMoods) (k : string) :
  k ∈ MoodTracker.sortedDates dm ↔ k ∈ keysOf dm.
Proof. unfold MoodTracker.sortedDates. by rewrite sortBy_Permutation. Qed.

(** The days do not depend on the order of the moods; nor do their
    averages and what the points show, when the ratings are integers that
    add up exactly. *)
Lemma chart_Permutation (l l' : list MoodTracker.Mood) :
  l ≡ₚ l' →
  map fst <$> bucketByDay l = map fst <$> bucketByDay l'
  ∧ (integerRatings l →
     bucketByDay l = bucketByDay l'
     ∧ map pointData <$> MoodTracker.prepareChartData l
       = map pointData <$> MoodTracker.prepareChartData l').
Proof.
  intros Hp. unfold bucketByDay, MoodTracker.prepareChartData.
  destruct (MoodTracker.forEach l []) as [dm|] eqn:H.
  - destruct (MoodTracker.forEach l' []) as [dm'|] eqn:H'.
    + cbn [mbind option_bind].
      destruct (forEach_Permutation l l' dm dm' Hp H H') as (Hk & Hc & Ht).
      destruct (forEach_from_nil l dm H) as (_ & Hwk & _).
      destruct (forEach_from_nil l' dm' H') as (_ & Hwk' & _).
      rewrite (sortedDates_unique dm dm' Hwk Hwk' Hk).
      assert (Hboth : ∀ k, k ∈ MoodTracker.sortedDates dm' →
                ∃ e e', MoodTracker.get k dm = Some e
                  ∧ MoodTracker.get k dm' = Some e'
                  ∧ MoodTracker.count e = MoodTracker.count e'
                  ∧ (integerRatings l →
                     MoodTracker.totalRating e = MoodTracker.totalRating e')).
      { intros k Hin. apply sortedDates_keys in Hin.
        destruct (get_of_key dm' k Hin) as [e' He'].
        destruct (get_of_key dm k) as [e He]; [by rewrite Hk|].
        exists e, e'.
        destruct (totalOf_count_get k dm e He) as [T1 C1].
        destruct (totalOf_count_get k dm' e' He') as [T2 C2].
        split_and!; [done|done|by rewrite <- C1, <- C2, (Hc k)|].
        intros Hi. by rewrite <- T1, <- T2, (Ht Hi k). }
      split.
      * rewrite !fmap_mapM. apply mapM_ext_in. intros k Hin.
        by destruct (Hboth k Hin) as (e & e' & -> & -> & _).
      * intros Hi. split.
        -- apply mapM_ext_in. intros k Hin.
           destruct (Hboth k Hin) as (e & e' & -> & -> & Hcnt & Htot). cbn.
           pose proof (pointData_chartPoint e e' (Htot Hi) Hcnt) as E.
           apply (f_equal (λ p, p.1.1)) in E. cbn in E. by rewrite E.
        -- rewrite !fmap_mapM. apply mapM_ext_in. intros k Hin.
           destruct (Hboth k Hin) as (e & e' & -> & -> & Hcnt & Htot). cbn.
           f_equal. apply pointData_chartPoint; [by apply Htot|done].
    + symmetry in Hp.
      pose proof (forEach_Permutation_None l' l Hp H'). congruence.
  - by rewrite (forEach_Permutation_None l l' Hp H).
Qed.

(** The point of a bucket lies on the day of the bucket, and has its
    average. *)
Lemma chart_points_on_their_days (l : list MoodTracker.Mood) pts bs :
  MoodTracker.prepareChartData l = Some pts →
  bucketByDay l = Some bs →
  Forall2 (λ p b, MoodTracker.dateStringOf (MoodTracker.x p) = b.1
                  ∧ MoodTracker.y p = b.2) pts bs.
Proof.
  unfold bucketByDay, MoodTracker.prepareChartData.
  destruct (MoodTracker.forEach l []) as [dm|] eqn:H; [|done].
  cbn [mbind option_bind].
  destruct (forEach_from_nil l dm H) as (_ & Hwk & _).
  revert pts bs.
  induction (MoodTracker.sortedDates dm) as [|k ks IH]; intros pts bs; cbn.
  - intros [= <-] [= <-]. constructor.
  - destruct (MoodTracker.get k dm) as [e|] eqn:He; cbn; [|done].
    destruct (mapM _ ks) as [ps|]; cbn; [|done].
    destruct (mapM _ ks) as [cs|]; cbn; [|done].
    intros [= <-] [= <-]. constructor; [|by apply IH].
    split; [|done]. exact (eq_sym (proj2 (Hwk k e He))).
Qed.

(** There is chart data whenever every date is valid. *)
Lemma prepareChartData_is_Some (l : list MoodTracker.Mood) :
  Forall (λ mood, is_Some (MoodTracker.moodDate mood)) l →
  is_Some (MoodTracker.prepareChartData l)
  ∧ is_Some (bucketByDay l).
Proof.
  intros Hv. apply (forEach_is_Some l []) in Hv as [dm H].
  unfold bucketByDay, MoodTracker.prepareChartData. rewrite H.
  cbn [mbind option_bind].
  assert (Hall : ∀ k, k ∈ MoodTracker.sortedDates dm →
            ∃ e, MoodTracker.get k dm = Some e).
  { intros k Hk. apply sortedDates_keys in Hk. by apply get_of_key. }
  split; apply mapM_is_Some, Forall_forall; intros k Hk;
    destruct (Hall k Hk) as [e He]; cbn; rewrite He; by eexists.
Qed.

(** ** The order and the averages of the buckets *)

Lemma timeOfKey_isoDate (day : Z) :
  -100000000 <= day <= 100000000 → timeOfKey (isoDate day) = day * msPerDay.
Proof. intros H. unfold timeOfKey. by rewrite Date_parse_isoDate. Qed.

(** The sorted dates ascend strictly. *)
Lemma sortedDates_ascending (dm : MoodTracker.DailyMoods) :
  wellKeyed dm → NoDup (keysOf dm) →
  StronglySorted (λ a b, timeOfKey a < timeOfKey b)
    (MoodTracker.sortedDates dm).
Proof.
  intros Hwk Hnd.
  set (R := λ a b, MoodTracker.dateBefore a b = true).
  set (P := λ k, ∃ day, -100000000 <= day <= 100000000 ∧ k = isoDate day).
  assert (HP : Forall P (MoodTracker.sortedDates dm)).
  { apply Forall_forall. intros k Hk. apply sortedDates_keys in Hk.
    by apply (key_is_date dm). }
  assert (Hnd' : NoDup (MoodTracker.sortedDates dm)).
  { unfold MoodTracker.sortedDates. fold (keysOf dm).
    by rewrite sortBy_Permutation. }
  assert (Hs : StronglySorted R (MoodTracker.sortedDates dm)).
  { apply (Sorted_StronglySorted_on R P); [|done|].
    - intros x y z (dx & Hx & ->) (dy & Hy & ->) (dz & Hz & ->). unfold R.
      rewrite !dateBefore_isoDate by done. lia.
    - apply sortBy_Sorted, dateBefore_total. }
  induction Hs as [|x l Hs IH Hx]; [constructor|].
  apply Forall_cons in HP as [(dx & Hdx & ->) HP].
  apply NoDup_cons in Hnd' as [Hnin Hnd'].
  constructor; [by apply IH|].
  rewrite Forall_forall in Hx, HP |- *. intros y Hy.
  destruct (HP y Hy) as (dy & Hdy & ->).
  specialize (Hx _ Hy). unfold R in Hx.
  rewrite dateBefore_isoDate in Hx by done.
  rewrite !timeOfKey_isoDate by done.
  assert (dx ≠ dy) by (intros ->; done).
  unfold msPerDay. lia.
Qed.

Lemma mapM_keys {B} (dm : MoodTracker.DailyMoods)
    (g : MoodTracker.DayEntry → B) (ks : list string) (bs : list (string * B)) :
  mapM (λ k, e ← MoodTracker.get k dm; Some (k, g e)) ks = Some bs →
  bs.*1 = ks
  ∧ Forall (λ b, ∃ e, MoodTracker.get b.1 dm = Some e ∧ b.2 = g e) bs.
Proof.
  revert bs. induction ks as [|k ks IH]; intros bs; cbn.
  - by intros [= <-].
  - destruct (MoodTracker.get k dm) as [e|] eqn:He; cbn; [|done].
    destruct (mapM _ ks) as [r|]; cbn; [|done].
    intros [= <-]. destruct (IH r eq_refl) as [Hr HF].
    split; [by rewrite fmap_cons, Hr|]. constructor; [|done]. by exists e.
Qed.

(** The buckets ascend by date, one for each day, and each carries the
    mean of the ratings of its day to two decimals. *)
Lemma bucketByDay_ascending_means (l : list MoodTracker.Mood)
    (bs : list (string * Decimal2)) :
  bucketByDay l = Some bs →
  StronglySorted (λ a b, timeOfKey a < timeOfKey b) bs.*1
  ∧ Forall (λ b,
      ratingsOn b.1 l ≠ []
      ∧ b.2 = toFixed2
                (Number_div
                   (sumFrom (Number_of_Z 0) (ratingsOn b.1 l))
                   (Number_of_Z (Z.of_nat (length (ratingsOn b.1 l)))))) bs.
Proof.
  unfold bucketByDay.
  destruct (MoodTracker.forEach l []) as [dm|] eqn:H; [|done].
  cbn [mbind option_bind]. intros Hm.
  destruct (forEach_from_nil l dm H) as (Hnd & Hwk & Hk & Ht & Hc).
  destruct (mapM_keys dm (λ e, MoodTracker.y (MoodTracker.chartPoint e))
              _ bs Hm) as [Hkeys HF].
  split.
  - rewrite Hkeys. by apply sortedDates_ascending.
  - rewrite Forall_forall in HF |- *. intros b Hb.
    destruct (HF b Hb) as (e & He & ->).
    destruct (totalOf_count_get _ dm e He) as [T C].
    split.
    + pose proof (get_Some_elem _ _ _ He) as Hin.
      apply Hk in Hin as (mood & Hm1 & Hm2). unfold ratingsOn.
      intros Hnil. apply fmap_nil_inv in Hnil.
      assert (mood ∈ filter (λ mood, keyOf mood = Some b.1) l)
        by (by apply list_elem_of_filter).
      rewrite Hnil in *. by eapply not_elem_of_nil.
    + unfold MoodTracker.chartPoint. cbn [MoodTracker.y].
      by rewrite <- T, <- C, (Ht b.1), (Hc b.1).
Qed.

(** With integer ratings that add up exactly, the average of a day is the
    quotient of their sum by their number, to two decimals. *)
Lemma bucketByDay_integer_means (l : list MoodTracker.Mood)
    (bs : list (string * Decimal2)) :
  integerRatings l →
  bucketByDay l = Some bs →
  Forall (λ b,
      b.2 = toFixed2
              (Number_div
                 (Number_of_Z (sumZ (integersOn b.1 l)))
                 (Number_of_Z (Z.of_nat (length (integersOn b.1 l)))))) bs.
Proof.
  intros Hi Hb. destruct (bucketByDay_ascending_means l bs Hb) as [_ HF].
  eapply Forall_impl; [exact HF|]. intros b [_ ->].
  by rewrite integersOn_length, (integerRatings_total _ l Hi).
Qed.


Lemma addMood_origin (dm dm' : MoodTracker.DailyMoods)
    (mood : MoodTracker.Mood) (k : string) :
  MoodTracker.addMood dm mood = Some dm' →
  originOf k dm'
  = match originOf k dm with
    | Some t => Some t
    | None =>
        if decide (keyOf mood = Some k) then MoodTracker.moodDate mood
        else None
    end.
Proof.
  unfold MoodTracker.addMood, keyOf, originOf.
  destruct (MoodTracker.moodDate mood) as [t|]; [|done].
  cbn [mbind option_bind fmap option_fmap option_map].
  set (key := MoodTracker.dateStringOf t).
  set (bump := λ e, MoodTracker.mkDayEntry _ _ _).
  clearbody key. intros [= <-]. rewrite get_modify.
  destruct (MoodTracker.get key dm) as [e|] eqn:Hg.
  - case_decide as E.
    + subst k. by rewrite Hg.
    + destruct (MoodTracker.get k dm); cbn; [done|].
      case_decide as E'; [congruence|done].
  - rewrite !get_app, Hg. cbn [MoodTracker.get]. rewrite String.eqb_refl.
    case_decide as E.
    + subst k. rewrite Hg. cbn. by rewrite decide_True.
    + destruct (MoodTracker.get k dm); cbn; [done|].
      destruct (String.eqb_spec key k); [congruence|].
      cbn. case_decide as E'; [congruence|done].
Qed.

Lemma forEach_origin (l : list MoodTracker.Mood)
    (dm dm' : MoodTracker.DailyMoods) (k : string) :
  MoodTracker.forEach l dm = Some dm' →
  originOf k dm'
  = match originOf k dm with
    | Some t => Some t
    | None => firstOn k l
    end.
Proof.
  revert dm. induction l as [|mood l IH]; intros dm.
  - intros [= <-]. by destruct (originOf k dm).
  - cbn [MoodTracker.forEach firstOn].
    destruct (MoodTracker.addMood dm mood) as [dm1|] eqn:H1; [|done].
    cbn [mbind option_bind]. intros H. rewrite (IH dm1 H).
    rewrite (addMood_origin dm dm1 mood k H1).
    destruct (originOf k dm); [done|].
    case_decide as E; [|done].
    unfold keyOf in E. by destruct (MoodTracker.moodDate mood).
Qed.

Lemma Forall2_right {A B : Type} (P : A → B → Prop) (Q : B → Prop)
    (l : list A) (k : list B) :
  Forall2 P l k → (∀ x y, P x y → Q y) → Forall Q k.
Proof.
  intros H HQ. induction H as [|x y l k Hxy _ IH]; constructor; eauto.
Qed.

Lemma chart_points_entries (l : list MoodTracker.Mood)
    (pts : list MoodTracker.ChartPoint) :
  MoodTracker.prepareChartData l = Some pts →
  ∃ dm,
    MoodTracker.forEach l [] = Some dm
    ∧ Forall2 (λ k p, ∃ e, MoodTracker.get k dm = Some e
                           ∧ p = MoodTracker.chartPoint e
                           ∧ k = isoDate (Day (MoodTracker.x p))
                           ∧ - maxTime ≤ MoodTracker.x p ≤ maxTime)
        (MoodTracker.sortedDates dm) pts.
Proof.
  unfold MoodTracker.prepareChartData.
  destruct (MoodTracker.forEach l []) as [dm|] eqn:Hdm; [|done].
  cbn [mbind option_bind]. intros H. exists dm. split; [done|].
  destruct (forEach_from_nil l dm Hdm) as (_ & Hwk & _).
  apply mapM_Some in H.
  eapply Forall2_impl; [exact H|]. intros k p Hp. cbn beta in Hp.
  destruct (MoodTracker.get k dm) as [e|] eqn:He; [|done].
  injection Hp as <-. exists e.
  destruct (Hwk k e He) as [Hr Hk].
  split; [done|]. split; [done|]. split; [|exact Hr].
  by rewrite Hk at 1; rewrite dateStringOf_isoDate.
Qed.

(** The [x] of a point is the moment of the first mood of its day. *)
Lemma chart_x_first (l : list MoodTracker.Mood)
    (pts : list MoodTracker.ChartPoint) :
  MoodTracker.prepareChartData l = Some pts →
  Forall (λ p, firstOn (MoodTracker.dateStringOf (MoodTracker.x p)) l
               = Some (MoodTracker.x p))
    pts.
Proof.
  intros H.
  destruct (chart_points_entries l pts H) as (dm & Hdm & Hpts).
  refine (Forall2_right _ _ _ _ Hpts _).
  intros k p (e & He & -> & Hk & _).
  pose proof (forEach_origin l [] dm k Hdm) as Ho.
  unfold originOf in Ho. rewrite He in Ho. cbn in Ho.
  rewrite dateStringOf_isoDate. cbn [MoodTracker.x MoodTracker.chartPoint].
  cbn [MoodTracker.x MoodTracker.chartPoint] in Hk. by rewrite <- Hk.
Qed.

(** ** The chart data *)

(** C5, as the code has it.  Permuting the moods leaves the days as
    they were, element for element, in ascending order of date.  It leaves
    the average of each day and the marker and labels of each point as
    they were when the ratings are integers, none negative, with a sum
    below 2^53, so that the additions of the [forEach] are exact.  The [x]
    of a point is the moment of the first mood of its day in the order of
    the input: it lies on the day of the point, and may change with the
    order. *)
Theorem chart_order_independent_but_x (l l' : list MoodTracker.Mood) :
  l ≡ₚ l' →
  map fst <$> bucketByDay l = map fst <$> bucketByDay l'
  ∧ (integerRatings l →
     bucketByDay l = bucketByDay l'
     ∧ map pointData <$> MoodTracker.prepareChartData l
       = map pointData <$> MoodTracker.prepareChartData l')
  ∧ (∀ pts bs,
       MoodTracker.prepareChartData l = Some pts →
       bucketByDay l = Some bs →
       Forall2 (λ p b, MoodTracker.dateStringOf (MoodTracker.x p) = b.1
                       ∧ MoodTracker.y p = b.2) pts bs)
  ∧ (∀ pts,
       MoodTracker.prepareChartData l = Some pts →
       Forall (λ p, firstOn (MoodTracker.dateStringOf (MoodTracker.x p)) l
                    = Some (MoodTracker.x p)) pts)
  ∧ (∀ bs, bucketByDay l = Some bs →
       StronglySorted (λ a b, timeOfKey a < timeOfKey b) bs.*1)
  ∧ (Forall (λ mood, is_Some (MoodTracker.moodDate mood)) l →
     is_Some (MoodTracker.prepareChartData l)
     ∧ is_Some (MoodTracker.prepareChartData l')).
Proof.
  intros Hp. destruct (chart_Permutation l l' Hp) as [Hb Hd].
  split_and!; [done|done|apply chart_points_on_their_days
               |apply chart_x_first| |].
  - intros bs Hbs. by apply (bucketByDay_ascending_means l bs).
  - intros Hv. split; [by apply prepareChartData_is_Some|].
    rewrite Hp in Hv. by apply prepareChartData_is_Some.
Qed.

Lemma chart_order_independent_but_x_witness :
  bucketByDay [moodMorning; moodNextDay; moodEvening]
  = Some [("2024-01-01", Dec2 300); ("2024-01-02", Dec2 500)]
  ∧ bucketByDay [moodNextDay; moodEvening; moodMorning]
    = Some [("2024-01-01", Dec2 300); ("2024-01-02", Dec2 500)].
Proof.
  destruct (chart_order_independent_but_x
              [moodMorning; moodNextDay; moodEvening]
              [moodNextDay; moodEvening; moodMorning]) as (_ & H & _).
  { etrans; [apply Permutation_swap|]. apply perm_skip, Permutation_swap. }
  destruct H as [Hb _].
  { split; [|by vm_compute].
    repeat constructor; by vm_compute. }
  rewrite <- Hb. split; by vm_compute.
Defined.

(** C5 fails as stated: with two moods on one day, the point of the day
    has the time of the one that comes first, so the two orders give
    different chart data. *)
Lemma chart_x_depends_on_order :
  [moodMorning; moodEvening] ≡ₚ [moodEvening; moodMorning]
  ∧ MoodTracker.x <$> default [] (MoodTracker.prepareChartData
                                    [moodMorning; moodEvening])
    = [1704096000000]
  ∧ MoodTracker.x <$> default [] (MoodTracker.prepareChartData
                                    [moodEvening; moodMorning])
    = [1704139200000]
  ∧ MoodTracker.prepareChartData [moodMorning; moodEvening]
    ≠ MoodTracker.prepareChartData [moodEvening; moodMorning].
Proof.
  split_and!; [apply Permutation_swap|by vm_compute..|].
  intros E. apply (f_equal (λ o, MoodTracker.x <$> default [] o)) in E.
  vm_compute in E. discriminate.
Qed.

(** The averages follow the order too once the additions round: a rating
    of 2^53 followed by two ratings of 1 adds up to 2^53, the same three
    in the other order to 2^53 + 2. *)
Example chart_average_depends_on_order_of_huge_ratings :
  [moodHuge; moodOne; moodOne] ≡ₚ [moodOne; moodOne; moodHuge]
  ∧ sumFrom (Number_of_Z 0)
      (MoodTracker.moodValue <$> [moodHuge; moodOne; moodOne])
    = Number_of_Z (2 ^ 53)
  ∧ sumFrom (Number_of_Z 0)
      (MoodTracker.moodValue <$> [moodOne; moodOne; moodHuge])
    = Number_of_Z (2 ^ 53 + 2)
  ∧ bucketByDay [moodHuge; moodOne; moodOne]
    ≠ bucketByDay [moodOne; moodOne; moodHuge].
Proof.
  split_and!; [|by vm_compute..|].
  - etrans; [apply Permutation_swap|]. apply perm_skip, Permutation_swap.
  - intros E. vm_compute in E. discriminate.
Qed.

Lemma isoDate_2024_01_01 : isoDate 19723 = "2024-01-01".
Proof. by vm_compute. Qed.

Lemma isoDate_2024_01_02 : isoDate 19724 = "2024-01-02".
Proof. by vm_compute. Qed.

(** C8.  Two moods recorded on 2024-01-01 with ratings 2 and 4 and one
    recorded on 2024-01-02 with rating 5, in any order and at any time of
    these days, give the two days in this order, the older first, with
    the averages 3.00 and 5.00; each average is the mean of the ratings of
    its day to two decimals, and the points of the chart carry these
    averages. *)
Theorem two_days_scenario (l : list MoodTracker.Mood)
    (m1 m2 m3 : MoodTracker.Mood) (t1 t2 t3 : Z) :
  l ≡ₚ [m1; m2; m3] →
  MoodTracker.moodDate m1 = Some t1 → Day t1 = 19723 →
  MoodTracker.moodValue m1 = Number_of_Z 2 →
  MoodTracker.moodDate m2 = Some t2 → Day t2 = 19723 →
  MoodTracker.moodValue m2 = Number_of_Z 4 →
  MoodTracker.moodDate m3 = Some t3 → Day t3 = 19724 →
  MoodTracker.moodValue m3 = Number_of_Z 5 →
  bucketByDay l
  = Some [("2024-01-01", Dec2 300); ("2024-01-02", Dec2 500)]
  ∧ timeOfKey "2024-01-01" < timeOfKey "2024-01-02"
  ∧ Forall (λ b : string * Decimal2,
      b.2 = toFixed2
              (Number_div
                 (Number_of_Z (sumZ (integersOn b.1 l)))
                 (Number_of_Z (Z.of_nat (length (integersOn b.1 l))))))
      [("2024-01-01", Dec2 300); ("2024-01-02", Dec2 500)]
  ∧ ∃ p1 p2, MoodTracker.prepareChartData l = Some [p1; p2]
      ∧ MoodTracker.y p1 = Dec2 300 ∧ MoodTracker.y p2 = Dec2 500
      ∧ MoodTracker.dateStringOf (MoodTracker.x p1) = "2024-01-01"
      ∧ MoodTracker.dateStringOf (MoodTracker.x p2) = "2024-01-02".
Proof.
  intros Hp Hd1 Hday1 Hv1 Hd2 Hday2 Hv2 Hd3 Hday3 Hv3.
  assert (Hi : integerRatings l).
  { apply (integerRatings_Permutation [m1; m2; m3]); [done|].
    unfold integerRatings, ratingOf. split.
    - apply Forall_cons_2;
        [rewrite Hv1, Number_toZ_of_Z by lia; by split; [cbn; lia|]|].
      apply Forall_cons_2;
        [rewrite Hv2, Number_toZ_of_Z by lia; by split; [cbn; lia|]|].
      apply Forall_cons_2;
        [rewrite Hv3, Number_toZ_of_Z by lia; by split; [cbn; lia|]|].
      apply Forall_nil_2.
    - cbn [fmap list_fmap].
      rewrite Hv1, Hv2, Hv3, !Number_toZ_of_Z by lia. by vm_compute. }
  assert (Hb : bucketByDay l
               = Some [("2024-01-01", Dec2 300); ("2024-01-02", Dec2 500)]).
  { rewrite (proj1 (proj2 (chart_Permutation l [m1; m2; m3] Hp) Hi)).
    unfold bucketByDay, MoodTracker.forEach, MoodTracker.addMood.
    rewrite Hd1, Hd2, Hd3. cbn [mbind option_bind].
    rewrite !dateStringOf_isoDate, Hday1, Hday2, Hday3, Hv1, Hv2, Hv3.
    rewrite isoDate_2024_01_01, isoDate_2024_01_02.
    by vm_compute. }
  split; [done|]. split; [by vm_compute|]. split.
  { by apply bucketByDay_integer_means. }
  destruct (prepareChartData_is_Some l) as [[pts Hpts] _].
  { rewrite Hp. repeat constructor; by eexists. }
  pose proof (chart_points_on_their_days l pts _ Hpts Hb) as HF.
  apply Forall2_cons_inv_r in HF as (p1 & pts1 & [Hx1 Hy1] & HF & ->).
  apply Forall2_cons_inv_r in HF as (p2 & pts2 & [Hx2 Hy2] & HF & ->).
  apply Forall2_nil_inv_r in HF as ->.
  by exists p1, p2.
Qed.

Lemma two_days_scenario_witness :
  bucketByDay [moodNextDay; moodEvening; moodMorning]
  = Some [("2024-01-01", Dec2 300); ("2024-01-02", Dec2 500)].
Proof.
  apply (two_days_scenario [moodNextDay; moodEvening; moodMorning]
           moodMorning moodEvening moodNextDay
           1704096000000 1704139200000 1704190000000).
  - etrans; [apply Permutation_swap|].
    etrans; [apply perm_skip, Permutation_swap|]. apply Permutation_swap.
  - reflexivity.
  - reflexivity.
  - reflexivity.
  - reflexivity.
  - reflexivity.
  - reflexivity.
  - reflexivity.
  - reflexivity.
  - reflexivity.
Defined.



(** Two moods half an hour before and after a UTC midnight share their
    date five hours behind UTC and still fall into two buckets. *)
Lemma midnight_splits_buckets :
  Day (LocalTime fiveHoursBehind 1704151800000)
  = Day (LocalTime fiveHoursBehind 1704155400000)
  ∧ bucketByDay [moodBeforeMidnight; moodAfterMidnight]
    = Some [("2024-01-01", Dec2 300); ("2024-01-02", Dec2 300)].
Proof. by vm_compute. Qed.

(** ** The bearer token *)

Lemma split_go_no_sep (sep cur s : string) :
  occurs sep s = false → split_go sep 0 cur s = [cur +:+ s].
Proof.
  revert cur. induction s as [|c s IH]; intros cur H.
  - cbn. by rewrite append_nil_r.
  - cbn [occurs] in H. apply orb_false_iff in H as [Hp Ho].
    cbn [split_go]. rewrite Hp, (IH _ Ho). f_equal.
    by rewrite append_assoc.
Qed.

Lemma split_go_skip (sep a q cur : string) :
  split_go sep (String.length a) cur (a +:+ q) = split_go sep 0 cur q.
Proof.
  induction a as [|x a IH]; [by destruct q|]. exact IH.
Qed.

Lemma prefix_append (a q : string) : String.prefix a (a +:+ q) = true.
Proof.
  induction a as [|x a IH]; [by destruct q|].
  rewrite append_cons. cbn [String.prefix].
  destruct (ascii_dec x x); [exact IH|done].
Qed.

Lemma split_go_first (c : ascii) (sep p q cur : string) :
  lacks c p = true →
  split_go (String c sep) 0 cur (p +:+ String c sep +:+ q)
  = (cur +:+ p) :: split_go (String c sep) 0 "" q.
Proof.
  revert cur. induction p as [|x p IH]; intros cur H.
  - change ("" +:+ String c sep +:+ q) with (String c (sep +:+ q)).
    cbn [split_go].
    pose proof (prefix_append (String c sep) q) as Hpre.
    rewrite append_cons in Hpre. rewrite Hpre.
    rewrite append_nil_r. f_equal.
    cbn [String.length]. rewrite Nat.sub_1_r. cbn [Nat.pred].
    apply split_go_skip.
  - cbn [lacks] in H. apply andb_true_iff in H as [Hx Hp].
    change (String x p +:+ String c sep +:+ q)
      with (String x (p +:+ String c sep +:+ q)).
    cbn [split_go].
    replace (String.prefix (String c sep) (String x (p +:+ String c sep +:+ q)))
      with false.
    + rewrite (IH _ Hp). f_equal. by rewrite append_assoc.
    + cbn [String.prefix]. destruct (ascii_dec c x) as [->|]; [|done].
      by rewrite Ascii.eqb_refl in Hx.
Qed.

Lemma prefix_append_mono (sep a b : string) :
  String.prefix sep a = true → String.prefix sep (a +:+ b) = true.
Proof.
  revert a. induction sep as [|x sep IH]; intros a;
    [by destruct (a +:+ b)|].
  destruct a as [|y a]; [done|]. rewrite append_cons. cbn [String.prefix].
  destruct (ascii_dec x y); [apply IH|done].
Qed.

Lemma prefix_append_long (sep a b : string) :
  (String.length sep ≤ String.length a)%nat →
  String.prefix sep (a +:+ b) = String.prefix sep a.
Proof.
  revert a. induction sep as [|x sep IH]; intros a Hl;
    [by destruct (a +:+ b), a|].
  destruct a as [|y a]; [cbn in Hl; lia|].
  rewrite append_cons. cbn [String.prefix].
  destruct (ascii_dec x y); [apply IH; cbn in Hl; lia|done].
Qed.

Lemma occurs_append_false (sep a b : string) :
  occurs sep (a +:+ b) = false → occurs sep a = false.
Proof.
  induction a as [|x a IH]; [done|].
  rewrite append_cons. cbn [occurs]. intros [Hp Ho]%orb_false_iff.
  rewrite (IH Ho), orb_false_r.
  destruct (String.prefix sep (String x a)) eqn:E; [|done].
  apply (prefix_append_mono _ _ b) in E. rewrite append_cons in E. congruence.
Qed.

Lemma length_append_r (a b : string) :
  (String.length b ≤ String.length (a +:+ b))%nat.
Proof.
  induction a as [|x a IH]; [by rewrite append_nil_l|].
  rewrite append_cons. cbn [String.length]. lia.
Qed.

(** The piece before the first ["Bearer "]. *)
Lemma split_go_first_bearer (p q cur : string) :
  occurs "Bearer " (p +:+ "Bearer") = false →
  split_go "Bearer " 0 cur (p +:+ "Bearer " +:+ q)
  = (cur +:+ p) :: split_go "Bearer " 0 "" q.
Proof.
  revert cur. induction p as [|x p IH]; intros cur H.
  - rewrite append_nil_l in H |- *.
    apply (split_go_first "B" "earer " "" q cur). done.
  - rewrite append_cons in H. cbn [occurs] in H.
    apply orb_false_iff in H as [Hpre Ho].
    rewrite append_cons. cbn [split_go].
    assert (Hcut : String.prefix "Bearer "
                     (String x (p +:+ "Bearer " +:+ q)) = false).
    { replace (String x (p +:+ "Bearer " +:+ q))
        with (String x (p +:+ "Bearer") +:+ (" " +:+ q)).
      - rewrite prefix_append_long; [done|].
        cbn [String.length].
        pose proof (length_append_r p "Bearer") as Hl. cbn in Hl |- *. lia.
      - rewrite append_cons. f_equal. by rewrite append_assoc. }
    rewrite Hcut, (IH _ Ho). f_equal. by rewrite append_assoc.
Qed.

Lemma bearer_token (p t rest : string) :
  occurs "Bearer " (p +:+ "Bearer") = false →
  (rest = "" ∧ occurs "Bearer " t = false)
  ∨ (∃ rest', rest = "Bearer " +:+ rest'
              ∧ occurs "Bearer " (t +:+ "Bearer") = false) →
  split "Bearer " (p +:+ "Bearer " +:+ t +:+ rest) !! 1%nat = Some t.
Proof.
  intros Hp Hrest. unfold split.
  rewrite (split_go_first_bearer p (t +:+ rest) "" Hp).
  destruct Hrest as [[-> Ht] | (rest' & -> & Ht)].
  - rewrite append_nil_r. by rewrite (split_go_no_sep _ _ _ Ht).
  - by rewrite (split_go_first_bearer t rest' "" Ht).
Qed.

Lemma no_bearer_token (h : string) :
  occurs "Bearer " h = false → split "Bearer " h !! 1%nat = None.
Proof.
  intros H. unfold split. by rewrite (split_go_no_sep _ _ _ H).
Qed.

(** X1.  The middleware takes as token what stands between the first
    ["Bearer "] of the header and the next one, or the end of the header
    when there is no other: the scheme need not stand at the start of the
    header, and a second scheme cuts the token short.  A token the
    verifier knows hands its subject to the route; any other is answered
    401 "Invalid token", and an empty one 401 "No token provided", with the
    collection as it was. *)
Theorem middleware_reads_token_after_scheme X req next env c p t rest :
  authorization req = Some (p +:+ "Bearer " +:+ t +:+ rest) →
  occurs "Bearer " (p +:+ "Bearer") = false →
  (rest = "" ∧ occurs "Bearer " t = false)
  ∨ (∃ rest', rest = "Bearer " +:+ rest'
              ∧ occurs "Bearer " (t +:+ "Bearer") = false) →
  verifyFirebaseIdToken X req next env c
  = if String.eqb t ""
    then (mkResponse 401 (Message "No token provided"), c)
    else match verifyIdToken X t with
         | Some decodedToken => next (uid decodedToken) env c
         | None => (mkResponse 401 (Message "Invalid token"), c)
         end.
Proof.
  intros Hh Hp Hrest. unfold verifyFirebaseIdToken. rewrite Hh.
  cbn [mbind option_bind]. rewrite (bearer_token p t rest Hp Hrest).
  destruct (String.eqb t ""); [done|].
  by destruct (verifyIdToken X t).
Qed.

Lemma middleware_reads_token_after_scheme_witness :
  verifyFirebaseIdToken exampleX
    (headerRequest (Some "Token x, Bearer token-alice"))
    (λ u, Routes.delete u (headerRequest (Some "Token x, Bearer token-alice")))
    exampleEnv exampleCollection
  = (mkResponse 204 NoContent, ∅)
  ∧ verifyFirebaseIdToken exampleX
      (headerRequest (Some "Bearer token-alice Bearer token-bob"))
      (λ u, Routes.delete u
              (headerRequest (Some "Bearer token-alice Bearer token-bob")))
      exampleEnv exampleCollection
    = (mkResponse 401 (Message "Invalid token"), exampleCollection).
Proof.
  split.
  - rewrite (middleware_reads_token_after_scheme exampleX _ _ exampleEnv
               exampleCollection "Token x, " "token-alice" "");
      [|reflexivity|reflexivity|by left].
    by vm_compute.
  - rewrite (middleware_reads_token_after_scheme exampleX _ _ exampleEnv
               exampleCollection "" "token-alice " "Bearer token-bob");
      [|reflexivity|reflexivity|right; by exists "token-bob"].
    by vm_compute.
Defined.

(** X2.  A request without an [Authorization] header, or with one in
    which ["Bearer "] does not occur (a lower-case scheme, say), is
    answered 401 "No token provided" by every route of both servers, and
    the collection stays as it was. *)
Theorem no_bearer_scheme_is_401 X req env c :
  match authorization req with
  | Some h => occurs "Bearer " h = false
  | None => True
  end →
  Forall (λ route : Request → Handler,
            route req env c
            = (mkResponse 401 (Message "No token provided"), c))
    [Server.submit X; Server.listRecent X; Server.update X; Server.delete X;
     InlineServer.submit X; InlineServer.listRecent X].
Proof.
  intros H.
  assert (Hv : ∀ next, verifyFirebaseIdToken X req next env c
                = (mkResponse 401 (Message "No token provided"), c)).
  { intros next. unfold verifyFirebaseIdToken.
    destruct (authorization req) as [h|]; cbn [mbind option_bind]; [|done].
    by rewrite (no_bearer_token h H). }
  repeat constructor; apply Hv.
Qed.

Lemma no_bearer_scheme_is_401_witness :
  Forall (λ route : Request → Handler,
            route (headerRequest (Some "bearer token-alice")) exampleEnv
              exampleCollection
            = (mkResponse 401 (Message "No token provided"),
               exampleCollection))
    [Server.submit exampleX; Server.listRecent exampleX;
     Server.update exampleX; Server.delete exampleX;
     InlineServer.submit exampleX; InlineServer.listRecent exampleX].
Proof.
  apply (no_bearer_scheme_is_401 exampleX
           (headerRequest (Some "bearer token-alice"))).
  reflexivity.
Defined.

(** X3.  A request whose token is missing or not verified gets 401 from
    every route of both servers, and no route changes the collection. *)
Theorem unverified_request_changes_nothing X req env c :
  callerOf X req = None →
  Forall (λ route : Request → Handler,
            status (route req env c).1 = 401 ∧ (route req env c).2 = c)
    [Server.submit X; Server.listRecent X; Server.update X; Server.delete X;
     InlineServer.submit X; InlineServer.listRecent X].
Proof.
  intros H. repeat constructor; apply (verify_no_caller X); exact H.
Qed.

Lemma unverified_request_changes_nothing_witness :
  Forall (λ route : Request → Handler,
            status (route (headerRequest (Some "Bearer token-carol"))
                      exampleEnv exampleCollection).1 = 401
            ∧ (route (headerRequest (Some "Bearer token-carol"))
                 exampleEnv exampleCollection).2 = exampleCollection)
    [Server.submit exampleX; Server.listRecent exampleX;
     Server.update exampleX; Server.delete exampleX;
     InlineServer.submit exampleX; InlineServer.listRecent exampleX].
Proof.
  apply (unverified_request_changes_nothing exampleX
           (headerRequest (Some "Bearer token-carol"))).
  reflexivity.
Defined.

(** ** Entries that are not there, and entries that are removed *)

(** X4.  Updating or deleting an id that is not in the collection is
    answered 404 "Mood entry not found." for every verified caller: the
    entry is looked up before its owner is compared.  The collection stays
    as it was. *)
Theorem missing_entry_is_404 X req env c u :
  callerOf X req = Some u →
  c !! params_id req = None →
  Server.update X req env c
  = (mkResponse 404 (Message "Mood entry not found."), c)
  ∧ Server.delete X req env c
    = (mkResponse 404 (Message "Mood entry not found."), c).
Proof.
  intros Hu Hid.
  rewrite (Server_update_caller X req u Hu), (Server_delete_caller X req u Hu).
  unfold Routes.put, Routes.delete. by rewrite Hid.
Qed.

Lemma missing_entry_is_404_witness :
  Server.update exampleX (aliceRequest [("moodValue", JInt 2)] "m7")
    exampleEnv exampleCollection
  = (mkResponse 404 (Message "Mood entry not found."), exampleCollection)
  ∧ Server.delete exampleX (aliceRequest [("moodValue", JInt 2)] "m7")
      exampleEnv exampleCollection
    = (mkResponse 404 (Message "Mood entry not found."), exampleCollection).
Proof.
  apply (missing_entry_is_404 exampleX _ exampleEnv exampleCollection "alice");
    reflexivity.
Defined.

(** X5.  When the owner deletes an entry the answer is 204, the entry is
    gone and every other entry is as it was; whoever updates or deletes
    that id afterwards is answered 404. *)
Theorem deleted_entry_is_gone X req env c u e :
  callerOf X req = Some u →
  c !! params_id req = Some e →
  userId e = u →
  let c' := (Server.delete X req env c).2 in
  (Server.delete X req env c).1 = mkResponse 204 NoContent
  ∧ c' !! params_id req = None
  ∧ (∀ id, id ≠ params_id req → c' !! id = c !! id)
  ∧ (∀ req' env' u',
       callerOf X req' = Some u' → params_id req' = params_id req →
       status (Server.update X req' env' c').1 = 404
       ∧ status (Server.delete X req' env' c').1 = 404
       ∧ (Server.update X req' env' c').2 = c'
       ∧ (Server.delete X req' env' c').2 = c').
Proof.
  intros Hu He Hown c'.
  assert (Hc' : Server.delete X req env c
                = (mkResponse 204 NoContent, base.delete (params_id req) c)).
  { rewrite (Server_delete_caller X req u Hu). unfold Routes.delete.
    rewrite He, Hown, String.eqb_refl. done. }
  subst c'. rewrite Hc'. cbn [fst snd].
  split_and!; [done|apply lookup_delete_eq| |].
  - intros id Hid. by apply lookup_delete_ne.
  - intros req' env' u' Hu' Hid.
    rewrite (Server_update_caller X req' u' Hu').
    rewrite (Server_delete_caller X req' u' Hu').
    unfold Routes.put, Routes.delete. rewrite Hid, lookup_delete_eq. done.
Qed.

Lemma deleted_entry_is_gone_witness :
  (Server.delete exampleX (aliceRequest [] "m1") exampleEnv
     exampleCollection).1
  = mkResponse 204 NoContent.
Proof.
  apply (deleted_entry_is_gone exampleX (aliceRequest [] "m1") exampleEnv
           exampleCollection "alice"
           (mkMoodDoc "alice" (Int 3) (JStr "fine") (mkTimestamp 1704067200 0)));
    reflexivity.
Defined.

(** ** What a request can touch *)

Lemma verify_lookup X req next env (c : Collection) id :
  (∀ u, (next u env c).2 !! id = c !! id) →
  (verifyFirebaseIdToken X req next env c).2 !! id = c !! id.
Proof.
  intros H.
  apply (verify_preserves X (λ c', c' !! id = c !! id)); [done|exact H].
Qed.

Lemma Routes_post_lookup X u req env c id :
  id ≠ autoId env ∨ is_Some (c !! id) →
  (Routes.post X u req env c).2 !! id = c !! id.
Proof.
  intros H. unfold Routes.post.
  destruct (truthy (body req !! "moodValue")); cbn [negb]; [|done].
  destruct (body req !! "recordedAt") as [v|]; [|done].
  destruct (truthy (Some v)); cbn [negb]; [|done].
  destruct (parseInt (body req !! "moodValue")); [|done].
  destruct (Timestamp_fromDate X (new_Date X v)); [|done].
  cbn [snd]. unfold collection_add.
  destruct (c !! autoId env) eqn:E; [done|]. cbn [default].
  apply lookup_insert_ne. destruct H as [H|[d H]]; congruence.
Qed.

Lemma InlineServer_post_lookup u req env c id :
  id ≠ autoId env ∨ is_Some (c !! id) →
  (InlineServer.post u req env c).2 !! id = c !! id.
Proof.
  intros H. unfold InlineServer.post.
  destruct (truthy (body req !! "moodValue")); cbn [negb]; [|done].
  destruct (parseInt (body req !! "moodValue")); [|done].
  unfold collection_add.
  destruct (c !! autoId env) eqn:E; [done|]. cbn [snd].
  apply lookup_insert_ne. destruct H as [H|[d H]]; congruence.
Qed.

Lemma Routes_put_lookup X u req env c id :
  id ≠ params_id req →
  (Routes.put X u req env c).2 !! id = c !! id.
Proof.
  intros H. unfold Routes.put.
  destruct (c !! params_id req) as [e|]; [|done].
  destruct (negb _); [done|].
  destruct (Routes.buildUpdateData X req) as [data|]; [|done].
  destruct (update_accepts X data); [|done].
  cbn [snd]. by apply lookup_insert_ne.
Qed.

Lemma Routes_delete_lookup u req env c id :
  id ≠ params_id req →
  (Routes.delete u req env c).2 !! id = c !! id.
Proof.
  intros H. unfold Routes.delete.
  destruct (c !! params_id req) as [e|]; [|done].
  destruct (negb _); [done|].
  cbn [snd]. by apply lookup_delete_ne.
Qed.

Lemma get_recent_unchanged X u req env c :
  (Routes.get_recent X u req env c).2 = c
  ∧ (InlineServer.get_recent X u req env c).2 = c.
Proof.
  unfold Routes.get_recent, InlineServer.get_recent.
  split; by destruct (Timestamp_fromDate X _).
Qed.

(** X6.  Each request touches at most one entry.  A submit leaves every
    entry that exists as it is and can only fill the id the store
    generates; an update or a delete leaves every entry but the one named
    in the path as it is; a listing leaves the whole collection as it is.
    This holds whoever the caller is and whatever the answer. *)
Theorem requests_touch_one_entry X req env c :
  (∀ id, id ≠ autoId env ∨ is_Some (c !! id) →
     (Server.submit X req env c).2 !! id = c !! id
     ∧ (InlineServer.submit X req env c).2 !! id = c !! id)
  ∧ (∀ id, id ≠ params_id req →
       (Server.update X req env c).2 !! id = c !! id
       ∧ (Server.delete X req env c).2 !! id = c !! id)
  ∧ (Server.listRecent X req env c).2 = c
  ∧ (InlineServer.listRecent X req env c).2 = c.
Proof.
  split_and!.
  - intros id H. split.
    + unfold Server.submit, Server.mount, Routes.router_post.
      apply verify_lookup. intros _. apply verify_lookup. intros u.
      by apply Routes_post_lookup.
    + unfold InlineServer.submit. apply verify_lookup. intros u.
      by apply InlineServer_post_lookup.
  - intros id H. split.
    + unfold Server.update, Server.mount, Routes.router_put.
      apply verify_lookup. intros _. apply verify_lookup. intros u.
      by apply Routes_put_lookup.
    + unfold Server.delete, Server.mount, Routes.router_delete.
      apply verify_lookup. intros _. apply verify_lookup. intros u.
      by apply Routes_delete_lookup.
  - unfold Server.listRecent, Server.mount, Routes.router_get_recent.
    apply (verify_preserves X (λ c', c' = c)); [done|]. intros _.
    apply (verify_preserves X (λ c', c' = c)); [done|]. intros u.
    apply get_recent_unchanged.
  - unfold InlineServer.listRecent.
    apply (verify_preserves X (λ c', c' = c)); [done|]. intros u.
    apply get_recent_unchanged.
Qed.

Lemma Routes_put_entry X u req env c id d d' :
  c !! id = Some d → (Routes.put X u req env c).2 !! id = Some d' →
  userId d' = userId d.
Proof.
  intros Hd. destruct (decide (id = params_id req)) as [->|Hne].
  - unfold Routes.put. rewrite Hd.
    destruct (negb _); [cbn; congruence|].
    destruct (Routes.buildUpdateData X req) as [data|]; [|cbn; congruence].
    destruct (update_accepts X data); [|cbn; congruence].
    cbn [snd]. rewrite lookup_insert_eq. by intros [= <-].
  - rewrite (Routes_put_lookup X u req env c id Hne). congruence.
Qed.

Lemma Routes_put_is_Some X u req env c id :
  is_Some ((Routes.put X u req env c).2 !! id) ↔ is_Some (c !! id).
Proof.
  destruct (decide (id = params_id req)) as [->|Hne].
  - unfold Routes.put. destruct (c !! params_id req) as [e|] eqn:He;
      [|cbn; by rewrite He].
    destruct (negb _); [cbn; by rewrite He|].
    destruct (Routes.buildUpdateData X req) as [data|]; [|cbn; by rewrite He].
    destruct (update_accepts X data); [|cbn; by rewrite He].
    cbn [snd]. rewrite lookup_insert_eq. by split; eauto.
  - by rewrite (Routes_put_lookup X u req env c id Hne).
Qed.

(** X7.  No request changes the owner of an entry: an entry that is in
    the collection before and after a submit, an update or a delete, by
    whatever caller and with whatever body, has the owner it had.  An
    update moreover neither creates nor removes an entry. *)
Theorem owner_never_changes X req env c id d d' :
  c !! id = Some d →
  Forall (λ route : Request → Handler,
            (route req env c).2 !! id = Some d' → userId d' = userId d)
    [Server.submit X; InlineServer.submit X; Server.update X;
     Server.delete X]
  ∧ (∀ id', is_Some ((Server.update X req env c).2 !! id')
            ↔ is_Some (c !! id')).
Proof.
  intros Hd.
  split.
  - repeat constructor.
    + unfold Server.submit, Server.mount, Routes.router_post.
      rewrite verify_lookup; [congruence|]. intros _.
      apply verify_lookup. intros u. apply Routes_post_lookup. eauto.
    + unfold InlineServer.submit.
      rewrite verify_lookup; [congruence|]. intros u.
      apply InlineServer_post_lookup. eauto.
    + unfold Server.update, Server.mount, Routes.router_put.
      apply (verify_preserves X
               (λ c', c' !! id = Some d' → userId d' = userId d));
        [congruence|]. intros _.
      apply (verify_preserves X
               (λ c', c' !! id = Some d' → userId d' = userId d));
        [congruence|]. intros u.
      by apply Routes_put_entry.
    + unfold Server.delete, Server.mount, Routes.router_delete.
      apply (verify_preserves X
               (λ c', c' !! id = Some d' → userId d' = userId d));
        [congruence|]. intros _.
      apply (verify_preserves X
               (λ c', c' !! id = Some d' → userId d' = userId d));
        [congruence|]. intros u.
      destruct (decide (id = params_id req)) as [->|Hne].
      * unfold Routes.delete. rewrite Hd.
        destruct (negb _); [cbn; congruence|].
        cbn [snd]. by rewrite lookup_delete_eq.
      * rewrite (Routes_delete_lookup u req env c id Hne). congruence.
  - intros id'. unfold Server.update, Server.mount, Routes.router_put.
    apply (verify_preserves X
             (λ c', is_Some (c' !! id') ↔ is_Some (c !! id'))); [done|].
    intros _.
    apply (verify_preserves X
             (λ c', is_Some (c' !! id') ↔ is_Some (c !! id'))); [done|].
    intros u. apply Routes_put_is_Some.
Qed.

Lemma owner_never_changes_witness :
  Forall (λ route : Request → Handler,
            (route updateByBob exampleEnv exampleCollection).2 !! "m1"
            = Some (mkMoodDoc "alice" (Int 3) (JStr "fine")
                      (mkTimestamp 1704067200 0)) →
            userId (mkMoodDoc "alice" (Int 3) (JStr "fine")
                      (mkTimestamp 1704067200 0))
            = userId (mkMoodDoc "alice" (Int 3) (JStr "fine")
                        (mkTimestamp 1704067200 0)))
    [Server.submit exampleX; InlineServer.submit exampleX;
     Server.update exampleX; Server.delete exampleX].
Proof.
  apply (owner_never_changes exampleX updateByBob exampleEnv
           exampleCollection "m1"
           (mkMoodDoc "alice" (Int 3) (JStr "fine") (mkTimestamp 1704067200 0))
           (mkMoodDoc "alice" (Int 3) (JStr "fine") (mkTimestamp 1704067200 0))).
  reflexivity.
Defined.

(** ** Listing *)

(** X8.  In the older server, whose submit waits for the write before it
    answers: after a submit that was answered 201, a listing for the same
    caller is answered 200 and holds the new entry, with the caller as
    owner, the rating as [parseInt] read it and the timestamp of the store,
    exactly when that timestamp is at or after the cutoff of the listing;
    the other entries are listed as they would have been before the
    submit. *)
Theorem submit_then_listRecent X req req' env env' c u cutoff :
  callerOf X req = Some u →
  callerOf X req' = Some u →
  status (InlineServer.submit X req env c).1 = 201 →
  Timestamp_fromDate X
    (Routes.cutOffDate X (parseInt_string (Routes.daysParam req' "7")) env')
  = Some cutoff →
  let c' := (InlineServer.submit X req env c).2 in
  ∃ d moods,
    c !! autoId env = None
    ∧ c' !! autoId env = Some d
    ∧ userId d = u
    ∧ parseInt (body req !! "moodValue") = Some (moodValue d)
    ∧ recordedAt d = serverTimestamp env
    ∧ InlineServer.listRecent X req' env' c'
      = (mkResponse 200 (Moods moods), c')
    ∧ ((autoId env, d) ∈ moods
       ↔ Timestamp_leb cutoff (serverTimestamp env) = true)
    ∧ (∀ id e, id ≠ autoId env →
         ((id, e) ∈ moods ↔ (id, e) ∈ query_recent u cutoff c)).
Proof.
  intros Hu Hu' H201 Hcut c'. subst c'.
  rewrite (InlineServer_submit_caller X req u Hu) in *.
  rewrite (InlineServer_listRecent_caller X req' u Hu').
  unfold InlineServer.get_recent. rewrite Hcut.
  revert H201. unfold InlineServer.post.
  destruct (truthy (body req !! "moodValue")); cbn [negb]; [|done].
  destruct (parseInt (body req !! "moodValue")) as [rating|]; [|done].
  unfold collection_add.
  destruct (c !! autoId env) eqn:Hfree; [done|].
  intros _. cbn [snd].
  eexists _, _.
  split_and!; [done|apply lookup_insert_eq|done|done|done|done| |].
  - rewrite query_recent_elem, lookup_insert_eq. cbn.
    split; [by intros (_&_&?)|by intros ?].
  - intros id e Hid. rewrite !query_recent_elem.
    by rewrite lookup_insert_ne by done.
Qed.

Lemma submit_then_listRecent_witness :
  ∃ d moods,
    exampleCollection !! autoId exampleEnv = None
    ∧ (InlineServer.submit exampleX submitPlain exampleEnv exampleCollection).2
        !! "m2" = Some d
    ∧ userId d = "alice"
    ∧ parseInt (body submitPlain !! "moodValue") = Some (moodValue d)
    ∧ recordedAt d = serverTimestamp exampleEnv
    ∧ InlineServer.listRecent exampleX recentRequest exampleEnv
        (InlineServer.submit exampleX submitPlain exampleEnv
           exampleCollection).2
      = (mkResponse 200 (Moods moods),
         (InlineServer.submit exampleX submitPlain exampleEnv
            exampleCollection).2)
    ∧ (("m2", d) ∈ moods
       ↔ Timestamp_leb (mkTimestamp 1703548800 0)
           (serverTimestamp exampleEnv) = true)
    ∧ (∀ id e, id ≠ "m2" →
         ((id, e) ∈ moods
          ↔ (id, e) ∈ query_recent "alice" (mkTimestamp 1703548800 0)
                        exampleCollection)).
Proof.
  apply (submit_then_listRecent exampleX submitPlain recentRequest exampleEnv
           exampleEnv exampleCollection "alice" (mkTimestamp 1703548800 0));
    reflexivity.
Defined.

(** X9.  A listing never answers with a status other than 200, 401 or
    500.  When the [days] parameter of a verified caller has no leading
    integer, the cutoff is an Invalid Date, the store cannot take it, and
    both servers answer 500. *)
Theorem listRecent_without_a_number_is_500 X req env c u s :
  callerOf X req = Some u →
  query_days req = Some s →
  s ≠ "" →
  parseInt_string s = NaN →
  (Server.listRecent X req env c
   = (mkResponse 500 (Error "Internal Server Error while fetching moods."), c)
   ∧ InlineServer.listRecent X req env c
     = (mkResponse 500 (Error "Internal Server Error while fetching moods."),
        c))
  ∧ (∀ req' env' c',
       status (Server.listRecent X req' env' c').1 ∈ [200; 401; 500]
       ∧ status (InlineServer.listRecent X req' env' c').1 ∈ [200; 401; 500]).
Proof.
  intros Hu Hq Hs Hn. split.
  - rewrite (Server_listRecent_caller X req u Hu).
    rewrite (InlineServer_listRecent_caller X req u Hu).
    unfold Routes.get_recent, InlineServer.get_recent, Routes.daysParam.
    rewrite Hq. apply String.eqb_neq in Hs. rewrite Hs, Hn. done.
  - intros req' env' c'.
    assert (Hv : ∀ next,
              (∀ v, status (next v env' c').1 ∈ [200; 401; 500]) →
              status (verifyFirebaseIdToken X req' next env' c').1
              ∈ [200; 401; 500]).
    { intros next Hnext. unfold verifyFirebaseIdToken.
      destruct (authorization req' ≫= _) as [t|];
        [|cbn; repeat constructor].
      destruct (String.eqb t ""); [cbn; repeat constructor|].
      destruct (verifyIdToken X t); [apply Hnext|cbn; repeat constructor]. }
    split.
    + unfold Server.listRecent, Server.mount, Routes.router_get_recent.
      apply Hv. intros _. apply Hv. intros v. unfold Routes.get_recent.
      destruct (Timestamp_fromDate X _); cbn; repeat constructor.
    + unfold InlineServer.listRecent.
      apply Hv. intros v. unfold InlineServer.get_recent.
      destruct (Timestamp_fromDate X _); cbn; repeat constructor.
Qed.

Lemma listRecent_without_a_number_is_500_witness :
  Server.listRecent exampleX (withDays (Some "a week") recentRequest)
    exampleEnv exampleCollection
  = (mkResponse 500 (Error "Internal Server Error while fetching moods."),
     exampleCollection).
Proof.
  apply (listRecent_without_a_number_is_500 exampleX
           (withDays (Some "a week") recentRequest) exampleEnv
           exampleCollection "alice" "a week");
    [reflexivity|reflexivity|discriminate|reflexivity].
Defined.

(** White space that [parseInt] skips is all of the white space of the
    language: a no-break space before the digits leaves the number of days
    readable. *)
Example days_after_no_break_space :
  parseInt_string
    (String (ascii_of_nat 194) (String (ascii_of_nat 160) "7")) = Int 7
  ∧ parseInt_string (String (ascii_of_nat 194) "7") = NaN.
Proof. by vm_compute. Qed.

(** X10.  A listing whose [days] parameter is absent or empty is answered
    as one for 30 days by the router and as one for 7 days by the older
    server. *)
Theorem listRecent_default_days X req env c :
  query_days req = None ∨ query_days req = Some "" →
  Server.listRecent X req env c
  = Server.listRecent X (withDays (Some "30") req) env c
  ∧ InlineServer.listRecent X req env c
    = InlineServer.listRecent X (withDays (Some "7") req) env c.
Proof.
  intros H.
  assert (Hd : ∀ fallback,
            Routes.daysParam req fallback
            = Routes.daysParam (withDays (Some fallback) req) fallback).
  { intros fallback. unfold Routes.daysParam, withDays. cbn.
    destruct H as [-> | ->]; cbn; by destruct (String.eqb fallback ""). }
  unfold Server.listRecent, Server.mount, Routes.router_get_recent,
    InlineServer.listRecent, verifyFirebaseIdToken,
    Routes.get_recent, InlineServer.get_recent.
  rewrite <- !Hd. done.
Qed.

Lemma listRecent_default_days_witness :
  Server.listRecent exampleX (withDays None recentRequest) exampleEnv
    exampleCollection
  = Server.listRecent exampleX
      (withDays (Some "30") (withDays None recentRequest)) exampleEnv
      exampleCollection.
Proof.
  apply (listRecent_default_days exampleX (withDays None recentRequest)
           exampleEnv exampleCollection).
  by left.
Defined.

(** ** Ratings written as text *)

Lemma pretty_Z_not_empty (z : Z) (rest : string) :
  z ≠ 0 → pretty z +:+ rest ≠ "".
Proof.
  intros Hz. destruct z as [|p|p]; [done| |].
  - destruct (pretty_Z_pos p) as (-> & _ & _).
    destruct (pretty_N_go_head (N.pos p) "" ltac:(lia)) as (d & tl & -> & _).
    by rewrite append_cons.
  - destruct (pretty_Z_pos p) as (_ & -> & _). by rewrite append_cons.
Qed.

Lemma append_not_empty (a b : string) : b ≠ "" → a +:+ b ≠ "".
Proof. intros Hb. destruct a; [by rewrite append_nil_l|by rewrite append_cons]. Qed.

(** X11.  A rating sent as text that starts with an integer is stored as
    that integer by both servers: white space before it is skipped, and
    whatever follows its last digit (a fraction, a unit, any text) is
    dropped.  So a rating sent as "4.9" or as " 4 of 5" is stored as 4.
    The integer is one that a Number holds exactly, below 2^53. *)
Theorem rating_text_is_stored_as_leading_integer
    X req env c u ws rest z v ts :
  callerOf X req = Some u →
  body req !! "moodValue" = Some (JStr (ws +:+ pretty z +:+ rest)) →
  allWhiteSpace ws = true →
  z ≠ 0 →
  - 2 ^ 53 < z < 2 ^ 53 →
  startsWithDigit rest = false →
  body req !! "recordedAt" = Some v →
  truthy (Some v) = true →
  Timestamp_fromDate X (new_Date X v) = Some ts →
  c !! autoId env = None →
  status (Server.submit X req env c).1 = 201
  ∧ moodValue <$> (Server.submit X req env c).2 !! autoId env = Some (Int z)
  ∧ status (InlineServer.submit X req env c).1 = 201
  ∧ moodValue <$> (InlineServer.submit X req env c).2 !! autoId env
    = Some (Int z).
Proof.
  intros Hu Hm Hws Hz Hsafe Hrest Hv Ht Hts Hid.
  assert (Htruthy : truthy (body req !! "moodValue") = true).
  { rewrite Hm. cbn [truthy]. apply negb_true_iff, String.eqb_neq.
    by apply append_not_empty, pretty_Z_not_empty. }
  assert (Hp : parseInt (body req !! "moodValue") = Some (Int z))
    by (rewrite Hm; by apply parseInt_JStr_leading).
  rewrite (Server_submit_caller X req u Hu).
  rewrite (InlineServer_submit_caller X req u Hu).
  rewrite (Routes_post_201 X u req env c v (Int z) ts Htruthy Hv Ht Hp Hts Hid).
  rewrite (InlineServer_post_201 u req env c (Int z) Htruthy Hp Hid).
  cbn [fst snd status]. by rewrite !lookup_insert_eq.
Qed.

Lemma rating_text_is_stored_as_leading_integer_witness :
  status (Server.submit exampleX submitFourOfFive exampleEnv
            exampleCollection).1 = 201
  ∧ moodValue <$> (Server.submit exampleX submitFourOfFive exampleEnv
                     exampleCollection).2 !! autoId exampleEnv
    = Some (Int 4)
  ∧ status (InlineServer.submit exampleX submitFourOfFive exampleEnv
              exampleCollection).1 = 201
  ∧ moodValue <$> (InlineServer.submit exampleX submitFourOfFive exampleEnv
                     exampleCollection).2 !! autoId exampleEnv
    = Some (Int 4).
Proof.
  apply (rating_text_is_stored_as_leading_integer exampleX submitFourOfFive
           exampleEnv exampleCollection "alice" " " " of 5" 4
           (JStr "2024-01-02") (mkTimestamp 1704153600 0));
    try reflexivity; lia.
Defined.


(** ** The user registry *)

Lemma AuthSync_verify_caller {S : Type} X req u
    (next : string → string → Env → S → AuthSync.SyncResponse * S) :
  callerOf X req = Some u →
  ∃ e, AuthSync.verifyFirebaseIdToken X req next = next u e.
Proof.
  unfold callerOf, AuthSync.verifyFirebaseIdToken.
  destruct (authorization req ≫= _) as [idToken|]; simpl; [|done].
  destruct (String.eqb idToken ""); [done|].
  destruct (verifyIdToken X idToken) as [tok|]; simpl; [|done].
  intros [= <-]. by exists (email tok).
Qed.

Lemma AuthSync_verify_no_caller {S : Type} X req
    (next : string → string → Env → S → AuthSync.SyncResponse * S) env st :
  callerOf X req = None →
  AuthSync.sync_status (AuthSync.verifyFirebaseIdToken X req next env st).1
  = 401
  ∧ (AuthSync.verifyFirebaseIdToken X req next env st).2 = st.
Proof.
  unfold callerOf, AuthSync.verifyFirebaseIdToken.
  destruct (authorization req ≫= _) as [idToken|]; simpl; [|done].
  destruct (String.eqb idToken ""); [done|].
  destruct (verifyIdToken X idToken) as [tok|]; simpl; [congruence|done].
Qed.

Lemma AuthSync_verify_run {S : Type} X req
    (next : string → string → Env → S → AuthSync.SyncResponse * S) env st :
  (∃ u e, AuthSync.verifyFirebaseIdToken X req next env st = next u e env st
          ∧ ∀ next' env' (st' : S),
              AuthSync.verifyFirebaseIdToken X req next' env' st'
              = next' u e env' st')
  ∨ (∃ m, ∀ next' env' (st' : S),
            AuthSync.verifyFirebaseIdToken X req next' env' st'
            = (AuthSync.mkSyncResponse 401 (AuthSync.SyncMessage m), st')).
Proof.
  unfold AuthSync.verifyFirebaseIdToken.
  destruct (authorization req ≫= _) as [idToken|]; [|right; by eexists].
  destruct (String.eqb idToken ""); [right; by eexists|].
  destruct (verifyIdToken X idToken) as [tok|]; [|right; by eexists].
  left. by exists (uid tok), (email tok).
Qed.

Lemma sync_answer u e env users :
  (AuthSync.sync u e env users).1
  = AuthSync.mkSyncResponse 200
      (AuthSync.Synced "User synced successfully with Firestore." u u)
  ∧ is_Some ((AuthSync.sync u e env users).2 !! u)
  ∧ (∀ k d, users !! k = Some d → (AuthSync.sync u e env users).2 !! k = Some d)
  ∧ (∀ k, k ≠ u → (AuthSync.sync u e env users).2 !! k = users !! k).
Proof.
  unfold AuthSync.sync, AuthSync.doc_set.
  destruct (users !! u) as [d0|] eqn:E; cbn [fst snd].
  - split_and!; [done|by rewrite E|done|done].
  - split_and!; [done|by rewrite lookup_insert_eq| |].
    + intros k d Hk. rewrite lookup_insert_ne; [done|congruence].
    + intros k Hk. by rewrite lookup_insert_ne.
Qed.

Lemma sync_again u e e' env env' users :
  AuthSync.sync u e' env' (AuthSync.sync u e env users).2
  = AuthSync.sync u e env users.
Proof.
  unfold AuthSync.sync, AuthSync.doc_set.
  destruct (users !! u) as [d0|] eqn:E; cbn [fst snd].
  - by rewrite E.
  - by rewrite lookup_insert_eq.
Qed.

(** X12.  [/api/auth/sync] enters a user once.  Whatever the request, no
    document of the registry is changed or removed, and repeating the
    request changes nothing more and gets the same answer.  A verified
    caller is answered 200 with their uid as [userId] and [firebaseUid],
    and is in the registry afterwards: entered now, or left as entered
    before, with the address held then.  An unverified request is answered
    401 and leaves the registry as it was. *)
Theorem auth_sync_registers_once X req env users :
  let r := AuthSync.post_auth_sync X req env users in
  (∀ k d, users !! k = Some d → r.2 !! k = Some d)
  ∧ (∀ env', AuthSync.post_auth_sync X req env' r.2 = r)
  ∧ (∀ u, callerOf X req = Some u →
       r.1 = AuthSync.mkSyncResponse 200
               (AuthSync.Synced "User synced successfully with Firestore."
                  u u)
       ∧ is_Some (r.2 !! u)
       ∧ (∀ k, k ≠ u → r.2 !! k = users !! k))
  ∧ (callerOf X req = None →
       AuthSync.sync_status r.1 = 401 ∧ r.2 = users).
Proof.
  intros r. subst r. unfold AuthSync.post_auth_sync. split_and!.
  - intros k d Hk.
    destruct (AuthSync_verify_run X req AuthSync.sync env users)
      as [(u & e & -> & _)|[m ->]]; [|done].
    by apply sync_answer.
  - intros env'.
    destruct (AuthSync_verify_run X req AuthSync.sync env users)
      as [(u & e & Hr & Hall)|[m Hall]].
    + rewrite Hr, Hall. apply sync_again.
    + by rewrite !Hall.
  - intros u Hu.
    destruct (AuthSync_verify_caller X req u AuthSync.sync Hu) as [e ->].
    destruct (sync_answer u e env users) as (H1 & H2 & _ & H4). done.
  - intros Hu. by apply AuthSync_verify_no_caller.
Qed.

(** X13.  The registry stays keyed by uid: when every document is filed
    under the uid it holds, it is so after any request; and the document
    entered for a new user holds the uid and the address of the token and
    the time of the store. *)
Theorem auth_sync_keeps_uid_keys X req env users :
  keyedByUid users →
  keyedByUid (AuthSync.post_auth_sync X req env users).2
  ∧ (∀ t tok,
       authorization req = Some ("Bearer " +:+ t) →
       occurs "Bearer " t = false →
       t ≠ "" →
       verifyIdToken X t = Some tok →
       users !! uid tok = None →
       (AuthSync.post_auth_sync X req env users).2 !! uid tok
       = Some (AuthSync.mkUserDoc (email tok) (uid tok) (serverTimestamp env))).
Proof.
  intros Hk. split.
  - unfold AuthSync.post_auth_sync.
    destruct (AuthSync_verify_run X req AuthSync.sync env users)
      as [(u & e & -> & _)|[m ->]]; [|done].
    unfold AuthSync.sync, AuthSync.doc_set.
    destruct (users !! u) as [d0|] eqn:E; [done|]. cbn [snd].
    intros k d. destruct (decide (k = u)) as [->|Hne].
    + rewrite lookup_insert_eq. by intros [= <-].
    + rewrite lookup_insert_ne by done. apply Hk.
  - intros t tok Hh Ht Hne Htok Hnew.
    unfold AuthSync.post_auth_sync, AuthSync.verifyFirebaseIdToken.
    rewrite Hh. cbn [mbind option_bind].
    pose proof (bearer_token "" t "" eq_refl (or_introl (conj eq_refl Ht)))
      as Hb.
    rewrite append_nil_l, append_nil_r in Hb. rewrite Hb.
    apply String.eqb_neq in Hne. rewrite Hne, Htok.
    unfold AuthSync.sync, AuthSync.doc_set. rewrite Hnew. cbn [snd].
    by rewrite lookup_insert_eq.
Qed.

Lemma auth_sync_keeps_uid_keys_witness :
  keyedByUid
    (AuthSync.post_auth_sync exampleX
       (headerRequest (Some "Bearer token-bob")) exampleEnv exampleUsers).2.
Proof.
  apply (auth_sync_keeps_uid_keys exampleX
           (headerRequest (Some "Bearer token-bob")) exampleEnv exampleUsers).
  intros k d. unfold exampleUsers.
  destruct (decide (k = "alice")) as [->|Hne].
  - rewrite lookup_singleton_eq. by intros [= <-].
  - by rewrite lookup_singleton_ne.
Defined.

(** ** The form and the server *)

Lemma toISOString_not_empty (t : Z) : toISOString t ≠ "".
Proof.
  rewrite toISOString_parts. destruct (isoDate (Day t)) as [|c s].
  - by rewrite append_nil_l.
  - by rewrite append_cons.
Qed.

Lemma Server_submit_keeps_range X req env c :
  ratingsInRange c →
  body req !! "moodValue" = None
  ∨ (∃ r, body req !! "moodValue" = Some (JInt r) ∧ 1 ≤ r ≤ 5) →
  ratingsInRange (Server.submit X req env c).2
  ∧ ratingsInRange (InlineServer.submit X req env c).2.
Proof.
  intros Hc Hb. split.
  - unfold Server.submit, Server.mount, Routes.router_post.
    apply (verify_preserves X ratingsInRange); [done|]. intros _.
    apply (verify_preserves X ratingsInRange); [done|]. intros u.
    by apply Routes_post_keeps_range.
  - unfold InlineServer.submit.
    apply (verify_preserves X ratingsInRange); [done|]. intros u.
    by apply InlineServer_post_keeps_range.
Qed.

Lemma Server_update_keeps_range X req env c :
  ratingsInRange c →
  body req !! "moodValue" = None
  ∨ (∃ r, body req !! "moodValue" = Some (JInt r) ∧ 1 ≤ r ≤ 5) →
  ratingsInRange (Server.update X req env c).2.
Proof.
  intros Hc Hb.
  unfold Server.update, Server.mount, Routes.router_put.
  apply (verify_preserves X ratingsInRange); [done|]. intros _.
  apply (verify_preserves X ratingsInRange); [done|]. intros u.
  by apply Routes_put_keeps_range.
Qed.

(** A rating from 1 to 5 goes into the body as the number it is. *)
Lemma JSON_number_rating (r : Z) :
  1 ≤ r ≤ 5 → MoodTrackerForm.JSON_number (Number_of_Z r) = JInt r.
Proof.
  intros Hr.
  assert (Hc : r = 1 ∨ r = 2 ∨ r = 3 ∨ r = 4 ∨ r = 5) by lia.
  by destruct Hc as [->|[->|[->|[->| ->]]]].
Qed.

(** What [handleSubmitMood] does with a form that holds an integer rating
    and a valid moment. *)
Lemma handleSubmitMood_integer idToken f r t :
  MoodTrackerForm.moodValue f = Number_of_Z r →
  - 2 ^ 53 < r < 2 ^ 53 →
  MoodTrackerForm.selectedDateTime f = Some (Some t) →
  MoodTrackerForm.handleSubmitMood (Some idToken) f
  = if (1 <=? r) && (r <=? 5)
    then match MoodTrackerForm.editingMoodId f with
         | Some id =>
             if String.eqb id ""
             then MoodTrackerForm.Fetch MoodTrackerForm.POST
                    (formRequest idToken r (MoodTrackerForm.moodNotes f) t "")
             else MoodTrackerForm.Fetch MoodTrackerForm.PUT
                    (formRequest idToken r (MoodTrackerForm.moodNotes f) t id)
         | None =>
             MoodTrackerForm.Fetch MoodTrackerForm.POST
               (formRequest idToken r (MoodTrackerForm.moodNotes f) t "")
         end
    else MoodTrackerForm.Refused "Mood value must be between 1 and 5.".
Proof.
  intros Hv Hsafe Ht. unfold MoodTrackerForm.handleSubmitMood.
  rewrite Hv, Ht, (form_check_of_Z r Hsafe).
  destruct ((1 <=? r) && (r <=? 5)) eqn:Hr; cbn [negb]; [|done].
  rewrite JSON_number_rating by lia. unfold formRequest.
  by destruct (MoodTrackerForm.editingMoodId f) as [id|];
    [destruct (String.eqb id "")|].
Qed.

Lemma formRequest_not_400 X idToken r notes t id env c :
  1 ≤ r ≤ 5 →
  ratingsInRange c →
  let req := formRequest idToken r notes t id in
  status (Server.submit X req env c).1 ≠ 400
  ∧ ratingsInRange (Server.submit X req env c).2
  ∧ status (Server.update X req env c).1 ≠ 400
  ∧ ratingsInRange (Server.update X req env c).2.
Proof.
  intros Hr Hc req.
  assert (Hmv : body req !! "moodValue" = Some (JInt r)) by done.
  assert (Hra : body req !! "recordedAt" = Some (JStr (toISOString t)))
    by done.
  split_and!.
  - unfold Server.submit, Server.mount, Routes.router_post.
    apply verify_status_not_400. intros _.
    apply verify_status_not_400. intros u.
    rewrite Routes_post_400, Hmv, Hra, truthy_JInt by lia. cbn [truthy].
    pose proof (toISOString_not_empty t) as Hne.
    apply String.eqb_neq in Hne. rewrite Hne.
    replace (r =? 0) with false by lia.
    by intros [?|?].
  - apply Server_submit_keeps_range; [done|right; eauto].
  - unfold Server.update, Server.mount, Routes.router_put.
    apply verify_status_not_400. intros _.
    apply verify_status_not_400. intros u. apply Routes_put_status.
  - apply Server_update_keeps_range; [done|right; eauto].
Qed.

(** X14.  What the form sends, the server does not refuse as incomplete.
    For a form that holds an integer rating and a valid moment,
    [handleSubmitMood] refuses a rating outside 1 to 5 and sends any
    other: as an update (PUT) to the mood being edited when there is one,
    as a submit (POST) otherwise, with the rating, the notes, the ISO
    string of the moment and the token of the user as bearer.  The router
    never answers such a request 400, and a collection whose ratings are
    all from 1 to 5 stays so. *)
Theorem form_request_passes_server_guards X idToken f r t env c :
  MoodTrackerForm.moodValue f = Number_of_Z r →
  - 2 ^ 53 < r < 2 ^ 53 →
  MoodTrackerForm.selectedDateTime f = Some (Some t) →
  ratingsInRange c →
  let req := formRequest idToken r (MoodTrackerForm.moodNotes f) t in
  (¬ 1 ≤ r ≤ 5 →
   MoodTrackerForm.handleSubmitMood (Some idToken) f
   = MoodTrackerForm.Refused "Mood value must be between 1 and 5.")
  ∧ (1 ≤ r ≤ 5 →
     (∀ id, MoodTrackerForm.editingMoodId f = Some id → id ≠ "" →
        MoodTrackerForm.handleSubmitMood (Some idToken) f
        = MoodTrackerForm.Fetch MoodTrackerForm.PUT (req id))
     ∧ (MoodTrackerForm.editingMoodId f = None
        ∨ MoodTrackerForm.editingMoodId f = Some "" →
        MoodTrackerForm.handleSubmitMood (Some idToken) f
        = MoodTrackerForm.Fetch MoodTrackerForm.POST (req ""))
     ∧ (∀ id, status (Server.submit X (req id) env c).1 ≠ 400
              ∧ ratingsInRange (Server.submit X (req id) env c).2
              ∧ status (Server.update X (req id) env c).1 ≠ 400
              ∧ ratingsInRange (Server.update X (req id) env c).2)).
Proof.
  intros Hv Hsafe Ht Hc req.
  rewrite (handleSubmitMood_integer idToken f r t Hv Hsafe Ht). split.
  - intros Hr. by replace ((1 <=? r) && (r <=? 5)) with false by lia.
  - intros Hr. replace ((1 <=? r) && (r <=? 5)) with true by lia.
    split_and!.
    + intros id -> Hid. apply String.eqb_neq in Hid. by rewrite Hid.
    + by intros [-> | ->].
    + intros id. by apply formRequest_not_400.
Qed.

Lemma form_request_passes_server_guards_witness :
  MoodTrackerForm.handleSubmitMood (Some "token-alice") exampleForm
  = MoodTrackerForm.Fetch MoodTrackerForm.POST
      (formRequest "token-alice" 4 "better" 1704196800000 "")
  ∧ MoodTrackerForm.handleSubmitMood (Some "token-alice")
      (MoodTrackerForm.handleEditMood exampleMood exampleForm)
    = MoodTrackerForm.Fetch MoodTrackerForm.PUT
        (formRequest "token-alice" 3 "fine" 1704067200000 "m1")
  ∧ status (Server.update exampleX
              (formRequest "token-alice" 3 "fine" 1704067200000 "m1")
              exampleEnv exampleCollection).1 ≠ 400.
Proof.
  assert (Hc : ratingsInRange exampleCollection).
  { intros id d. unfold exampleCollection.
    destruct (decide (id = "m1")) as [->|Hne].
    - rewrite lookup_singleton_eq. intros [= <-]. exists 3. by split.
    - by rewrite lookup_singleton_ne. }
  split_and!.
  - destruct (form_request_passes_server_guards exampleX "token-alice"
                exampleForm 4 1704196800000 exampleEnv exampleCollection
                eq_refl ltac:(lia) eq_refl Hc) as [_ H].
    destruct (H ltac:(lia)) as (_ & Hpost & _). apply Hpost. by left.
  - destruct (form_request_passes_server_guards exampleX "token-alice"
                (MoodTrackerForm.handleEditMood exampleMood exampleForm)
                3 1704067200000 exampleEnv exampleCollection
                eq_refl ltac:(lia) eq_refl Hc) as [_ H].
    destruct (H ltac:(lia)) as (Hput & _). by apply Hput.
  - destruct (form_request_passes_server_guards exampleX "token-alice"
                (MoodTrackerForm.handleEditMood exampleMood exampleForm)
                3 1704067200000 exampleEnv exampleCollection
                eq_refl ltac:(lia) eq_refl Hc) as [_ H].
    destruct (H ltac:(lia)) as (_ & _ & Hall). apply (Hall "m1").
Defined.

(** X15.  The older component and the router do not fit: its submit
    carries no [recordedAt], so the router answers every one of them 400
    "Recorded date and time is required." and stores nothing, whatever the
    rating.  The older server takes the same request: it answers 201 with
    the id of the new entry, stored for the caller with the rating of the
    form and the time of the store.  The rating of the form is an integer
    below 2^53. *)
Theorem older_form_needs_older_server X user r moodNotes m req env c u :
  OlderMoodTracker.handleSubmitMood user (Number_of_Z r) moodNotes
  = MoodTrackerForm.Fetch m req →
  - 2 ^ 53 < r < 2 ^ 53 →
  callerOf X req = Some u →
  Server.submit X req env c
  = (mkResponse 400 (Message "Recorded date and time is required."), c)
  ∧ (c !! autoId env = None →
     InlineServer.submit X req env c
     = (mkResponse 201
          (Added "Mood entry added successfully." (Some (autoId env))),
        <[autoId env := mkMoodDoc u (Int r) (JStr moodNotes)
                          (serverTimestamp env)]> c)).
Proof.
  unfold OlderMoodTracker.handleSubmitMood.
  destruct user as [idToken|]; [|done].
  intros Hf Hsafe. rewrite (form_check_of_Z r Hsafe) in Hf.
  destruct ((1 <=? r) && (r <=? 5)) eqn:Hr; cbn [negb] in Hf; [|done].
  rewrite JSON_number_rating in Hf by lia.
  injection Hf as <- <-. intros Hu.
  rewrite (Server_submit_caller X _ u Hu).
  rewrite (InlineServer_submit_caller X _ u Hu).
  split.
  - unfold Routes.post. cbn [body].
    rewrite lookup_insert_eq, truthy_JInt by lia.
    replace (r =? 0) with false by lia. cbn [negb].
    by rewrite lookup_insert_ne, lookup_singleton_ne by done.
  - intros Hfree.
    rewrite (InlineServer_post_201 u _ env c (Int r)); [| | |done].
    + unfold submittedDoc. cbn [body].
      rewrite lookup_insert_ne, lookup_singleton_eq by done.
      cbn [orElse truthy]. destruct (String.eqb moodNotes "") eqn:E; [|done].
      cbn [negb]. by apply String.eqb_eq in E as ->.
    + cbn [body]. rewrite lookup_insert_eq, truthy_JInt by lia.
      by replace (r =? 0) with false by lia.
    + cbn [body]. rewrite lookup_insert_eq. apply parseInt_JInt. lia.
Qed.

Lemma older_form_needs_older_server_witness :
  Server.submit exampleX (aliceRequest [("moodValue", JInt 4);
                                        ("notes", JStr "ok")] "")
    exampleEnv exampleCollection
  = (mkResponse 400 (Message "Recorded date and time is required."),
     exampleCollection).
Proof.
  apply (older_form_needs_older_server exampleX (Some "token-alice") 4 "ok"
           MoodTrackerForm.POST
           (aliceRequest [("moodValue", JInt 4); ("notes", JStr "ok")] "")
           exampleEnv exampleCollection "alice");
    [reflexivity|lia|reflexivity].
Defined.

(** X16.  Editing a mood and submitting the form sends an update of that
    mood: for a mood with a rating from 1 to 5, an id and a valid [Date],
    [handleEditMood] followed by [handleSubmitMood] sends a PUT to the id
    of the mood, with its rating, its notes and its own moment, whatever
    the form held before. *)
Theorem edit_then_submit_updates_that_mood idToken mood f value t r :
  MoodTracker.moodValue mood = Number_of_Z r →
  1 ≤ r ≤ 5 →
  MoodTracker.id mood ≠ "" →
  MoodTracker.recordedAt mood = MoodTracker.DateObject value →
  MoodTracker.moodDate mood = Some t →
  MoodTrackerForm.handleSubmitMood (Some idToken)
    (MoodTrackerForm.handleEditMood mood f)
  = MoodTrackerForm.Fetch MoodTrackerForm.PUT
      {| authorization := Some ("Bearer " +:+ idToken);
         body := {[ "moodValue" := JInt r;
                    "notes" := JStr (MoodTracker.notes mood);
                    "recordedAt" := JStr (toISOString t) ]};
         query_days := None;
         params_id := MoodTracker.id mood |}.
Proof.
  intros Hv Hr Hid Hd Ht.
  rewrite (handleSubmitMood_integer idToken _ r t); [|done|lia|].
  - replace ((1 <=? r) && (r <=? 5)) with true by lia.
    cbn [MoodTrackerForm.handleEditMood MoodTrackerForm.editingMoodId
         MoodTrackerForm.moodNotes].
    apply String.eqb_neq in Hid. by rewrite Hid.
  - cbn [MoodTrackerForm.handleEditMood MoodTrackerForm.selectedDateTime].
    unfold MoodTracker.moodDate in Ht. rewrite Hd in Ht |- *.
    cbn [MoodTrackerForm.dayjs]. by rewrite Ht.
Qed.

Lemma edit_then_submit_updates_that_mood_witness :
  MoodTrackerForm.handleSubmitMood (Some "token-alice")
    (MoodTrackerForm.handleEditMood exampleMood exampleForm)
  = MoodTrackerForm.Fetch MoodTrackerForm.PUT
      {| authorization := Some ("Bearer " +:+ "token-alice");
         body := {[ "moodValue" := JInt 3;
                    "notes" := JStr "fine";
                    "recordedAt" := JStr (toISOString 1704067200000) ]};
         query_days := None;
         params_id := "m1" |}.
Proof.
  apply (edit_then_submit_updates_that_mood "token-alice" exampleMood
           exampleForm 1704067200000 1704067200000 3);
    [reflexivity|lia|discriminate|reflexivity|reflexivity].
Defined.

(** ** Fetched moods *)

Lemma keyOf_DateObject (mood : MoodTracker.Mood) (v : Z) :
  MoodTracker.recordedAt mood = MoodTracker.DateObject v →
  - maxTime ≤ v ≤ maxTime →
  MoodTracker.moodDate mood = Some v ∧ keyOf mood = Some (isoDate (Day v)).
Proof.
  intros Hd Hv. unfold keyOf, MoodTracker.moodDate. rewrite Hd.
  rewrite (TimeClip_in_range v Hv). split; [done|].
  cbn [fmap option_fmap option_map]. by rewrite dateStringOf_isoDate.
Qed.

(** X17.  [fetchRecentMoods] dates a mood by the seconds of its
    timestamp, and the chart counts it on the UTC calendar day of those
    seconds: the nanoseconds play no part.  A mood without a timestamp, or
    one whose seconds are 0 (recorded at the very start of 1970), is dated
    at the moment of the fetch instead, and counted on that day. *)
Theorem fetched_mood_is_dated_by_seconds now recordedAt mood :
  MoodTracker.recordedAt mood
  = MoodTrackerForm.moodsWithDates_recordedAt now recordedAt →
  - maxTime ≤ now ≤ maxTime →
  match recordedAt with
  | Some ts => - 8640000000000 ≤ _seconds ts ≤ 8640000000000
  | None => True
  end →
  match recordedAt with
  | Some ts =>
      if _seconds ts =? 0
      then MoodTracker.moodDate mood = Some now
           ∧ keyOf mood = Some (isoDate (now / 86400000))
      else MoodTracker.moodDate mood = Some (_seconds ts * 1000)
           ∧ keyOf mood = Some (isoDate (_seconds ts / 86400))
  | None =>
      MoodTracker.moodDate mood = Some now
      ∧ keyOf mood = Some (isoDate (now / 86400000))
  end.
Proof.
  intros Hm Hnow Hts. unfold MoodTrackerForm.moodsWithDates_recordedAt in Hm.
  destruct recordedAt as [ts|].
  - destruct (_seconds ts =? 0) eqn:E.
    + exact (keyOf_DateObject mood now Hm Hnow).
    + assert (Hv : - maxTime ≤ _seconds ts * 1000 ≤ maxTime)
        by (rewrite maxTime_value; lia).
      destruct (keyOf_DateObject mood _ Hm Hv) as [H1 H2].
      split; [done|]. rewrite H2. unfold Day. rewrite msPerDay_value.
      do 2 f_equal.
      change 86400000 with (86400 * 1000).
      by rewrite Z.div_mul_cancel_r by lia.
  - exact (keyOf_DateObject mood now Hm Hnow).
Qed.

Lemma fetched_mood_is_dated_by_seconds_witness :
  MoodTracker.moodDate exampleMood = Some (1704067200 * 1000)
  ∧ keyOf exampleMood = Some (isoDate (1704067200 / 86400)).
Proof.
  apply (fetched_mood_is_dated_by_seconds 1704153600000
           (Some (mkTimestamp 1704067200 999999999)) exampleMood);
    [reflexivity|rewrite maxTime_value; lia|cbn; lia].
Defined.

(** X18.  The moment chosen in the form comes back in the list cut to
    the second, on the same UTC day: when the server parses the ISO string
    of a valid moment [t] back to [t] and stores the timestamp, the mood
    that [fetchRecentMoods] makes of it is dated [t] rounded down to a
    whole second, and the chart counts it on the UTC day of [t].  (For a
    [t] within the first second of 1970 the seconds are 0 and the mood is
    dated at the moment of the fetch.) *)
Theorem recorded_moment_round_trip X t ts now mood :
  - maxTime ≤ t ≤ maxTime →
  Date_parse X (toISOString t) = Some t →
  Timestamp_fromDate X (new_Date X (JStr (toISOString t))) = Some ts →
  MoodTracker.recordedAt mood
  = MoodTrackerForm.moodsWithDates_recordedAt now (Some ts) →
  _seconds ts = t / 1000
  ∧ (t / 1000 ≠ 0 →
     MoodTracker.moodDate mood = Some (t / 1000 * 1000)
     ∧ t - 1000 < t / 1000 * 1000 ≤ t
     ∧ keyOf mood = Some (MoodTracker.dateStringOf t)).
Proof.
  intros Ht Hp Hts Hm. cbn [new_Date] in Hts. rewrite Hp in Hts.
  rewrite <- (TimeClip_in_range t Ht) in Hts.
  apply Timestamp_fromDate_fields in Hts as [Hs _].
  split; [done|]. intros Hne.
  unfold MoodTrackerForm.moodsWithDates_recordedAt in Hm.
  rewrite Hs in Hm. apply Z.eqb_neq in Hne. rewrite Hne in Hm.
  assert (Hv : - maxTime ≤ t / 1000 * 1000 ≤ maxTime).
  { rewrite maxTime_value in *.
    pose proof (Z.mul_div_le t 1000 ltac:(lia)).
    pose proof (Z.mod_pos_bound t 1000 ltac:(lia)).
    pose proof (Z.div_mod t 1000 ltac:(lia)).
    assert (-8640000000000 ≤ t / 1000) by (apply Z.div_le_lower_bound; lia).
    lia. }
  destruct (keyOf_DateObject mood _ Hm Hv) as [H1 H2].
  split_and!; [done| | |].
  - pose proof (Z.mod_pos_bound t 1000 ltac:(lia)).
    pose proof (Z.div_mod t 1000 ltac:(lia)). lia.
  - pose proof (Z.mul_div_le t 1000 ltac:(lia)). lia.
  - rewrite H2, dateStringOf_isoDate. do 2 f_equal.
    unfold Day. rewrite msPerDay_value.
    change 86400000 with (1000 * 86400).
    rewrite <- !Z.div_div by lia. by rewrite Z.div_mul by lia.
Qed.

Lemma recorded_moment_round_trip_witness :
  _seconds (mkTimestamp 1704196800 123000000) = 1704196800123 / 1000.
Proof.
  apply (recorded_moment_round_trip exampleIsoX 1704196800123
           (mkTimestamp 1704196800 123000000) 1704153600000
           (MoodTracker.mkMood "m2" (Number_of_Z 4) "better"
              (MoodTracker.DateObject 1704196800000)));
    [rewrite maxTime_value; lia|reflexivity|reflexivity|reflexivity].
Defined.

(** ** The series of the chart *)

(** X19.  [prepareChartData] returns a series exactly when every mood
    has a moment that a [Date] can hold; one mood with an Invalid Date
    makes it throw, wherever it stands in the list. *)
Theorem chart_needs_valid_dates (l : list MoodTracker.Mood) :
  is_Some (MoodTracker.prepareChartData l) ↔ Forall validDate l.
Proof.
  rewrite <- (Forall_iff (λ mood, is_Some (MoodTracker.moodDate mood)))
    by apply is_Some_moodDate.
  split; [|apply prepareChartData_is_Some].
  intros [pts H]. apply (forEach_is_Some l []).
  unfold MoodTracker.prepareChartData in H.
  destruct (MoodTracker.forEach l []); [by eexists|done].
Qed.

Lemma Forall2_keys {A B : Type} (Q : A → B → Prop) (f : B → A)
    (ks : list A) (ps : list B) :
  Forall2 Q ks ps → (∀ k p, Q k p → k = f p) → map f ps = ks.
Proof.
  intros H Hf. induction H as [|k p ks ps Hkp _ IH]; [done|].
  cbn. by rewrite IH, <- (Hf k p Hkp).
Qed.

Lemma StronglySorted_Forall2 {A B : Type} (R1 : A → A → Prop)
    (R2 : B → B → Prop) (Q : A → B → Prop) (l1 : list A) (l2 : list B) :
  (∀ a b a' b', R1 a b → Q a a' → Q b b' → R2 a' b') →
  Forall2 Q l1 l2 → StronglySorted R1 l1 → StronglySorted R2 l2.
Proof.
  intros HR H. induction H as [|a a' l1 l2 Ha Hl IH]; intros Hs;
    [constructor|].
  apply StronglySorted_inv in Hs as [Hs Hall].
  constructor; [by apply IH|].
  clear IH Hs. induction Hl as [|b b' l1 l2 Hb Hl IH]; [constructor|].
  apply Forall_cons in Hall as [Hab Hall].
  constructor; [by eapply HR|by apply IH].
Qed.

(** X20.  For moods with valid dates [prepareChartData] returns a
    series that has one point for each UTC day on which the list has a
    mood, and no other; the points stand in ascending order of [x], each
    strictly after the one before, as a datetime axis needs them. *)
Theorem chart_has_one_point_per_day (l : list MoodTracker.Mood) :
  Forall validDate l →
  ∃ pts,
    MoodTracker.prepareChartData l = Some pts
    ∧ let days :=
        map (λ p, MoodTracker.dateStringOf (MoodTracker.x p)) pts in
      NoDup days
      ∧ (∀ day, day ∈ days ↔ ∃ mood, mood ∈ l ∧ keyOf mood = Some day)
      ∧ StronglySorted Z.lt (map MoodTracker.x pts).
Proof.
  intros Hl.
  destruct (proj1 (prepareChartData_is_Some l
                     ltac:(eapply Forall_impl;
                           [exact Hl|intros ?; apply is_Some_moodDate])))
    as [pts H].
  exists pts. split; [done|]. intros days.
  destruct (chart_points_entries l pts H) as (dm & Hdm & Hpts).
  destruct (forEach_from_nil l dm Hdm) as (Hnd & Hwk & Hkeys & _).
  assert (Hdays : days = MoodTracker.sortedDates dm).
  { apply (Forall2_keys _ _ _ _ Hpts).
    intros k p (e & _ & _ & -> & _). by rewrite dateStringOf_isoDate. }
  split_and!.
  - rewrite Hdays. unfold MoodTracker.sortedDates.
    by rewrite sortBy_Permutation.
  - intros day. by rewrite Hdays, sortedDates_keys, Hkeys.
  - pose proof (sortedDates_ascending dm Hwk Hnd) as Hs.
    assert (Hpts' : Forall2 (λ k x, k = isoDate (Day x)
                                    ∧ - maxTime ≤ x ≤ maxTime)
                      (MoodTracker.sortedDates dm) (map MoodTracker.x pts)).
    { apply Forall2_fmap_r. eapply Forall2_impl; [exact Hpts|].
      intros k p (e & _ & _ & ? & ?). done. }
    refine (StronglySorted_Forall2 _ _ _ _ _ _ Hpts' Hs).
    intros a b xa xb Hab [-> Hxa] [-> Hxb].
    rewrite !timeOfKey_isoDate in Hab by (by apply Day_bounds).
    unfold Day in Hab. rewrite msPerDay_value in Hab.
    pose proof (Z.div_mod xa 86400000 ltac:(lia)).
    pose proof (Z.mod_pos_bound xa 86400000 ltac:(lia)).
    pose proof (Z.div_mod xb 86400000 ltac:(lia)).
    pose proof (Z.mod_pos_bound xb 86400000 ltac:(lia)).
    lia.
Qed.

Lemma chart_has_one_point_per_day_witness :
  ∃ pts,
    MoodTracker.prepareChartData
      [moodNextDay; moodEvening; moodAfterMidnight; moodMorning] = Some pts
    ∧ map (λ p, MoodTracker.dateStringOf (MoodTracker.x p)) pts
      = ["2024-01-01"; "2024-01-02"]
    ∧ map MoodTracker.x pts = [1704139200000; 1704190000000]
    ∧ StronglySorted Z.lt (map MoodTracker.x pts).
Proof.
  destruct (chart_has_one_point_per_day
              [moodNextDay; moodEvening; moodAfterMidnight; moodMorning])
    as (pts & Hpts & _ & _ & Hs).
  { repeat constructor; unfold validDate, maxTime; cbn; lia. }
  exists pts. split; [done|].
  vm_compute in Hpts. injection Hpts as <-.
  split; [by vm_compute|]. split; [by vm_compute|]. exact Hs.
Defined.

(** ** The moment a day is plotted at *)

(** X21.  The [x] of a day's point is the moment of the first mood of
    that day in the list: later moods of the day change the mean, never
    the place of the point on the axis. *)
Theorem chart_x_is_first_mood_of_day (l : list MoodTracker.Mood)
    (pts : list MoodTracker.ChartPoint) :
  MoodTracker.prepareChartData l = Some pts →
  Forall (λ p, firstOn (MoodTracker.dateStringOf (MoodTracker.x p)) l
               = Some (MoodTracker.x p))
    pts.
Proof. apply chart_x_first. Qed.

Lemma chart_x_is_first_mood_of_day_witness :
  Forall (λ p, firstOn (MoodTracker.dateStringOf (MoodTracker.x p))
                 [moodEvening; moodMorning]
               = Some (MoodTracker.x p))
    [MoodTracker.chartPoint
       (MoodTracker.mkDayEntry (Number_of_Z 6) 2 1704139200000)].
Proof.
  apply (chart_x_is_first_mood_of_day [moodEvening; moodMorning]).
  by vm_compute.
Defined.

(** ** A day with one mood *)

Lemma lone_rating_point (r : Z) (t : Z) :
  1 ≤ r ≤ 5 →
  MoodTracker.y
    (MoodTracker.chartPoint (MoodTracker.mkDayEntry (Number_of_Z r) 1 t))
  = Dec2 (r * 100)
  ∧ MoodTracker.moodColors r
    = Some (MoodTracker.fillColor
              (MoodTracker.marker
                 (MoodTracker.chartPoint
                    (MoodTracker.mkDayEntry (Number_of_Z r) 1 t)))).
Proof.
  intros Hr.
  assert (Hc : r = 1 ∨ r = 2 ∨ r = 3 ∨ r = 4 ∨ r = 5) by lia.
  destruct Hc as [->|[->|[->|[->| ->]]]]; by vm_compute.
Qed.

(** X22.  A day with a single mood rated from 1 to 5 is plotted as it
    is: the [y] of its point is the rating, to two decimals, and the
    marker has the colour of that rating. *)
Theorem lone_rating_is_plotted_as_it_is (l : list MoodTracker.Mood)
    (pts : list MoodTracker.ChartPoint) (p : MoodTracker.ChartPoint) (r : Z) :
  MoodTracker.prepareChartData l = Some pts →
  p ∈ pts →
  ratingsOn (MoodTracker.dateStringOf (MoodTracker.x p)) l
  = [Number_of_Z r] →
  1 ≤ r ≤ 5 →
  MoodTracker.y p = Dec2 (r * 100)
  ∧ MoodTracker.moodColors r
    = Some (MoodTracker.fillColor (MoodTracker.marker p)).
Proof.
  intros H Hp Hrs Hr.
  destruct (chart_points_entries l pts H) as (dm & Hdm & Hpts).
  destruct (forEach_from_nil l dm Hdm) as (_ & _ & _ & Htot & Hcnt).
  pose proof (Forall2_right _
                (λ p, ∃ e, MoodTracker.get
                             (MoodTracker.dateStringOf (MoodTracker.x p)) dm
                           = Some e
                           ∧ p = MoodTracker.chartPoint e)
                _ _ Hpts) as Hall.
  rewrite Forall_forall in Hall.
  destruct (Hall ltac:(intros k q (e & He & -> & Hk & _); exists e;
                       by rewrite dateStringOf_isoDate, <- Hk) p Hp)
    as (e & He & ->).
  destruct (totalOf_count_get _ dm e He) as [Ht Hc].
  rewrite Htot, Hrs in Ht. rewrite Hcnt, Hrs in Hc.
  destruct e as [total count t]. cbn in Hc.
  unfold sumFrom in Ht. cbn [foldl MoodTracker.totalRating] in Ht.
  rewrite (Number_add_of_Z 0 r) in Ht by lia.
  rewrite Z.add_0_l in Ht. subst total.
  assert (count = 1) as -> by lia.
  by apply lone_rating_point.
Qed.

Lemma lone_rating_is_plotted_as_it_is_witness :
  MoodTracker.y
    (MoodTracker.chartPoint
       (MoodTracker.mkDayEntry (Number_of_Z 3) 1 1704067200000))
  = Dec2 (3 * 100)
  ∧ MoodTracker.moodColors 3
    = Some (MoodTracker.fillColor
              (MoodTracker.marker
                 (MoodTracker.chartPoint
                    (MoodTracker.mkDayEntry (Number_of_Z 3) 1
                       1704067200000)))).
Proof.
  apply (lone_rating_is_plotted_as_it_is [exampleMood]
           [MoodTracker.chartPoint
              (MoodTracker.mkDayEntry (Number_of_Z 3) 1 1704067200000)]
           _ 3);
    [by vm_compute|by left|by vm_compute|lia].
Defined.

(** ** The middleware, twice *)

Lemma verify_twice X req (next : string → Handler) :
  verifyFirebaseIdToken X req (λ _, verifyFirebaseIdToken X req next)
  = verifyFirebaseIdToken X req next.
Proof.
  unfold verifyFirebaseIdToken.
  destruct (authorization req ≫= _) as [idToken|]; [|done].
  destruct (String.eqb idToken ""); [done|].
  by destruct (verifyIdToken X idToken).
Qed.

(** X23.  Mounting the router behind the middleware, which the router
    runs again on each route, changes nothing: every route of the server
    answers and acts as the route of the router does on its own, and the
    subject it acts for is the one of the token. *)
Theorem mounted_router_is_the_router X req :
  Server.submit X req = Routes.router_post X req
  ∧ Server.listRecent X req = Routes.router_get_recent X req
  ∧ Server.update X req = Routes.router_put X req
  ∧ Server.delete X req = Routes.router_delete X req.
Proof.
  unfold Server.submit, Server.listRecent, Server.update, Server.delete,
    Server.mount, Routes.router_post, Routes.router_get_recent,
    Routes.router_put, Routes.router_delete.
  by rewrite !verify_twice.
Qed.

(** ** Callers and the entries of others *)

Lemma verify_run X req :
  (∃ u, callerOf X req = Some u
        ∧ ∀ next, verifyFirebaseIdToken X req next = next u)
  ∨ (∃ m, callerOf X req = None
          ∧ ∀ next env c,
              verifyFirebaseIdToken X req next env c
              = (mkResponse 401 (Message m), c)).
Proof.
  unfold callerOf, verifyFirebaseIdToken.
  destruct (authorization req ≫= _) as [idToken|]; [|right; by eexists].
  cbn [mbind option_bind].
  destruct (String.eqb idToken ""); [right; by eexists|].
  destruct (verifyIdToken X idToken) as [tok|]; [|right; by eexists].
  left. by exists (uid tok).
Qed.

Lemma Routes_put_other X u req env c id d :
  c !! id = Some d → userId d ≠ u →
  (Routes.put X u req env c).2 !! id = Some d.
Proof.
  intros Hd Hu. destruct (decide (id = params_id req)) as [->|Hne].
  - unfold Routes.put. rewrite Hd.
    apply String.eqb_neq in Hu. by rewrite Hu.
  - by rewrite (Routes_put_lookup X u req env c id Hne).
Qed.

Lemma Routes_delete_other u req env c id d :
  c !! id = Some d → userId d ≠ u →
  (Routes.delete u req env c).2 !! id = Some d.
Proof.
  intros Hd Hu. destruct (decide (id = params_id req)) as [->|Hne].
  - unfold Routes.delete. rewrite Hd.
    apply String.eqb_neq in Hu. by rewrite Hu.
  - by rewrite (Routes_delete_lookup u req env c id Hne).
Qed.

(** X24.  A caller can change only entries of their own: an entry whose
    owner is not the verified subject of the request (or any entry, when
    no subject is verified) is in the collection, unchanged, after the
    request, whichever route of either server it went to and whatever it
    carried. *)
Theorem entries_of_others_are_untouched X req env c id d :
  c !! id = Some d →
  callerOf X req ≠ Some (userId d) →
  Forall (λ route : Request → Handler, (route req env c).2 !! id = Some d)
    [Server.submit X; Server.listRecent X; Server.update X; Server.delete X;
     InlineServer.submit X; InlineServer.listRecent X].
Proof.
  intros Hd Hu.
  destruct (verify_run X req) as [(u & Hc & Hv)|(m & Hc & Hv)].
  - assert (Hne : userId d ≠ u) by congruence.
    repeat constructor;
      unfold Server.submit, Server.listRecent, Server.update, Server.delete,
        Server.mount, Routes.router_post, Routes.router_get_recent,
        Routes.router_put, Routes.router_delete,
        InlineServer.submit, InlineServer.listRecent;
      rewrite !Hv.
    + rewrite Routes_post_lookup; [done|right; eauto].
    + by rewrite (proj1 (get_recent_unchanged X u req env c)).
    + by apply Routes_put_other.
    + by apply Routes_delete_other.
    + rewrite InlineServer_post_lookup; [done|right; eauto].
    + by rewrite (proj2 (get_recent_unchanged X u req env c)).
  - repeat constructor;
      unfold Server.submit, Server.listRecent, Server.update, Server.delete,
        Server.mount, InlineServer.submit, InlineServer.listRecent;
      by rewrite !Hv.
Qed.

Lemma entries_of_others_are_untouched_witness :
  Forall (λ route : Request → Handler,
            (route updateByBob exampleEnv exampleCollection).2 !! "m1"
            = Some (mkMoodDoc "alice" (Int 3) (JStr "fine")
                      (mkTimestamp 1704067200 0)))
    [Server.submit exampleX; Server.listRecent exampleX;
     Server.update exampleX; Server.delete exampleX;
     InlineServer.submit exampleX; InlineServer.listRecent exampleX].
Proof.
  apply (entries_of_others_are_untouched exampleX updateByBob exampleEnv
           exampleCollection "m1");
    [reflexivity|discriminate].
Defined.

(** ** Repeating a request *)




